(** * AutoDeploy Agent: history reconciliation, deployment pipeline and
      orchestration state machine

    A shallow embedding of [src/App.tsx] and of the service modules it calls
    ([services/githubService], [services/geminiService],
    [services/vercelService]), with the properties of the specification
    stated and proved over it.

    Conventions.
    - JavaScript strings are [string], holding the UTF-8 bytes of the text;
      [===] on strings is [String.eqb].
    - The [number] timestamps are integers ([Date.now()]), modelled in [Z].
    - Everything outside the component (network, random source, clock,
      code-generation service) is an oracle that answers from the trace of
      the calls made so far; every call is appended to that trace.
    - [localStorage] is a finite map from key to the value whose JSON text
      is stored under it. *)

From Stdlib Require Import ZArith Ascii String Sorted DecimalString.
From stdpp Require Import gmap strings list sorting.

Local Open Scope string_scope.
Local Open Scope list_scope.

(** ** Data model ([types.ts]) *)

Module FileNode.
Record t := mk { path : string; content : string }.
End FileNode.

Module GeneratedProject.
Record t := mk { name : string; description : string; files : list FileNode.t }.
End GeneratedProject.

Module SavedProject.
Record t := mk {
  id : string;
  timestamp : Z;
  prompt : string;
  project : GeneratedProject.t }.
End SavedProject.

Module AppConfig.
(** [vercelToken?] and [useBetaDeploy?] are optional; the component
    initialises them to [''] and [false], which are as falsy as
    [undefined] in every test the code makes. *)
Record t := mk {
  githubToken : string;
  githubUsername : string;
  vercelToken : string;
  useBetaDeploy : bool }.
End AppConfig.

Inductive Step := CONFIG | PROMPT | GENERATING | REVIEW | DEPLOYING | SUCCESS.

Inductive LogType := info | success | error | warning.

Module LogEntry.
(** The [id] and [timestamp] of a log entry only serve the log viewer and
    are left out. *)
Record t := mk { message : string; type : LogType }.
End LogEntry.

Module DeploymentResult.
Record t := mk { repoUrl : string; deployUrl : option string; isBeta : bool }.
End DeploymentResult.

#[global] Instance Step_eq_dec : EqDecision Step.
Proof. solve_decision. Defined.
#[global] Instance LogType_eq_dec : EqDecision LogType.
Proof. solve_decision. Defined.
#[global] Instance FileNode_eq_dec : EqDecision FileNode.t.
Proof. solve_decision. Defined.
#[global] Instance GeneratedProject_eq_dec : EqDecision GeneratedProject.t.
Proof. solve_decision. Defined.
#[global] Instance SavedProject_eq_dec : EqDecision SavedProject.t.
Proof. solve_decision. Defined.

(** ** History reconciler: the state updater of [syncHistory] *)

Section ArraySort.
Context {A : Type}.

(** [Array.prototype.sort(compareFn)] is a stable sort (ECMAScript 2019):
    with a comparator that is a total preorder its result is the one
    sorted arrangement that keeps equal elements in their original order.
    Insertion from the right computes that arrangement: [x], which stood
    before every element of [l], goes before the first [y] with
    [compareFn x y <= 0]. *)
Fixpoint sort_insert (compareFn : A → A → Z) (x : A) (l : list A) : list A :=
  match l with
  | [] => [x]
  | y :: l' =>
      if (compareFn x y <=? 0)%Z then x :: y :: l'
      else y :: sort_insert compareFn x l'
  end.

Definition Array_sort (compareFn : A → A → Z) (l : list A) : list A :=
  foldr (sort_insert compareFn) [] l.
End ArraySort.

(** [(a, b) => b.timestamp - a.timestamp] *)
Definition byTimestampDesc (a b : SavedProject.t) : Z :=
  (SavedProject.timestamp b - SavedProject.timestamp a)%Z.

(** [prev.forEach(p => { if (!combined.find(c => c.id === p.id)) combined.push(p); })]
    The search runs over [combined] as it stands when [p] is visited, that
    is over the cloud records and the local records pushed so far. *)
Definition pushMissing (combined prev : list SavedProject.t) : list SavedProject.t :=
  fold_left
    (λ combined p,
       match find (λ c, String.eqb (SavedProject.id c) (SavedProject.id p)) combined with
       | Some _ => combined
       | None => combined ++ [p]
       end)
    prev combined.

(** The updater passed to [setSavedProjects] in [syncHistory]:
    [combined = [...cloudHistory]], the [forEach], then the sort. The
    specification calls it [merge(local, remote)]. *)
Definition merge (prev cloudHistory : list SavedProject.t) : list SavedProject.t :=
  Array_sort byTimestampDesc (pushMissing cloudHistory prev).

Definition ids (h : list SavedProject.t) : list string := SavedProject.id <$> h.

(** The local records the cloud list does not know: [L \ ids(R)]. *)
Definition absentFrom (cloudHistory : list SavedProject.t) (p : SavedProject.t) : Prop :=
  SavedProject.id p ∉ ids cloudHistory.

#[global] Instance absentFrom_dec cloudHistory p : Decision (absentFrom cloudHistory p).
Proof. unfold absentFrom. apply _. Defined.

(** The records that carry a given id. *)
Definition hasId (i : string) (p : SavedProject.t) : Prop := SavedProject.id p = i.

#[global] Instance hasId_dec i p : Decision (hasId i p).
Proof. unfold hasId. apply _. Defined.

(** Newest first. *)
Definition newer_or_equal (a b : SavedProject.t) : Prop :=
  (SavedProject.timestamp b <= SavedProject.timestamp a)%Z.


(** ** The outside world: errors, responses, calls *)

Module Error.
(** A thrown value. Everything these code paths throw is an [Error]: the
    [new Error(...)] of the services, the [TypeError] of a rejected
    [fetch], the [SyntaxError] of a rejected [response.json()], the
    [URIError] of [encodeURIComponent]. *)
Record t := mk { message : string }.
End Error.

Module ApiError.
(** The JSON body of a response that is not [ok]; a field that is absent
    or not a string is [None]. *)
Record t := mk { code : option string; message : option string }.
End ApiError.

(** What [await fetch(...)] followed by reading the body can give: the
    request itself rejects; or the response is [ok] and [json()] rejects or
    gives the payload; or the response is not [ok] and [json()] rejects or
    gives the error object. *)
Inductive Fetch (A : Type) :=
  | Rejected (e : Error.t)
  | Ok (json : Error.t + A)
  | NotOk (json : Error.t + ApiError.t).
Arguments Rejected {A} e.
Arguments Ok {A} json.
Arguments NotOk {A} json.

Module RepoData.
Record t := mk { html_url : string }.
End RepoData.

Module VercelProject.
Record t := mk { name : string; html_url : string }.
End VercelProject.

Module GistFile.
(** [raw_url] absent is [""], as falsy as [undefined]. *)
Record t := mk { raw_url : string }.
End GistFile.

Module Gist.
Record t := mk { id : string; description : string; files : gmap string GistFile.t }.
End Gist.

Inductive Mode := generate | paste.

#[global] Instance Mode_eq_dec : EqDecision Mode.
Proof. solve_decision. Defined.

(** The answer of the code-generation service to [generateContent]: the
    call rejects, the response has no text, the text is not JSON, or it
    parses to a project. The request carries a [responseSchema] that
    requires [name], [description] and [files]; a text that parses is taken
    to match it, which is what the cast [as GeneratedProject] of the source
    assumes without checking. *)
Inductive AiAnswer :=
  | AiRejected (e : Error.t)
  | AiNoText
  | AiBadJson
  | AiProject (p : GeneratedProject.t).

(** One constructor per way the component reaches outside itself. *)
Inductive Call :=
  (* GET /user *)
  | VerifyToken (token : string)
  (* POST /user/repos, body {name, description, private: false, auto_init: true} *)
  | CreateRepo (token name description : string)
  (* GET /repos/{username}/{repoName}/contents/{path} *)
  | GetContents (token username repoName path : string)
  (* PUT /repos/{username}/{repoName}/contents/{path}, body {message, content, sha} *)
  | PutContents (token username repoName path message content : string) (sha : option string)
  (* POST https://api.vercel.com/v9/projects *)
  | CreateVercel (vercelToken projectName repoName githubType : string)
  (* GET /gists *)
  | ListGists (token : string)
  (* GET of a gist file's raw_url *)
  | GetRaw (raw_url : string)
  (* PATCH /gists/{id} and POST /gists, body {description, public: false, files} *)
  | PatchGist (token gistId : string) (history : list SavedProject.t)
  | PostGist (token : string) (history : list SavedProject.t)
  (* process.env.API_KEY *)
  | GetApiKey
  (* ai.models.generateContent *)
  | GenerateContent (prompt : string) (mode : Mode)
  (* Math.random().toString(36).substring(7) *)
  | RandomId
  (* Math.floor(Math.random() * 1000) *)
  | RandomSuffix
  (* Date.now() *)
  | DateNow.

Definition Answer (c : Call) : Type :=
  match c with
  | VerifyToken _ => Fetch string
  | CreateRepo _ _ _ => Fetch RepoData.t
  | GetContents _ _ _ _ => Fetch (option string)
  | PutContents _ _ _ _ _ _ _ => Fetch unit
  | CreateVercel _ _ _ _ => Fetch (option VercelProject.t)
  | ListGists _ => Fetch (list Gist.t)
  | GetRaw _ => Fetch (option (list SavedProject.t))
  | PatchGist _ _ _ => Fetch unit
  | PostGist _ _ => Fetch unit
  | GetApiKey => string
  | GenerateContent _ _ => AiAnswer
  | RandomId => string
  | RandomSuffix => nat
  | DateNow => Z
  end.

(** The environment answers a call knowing the calls made before it. *)
Definition Env : Type := ∀ (past : list Call) (c : Call), Answer c.

(** ** Component state *)

(** What is kept under a [localStorage] key: the value whose
    [JSON.stringify] text the code stores. *)
Inductive Stored :=
  | StoredConfig (c : AppConfig.t)
  | StoredHistory (h : list SavedProject.t).

(** The [useState] cells of [App]. A handler closes over the values of the
    render that created it and writes through the setters. *)
Module App.
Record t := mk {
  step : Step;
  config : AppConfig.t;
  logs : list LogEntry.t;
  prompt : string;
  project : option GeneratedProject.t;
  deploymentResult : option DeploymentResult.t;
  mode : Mode;
  savedProjects : list SavedProject.t;
  showHistory : bool;
  showAbout : bool;
  isSyncing : bool }.

Definition initial : t :=
  mk CONFIG (AppConfig.mk "" "" "" false) [] "" None None generate [] false false false.

Definition with_step (v : Step) (a : t) : t :=
  mk v (config a) (logs a) (prompt a) (project a) (deploymentResult a) (mode a)
     (savedProjects a) (showHistory a) (showAbout a) (isSyncing a).
Definition with_config (v : AppConfig.t) (a : t) : t :=
  mk (step a) v (logs a) (prompt a) (project a) (deploymentResult a) (mode a)
     (savedProjects a) (showHistory a) (showAbout a) (isSyncing a).
Definition with_logs (v : list LogEntry.t) (a : t) : t :=
  mk (step a) (config a) v (prompt a) (project a) (deploymentResult a) (mode a)
     (savedProjects a) (showHistory a) (showAbout a) (isSyncing a).
Definition with_prompt (v : string) (a : t) : t :=
  mk (step a) (config a) (logs a) v (project a) (deploymentResult a) (mode a)
     (savedProjects a) (showHistory a) (showAbout a) (isSyncing a).
Definition with_project (v : option GeneratedProject.t) (a : t) : t :=
  mk (step a) (config a) (logs a) (prompt a) v (deploymentResult a) (mode a)
     (savedProjects a) (showHistory a) (showAbout a) (isSyncing a).
Definition with_deploymentResult (v : option DeploymentResult.t) (a : t) : t :=
  mk (step a) (config a) (logs a) (prompt a) (project a) v (mode a)
     (savedProjects a) (showHistory a) (showAbout a) (isSyncing a).
Definition with_savedProjects (v : list SavedProject.t) (a : t) : t :=
  mk (step a) (config a) (logs a) (prompt a) (project a) (deploymentResult a) (mode a)
     v (showHistory a) (showAbout a) (isSyncing a).
Definition with_showHistory (v : bool) (a : t) : t :=
  mk (step a) (config a) (logs a) (prompt a) (project a) (deploymentResult a) (mode a)
     (savedProjects a) v (showAbout a) (isSyncing a).
Definition with_isSyncing (v : bool) (a : t) : t :=
  mk (step a) (config a) (logs a) (prompt a) (project a) (deploymentResult a) (mode a)
     (savedProjects a) (showHistory a) (showAbout a) v.
Definition with_mode (v : Mode) (a : t) : t :=
  mk (step a) (config a) (logs a) (prompt a) (project a) (deploymentResult a) v
     (savedProjects a) (showHistory a) (showAbout a) (isSyncing a).
Definition with_showAbout (v : bool) (a : t) : t :=
  mk (step a) (config a) (logs a) (prompt a) (project a) (deploymentResult a) (mode a)
     (savedProjects a) (showHistory a) v (isSyncing a).
End App.

(** The component state, the browser's [localStorage] and the calls made so
    far, oldest first. *)
Record State := mkState {
  app : App.t;
  localStorage : gmap string Stored;
  trace : list Call }.

Definition with_app (f : App.t → App.t) (s : State) : State :=
  mkState (f (app s)) (localStorage s) (trace s).

Definition initialState : State := mkState App.initial ∅ [].

(** ** Computations: state and exceptions *)

Inductive Outcome (A : Type) :=
  | Returned (a : A)
  | Thrown (e : Error.t).
Arguments Returned {A} a.
Arguments Thrown {A} e.

(** An [async] function body run to completion: it ends by returning or by
    throwing, and the state it has written stays written either way. *)
Definition M (A : Type) : Type := State → Outcome A * State.

Definition ret {A} (a : A) : M A := λ s, (Returned a, s).

Definition bind {A B} (m : M A) (k : A → M B) : M B :=
  λ s, match m s with
       | (Returned a, s') => k a s'
       | (Thrown e, s') => (Thrown e, s')
       end.

Definition throw {A} (e : Error.t) : M A := λ s, (Thrown e, s).

(** [try { body } catch (e) { handler }] *)
Definition try_catch {A} (body : M A) (handler : Error.t → M A) : M A :=
  λ s, match body s with
       | (Returned a, s') => (Returned a, s')
       | (Thrown e, s') => handler e s'
       end.

Definition modify (f : State → State) : M unit := λ s, (Returned tt, f s).

Definition when (b : bool) (m : M unit) : M unit := if b then m else ret tt.

Notation "x <- m ;; k" := (bind m (λ x, k))
  (at level 100, m at next level, right associativity).
Notation "m ;; k" := (bind m (λ _, k))
  (at level 100, right associativity).

(** ** Small pieces of JavaScript *)

(** [!s] for a string. *)
Definition falsy (s : string) : bool := String.eqb s "".

(** The characters [trim] removes are the white space and the line
    terminators of ECMAScript. Of one byte: U+0009 to U+000D and U+0020. *)
Definition is_white_space (c : ascii) : bool :=
  let n := nat_of_ascii c in
  (Nat.leb 9 n && Nat.leb n 13) || Nat.eqb n 32.

(** Of two bytes: U+00A0. *)
Definition is_white_space2 (c1 c2 : ascii) : bool :=
  (N_of_ascii c1 =? 194)%N && (N_of_ascii c2 =? 160)%N.

(** Of three bytes: U+1680, U+2000 to U+200A, U+2028, U+2029, U+202F,
    U+205F, U+3000 and U+FEFF. *)
Definition is_white_space3 (c1 c2 c3 : ascii) : bool :=
  let lead := (N_of_ascii c1 * 256 + N_of_ascii c2)%N in
  let n3 := N_of_ascii c3 in
  if (lead =? 225 * 256 + 154)%N then (n3 =? 128)%N
  else if (lead =? 226 * 256 + 128)%N then
    ((128 <=? n3)%N && (n3 <=? 138)%N) || (n3 =? 168)%N || (n3 =? 169)%N || (n3 =? 175)%N
  else if (lead =? 226 * 256 + 129)%N then (n3 =? 159)%N
  else if (lead =? 227 * 256 + 128)%N then (n3 =? 128)%N
  else if (lead =? 239 * 256 + 187)%N then (n3 =? 191)%N
  else false.

(** [!s.trim()]: nothing but white space. *)
Fixpoint blank (s : string) : bool :=
  match s with
  | EmptyString => true
  | String c1 s1 =>
      if is_white_space c1 then blank s1
      else
        match s1 with
        | String c2 s2 =>
            if is_white_space2 c1 c2 then blank s2
            else
              match s2 with
              | String c3 s3 => is_white_space3 c1 c2 c3 && blank s3
              | EmptyString => false
              end
        | EmptyString => false
        end
  end.

(** [s.slice(0, n)]: the first [n] UTF-16 code units of the text. A
    character of one, two or three bytes is one code unit; a character of
    four bytes is a surrogate pair, and a cut between its halves keeps the
    high surrogate [0xD800 + ((code point - 0x10000) >> 10)], written here
    in the three bytes of its generalised UTF-8 form. *)
Definition high_surrogate (c1 c2 c3 : ascii) : string :=
  let top := ((N_of_ascii c1 mod 8) * 256 + (N_of_ascii c2 mod 64) * 4
              + (N_of_ascii c3 mod 64) / 16)%N in
  let high := (55296 + (top - 64))%N in
  String (ascii_of_N 237)
    (String (ascii_of_N (128 + (high / 64) mod 64))
       (String (ascii_of_N (128 + high mod 64)) EmptyString)).

Fixpoint slice_from_start (n : nat) (s : string) : string :=
  match n, s with
  | O, _ | _, EmptyString => EmptyString
  | S n', String c1 s1 =>
      let lead := N_of_ascii c1 in
      if (lead <? 192)%N then String c1 (slice_from_start n' s1)
      else
        match s1 with
        | String c2 s2 =>
            if (lead <? 224)%N then String c1 (String c2 (slice_from_start n' s2))
            else
              match s2 with
              | String c3 s3 =>
                  if (lead <? 240)%N then
                    String c1 (String c2 (String c3 (slice_from_start n' s3)))
                  else
                    match s3 with
                    | String c4 s4 =>
                        match n' with
                        | O => high_surrogate c1 c2 c3
                        | S n'' =>
                            String c1 (String c2 (String c3 (String c4
                              (slice_from_start n'' s4))))
                        end
                    | EmptyString => s
                    end
              | EmptyString => s
              end
        | EmptyString => s
        end
  end.

Arguments slice_from_start : simpl never.

(** [s.split('/')[0]] *)
Fixpoint before_slash (s : string) : string :=
  match s with
  | EmptyString => EmptyString
  | String c s' => if Ascii.eqb c "/"%char then EmptyString else String c (before_slash s')
  end.

(** A value in a template literal: [undefined] prints as such. *)
Definition template (v : option string) : string := default "undefined" v.

(** [v || d] for a string that may be absent. *)
Definition or_else (v : option string) (d : string) : string :=
  match v with
  | Some s => if falsy s then d else s
  | None => d
  end.

(** A number in a template literal. *)
Definition decimal (n : nat) : string := NilZero.string_of_uint (Nat.to_uint n).

(** ** Services and handlers *)

Section Component.
Variable env : Env.

(** [btoa(unescape(encodeURIComponent(content)))]: base64 of the UTF-8
    bytes of a file's text. [encodeURIComponent] throws a [URIError] on a
    text with a lone surrogate, so the encoder gives the encoded text or
    the error it throws. *)
Variable btoa_utf8 : string → Error.t + string.

(** Make a call: the environment answers and the call is recorded. *)
Definition call (c : Call) : M (Answer c) :=
  λ s, (Returned (env (trace s) c), mkState (app s) (localStorage s) (trace s ++ [c])).

(** *** State setters *)

Definition setStep (v : Step) : M unit := modify (with_app (App.with_step v)).
Definition setConfig (v : AppConfig.t) : M unit := modify (with_app (App.with_config v)).
Definition setPrompt (v : string) : M unit := modify (with_app (App.with_prompt v)).
Definition setProject (v : option GeneratedProject.t) : M unit :=
  modify (with_app (App.with_project v)).
Definition setDeploymentResult (v : DeploymentResult.t) : M unit :=
  modify (with_app (App.with_deploymentResult (Some v))).
Definition setSavedProjects (v : list SavedProject.t) : M unit :=
  modify (with_app (App.with_savedProjects v)).
Definition setShowHistory (v : bool) : M unit := modify (with_app (App.with_showHistory v)).
Definition setIsSyncing (v : bool) : M unit := modify (with_app (App.with_isSyncing v)).
Definition setMode (v : Mode) : M unit := modify (with_app (App.with_mode v)).
Definition setShowAbout (v : bool) : M unit := modify (with_app (App.with_showAbout v)).
Definition setLogs (v : list LogEntry.t) : M unit := modify (with_app (App.with_logs v)).

(** [setConfig(prev => f(prev))] *)
Definition updateConfig (f : AppConfig.t → AppConfig.t) : M unit :=
  modify (with_app (λ a, App.with_config (f (App.config a)) a)).

Definition localStorage_setItem (key : string) (v : Stored) : M unit :=
  modify (λ s, mkState (app s) (<[key := v]> (localStorage s)) (trace s)).

(** [setLogs(prev => [...prev, entry])] *)
Definition addLog (message : string) (type : LogType) : M unit :=
  modify (with_app (λ a, App.with_logs (App.logs a ++ [LogEntry.mk message type]) a)).

Definition handleError (e : Error.t) : M unit := addLog (Error.message e) error.

(** *** [services/githubService] *)

Definition verifyGithubToken (token : string) : M string :=
  response <- call (VerifyToken token);;
  match response with
  | Rejected e => throw e
  | NotOk _ => throw (Error.mk "Invalid GitHub Token")
  | Ok (inl e) => throw e
  | Ok (inr login) => ret login
  end.

Definition createRepository (token name description : string) : M RepoData.t :=
  response <- call (CreateRepo token name description);;
  match response with
  | Rejected e => throw e
  | NotOk (inl e) => throw e
  | NotOk (inr err) =>
      throw (Error.mk ("GitHub Create Repo Error: " +:+ template (ApiError.message err)))
  | Ok (inl e) => throw e
  | Ok (inr data) => ret data
  end.

(** The probe of [pushFilesToRepo]: the [sha] of the file when the path
    already holds one, [undefined] when the probe fails in any way. *)
Definition probeSha (token username repoName path : string) : M (option string) :=
  try_catch
    (checkRes <- call (GetContents token username repoName path);;
     match checkRes with
     | Rejected e => throw e
     | Ok (inl e) => throw e
     | Ok (inr sha) => ret sha
     | NotOk _ => ret None
     end)
    (λ _, ret None).

Fixpoint pushFilesToRepo (token username repoName : string) (files : list FileNode.t)
    (onProgress : string → M unit) : M unit :=
  match files with
  | [] => ret tt
  | file :: rest =>
      onProgress ("Pushing " +:+ FileNode.path file +:+ "...");;
      sha <- probeSha token username repoName (FileNode.path file);;
      match btoa_utf8 (FileNode.content file) with
      | inl e => throw e
      | inr contentEncoded =>
          res <- call (PutContents token username repoName (FileNode.path file)
                         ("Add " +:+ FileNode.path file +:+ " via AutoDeploy Agent")
                         contentEncoded sha);;
          match res with
          | Rejected e => throw e
          | NotOk _ => throw (Error.mk ("Failed to upload " +:+ FileNode.path file))
          | Ok _ => pushFilesToRepo token username repoName rest onProgress
          end
      end
  end.

Definition GIST_FILENAME : string := "autodeploy-data.json".
Definition GIST_DESC : string := "autodeploy-sync".

Definition findSyncGist (gists : list Gist.t) : option Gist.t :=
  find (λ g, String.eqb (Gist.description g) GIST_DESC) gists.

(** Every failure inside is caught and turned into [null]. *)
Definition loadHistoryFromGist (token : string) : M (option (list SavedProject.t)) :=
  try_catch
    (res <- call (ListGists token);;
     match res with
     | Rejected e => throw e
     | NotOk _ => ret None
     | Ok (inl e) => throw e
     | Ok (inr gists) =>
         match findSyncGist gists with
         | None => ret None
         | Some syncGist =>
             match Gist.files syncGist !! GIST_FILENAME with
             | Some file =>
                 if falsy (GistFile.raw_url file) then ret None
                 else
                   contentRes <- call (GetRaw (GistFile.raw_url file));;
                   match contentRes with
                   | Rejected e => throw e
                   | Ok (inl e) | NotOk (inl e) => throw e
                   | Ok (inr history) => ret (Some (default [] history))
                   | NotOk (inr _) => ret (Some [])
                   end
             | None => ret None
             end
         end
     end)
    (λ _, ret None).

(** The error object of a list request that is not [ok] has no [find]:
    the [TypeError] lands in the [catch] like every other failure. The
    [lastUpdated] stamp of the payload is left out. *)
Definition saveHistoryToGist (token : string) (history : list SavedProject.t) : M unit :=
  try_catch
    (listRes <- call (ListGists token);;
     match listRes with
     | Rejected e => throw e
     | Ok (inl e) | NotOk (inl e) => throw e
     | NotOk (inr _) => throw (Error.mk "gists.find is not a function")
     | Ok (inr gists) =>
         match findSyncGist gists with
         | Some existingGist =>
             r <- call (PatchGist token (Gist.id existingGist) history);;
             match r with Rejected e => throw e | _ => ret tt end
         | None =>
             r <- call (PostGist token history);;
             match r with Rejected e => throw e | _ => ret tt end
         end
     end)
    (λ _, ret tt).

(** *** [services/geminiService] *)

Definition generateProjectCode (prompt : string) (mode : Mode) : M GeneratedProject.t :=
  apiKey <- call GetApiKey;;
  if falsy apiKey then
    throw (Error.mk "Gemini API Key is missing from environment variables.")
  else
    response <- call (GenerateContent prompt mode);;
    match response with
    | AiProject p => ret p
    | AiRejected _ | AiNoText | AiBadJson =>
        throw (Error.mk "I failed to process the code. Please try again.")
    end.

(** *** [services/vercelService] *)

Definition createVercelProject (vercelToken projectName repoName githubType : string)
    : M (option VercelProject.t) :=
  response <- call (CreateVercel vercelToken projectName repoName githubType);;
  match response with
  | Rejected e => throw e
  | NotOk (inl e) => throw e
  | NotOk (inr err) =>
      if bool_decide (ApiError.code err = Some "PROJECT_ALREADY_EXISTS") then
        ret (Some (VercelProject.mk projectName
                     ("https://vercel.com/" +:+ before_slash repoName +:+ "/" +:+ projectName)))
      else
        throw (Error.mk (or_else (ApiError.message err) "Failed to create Vercel project"))
  | Ok (inl e) => throw e
  | Ok (inr v) => ret v
  end.


(** *** [App.tsx]: history *)

(** The quotation mark of the log messages. *)
Definition dquote : string := String (ascii_of_nat 34) EmptyString.

(** [loadHistoryFromGist] never throws, so the [catch] of the source is
    kept but idle; [finally] runs after either way out. *)
Definition syncHistory (token : string) (silent : bool) : M unit :=
  if falsy token then ret tt
  else
    when (negb silent) (setIsSyncing true);;
    try_catch
      (when (negb silent) (addLog "Syncing projects with GitHub Cloud..." info);;
       cloudHistory <- loadHistoryFromGist token;;
       match cloudHistory with
       | Some cloudHistory =>
           (prev <- (λ s, (Returned (App.savedProjects (app s)), s));;
            let combined := merge prev cloudHistory in
            localStorage_setItem "autodeploy_history" (StoredHistory combined);;
            setSavedProjects combined);;
           when (negb silent) (addLog "History synced successfully." success)
       | None =>
           when (negb silent)
             (addLog "No cloud history found. Creating new sync file..." info)
       end)
      (λ _, when (negb silent) (addLog "Failed to sync history." error));;
    when (negb silent) (setIsSyncing false).

(** [syncHistory] up to its first [await]: the guard and, unless silent,
    the flag and the log line. Answers whether the handler goes on. *)
Definition syncHistory_begin (token : string) (silent : bool) : M bool :=
  if falsy token then ret false
  else
    when (negb silent) (setIsSyncing true);;
    when (negb silent) (addLog "Syncing projects with GitHub Cloud..." info);;
    ret true.

(** What is left of [syncHistory] once the cloud answers. *)
Definition syncHistory_run (token : string) (silent : bool) : M unit :=
  try_catch
    (cloudHistory <- loadHistoryFromGist token;;
     match cloudHistory with
     | Some cloudHistory =>
         (prev <- (λ s, (Returned (App.savedProjects (app s)), s));;
          let combined := merge prev cloudHistory in
          localStorage_setItem "autodeploy_history" (StoredHistory combined);;
          setSavedProjects combined);;
         when (negb silent) (addLog "History synced successfully." success)
     | None =>
         when (negb silent)
           (addLog "No cloud history found. Creating new sync file..." info)
     end)
    (λ _, when (negb silent) (addLog "Failed to sync history." error));;
  when (negb silent) (setIsSyncing false).

(** [saveHistory] is called without [await]; its effects on the component
    state and on [localStorage] happen at once and the push to the gist
    follows, which no later step of a caller reads. *)
Definition saveHistory (render : App.t) (newHistory : list SavedProject.t) : M unit :=
  setSavedProjects newHistory;;
  localStorage_setItem "autodeploy_history" (StoredHistory newHistory);;
  if falsy (AppConfig.githubToken (App.config render)) then ret tt
  else
    try_catch
      (saveHistoryToGist (AppConfig.githubToken (App.config render)) newHistory)
      (λ _, ret tt).

Definition saveConfig (newConfig : AppConfig.t) : M unit :=
  localStorage_setItem "autodeploy_config" (StoredConfig newConfig).

(** [{ id: Math.random().toString(36).substring(7), timestamp: Date.now(), prompt, project }] *)
Definition newEntry (prompt : string) (project : GeneratedProject.t) : M SavedProject.t :=
  id <- call RandomId;;
  timestamp <- call DateNow;;
  ret (SavedProject.mk id timestamp prompt project).

(** [p => p.project.name === project.name && p.prompt === prompt] *)
Definition sameNameAndPrompt (project : GeneratedProject.t) (prompt : string)
    (p : SavedProject.t) : bool :=
  String.eqb (GeneratedProject.name (SavedProject.project p)) (GeneratedProject.name project)
  && String.eqb (SavedProject.prompt p) prompt.

Definition saveCurrentProject (render : App.t) : M unit :=
  match App.project render with
  | None => ret tt
  | Some project =>
      entry <- newEntry (App.prompt render) project;;
      let isDuplicate :=
        existsb (sameNameAndPrompt project (App.prompt render)) (App.savedProjects render) in
      if negb isDuplicate then
        let updated := entry :: App.savedProjects render in
        saveHistory render updated;;
        addLog ("Project " +:+ dquote +:+ GeneratedProject.name project +:+ dquote
                +:+ " saved to history.") success
      else
        addLog ("Project " +:+ dquote +:+ GeneratedProject.name project +:+ dquote
                +:+ " is already saved.") warning
  end.

(** The two log lines of [saveCurrentProject]. *)
Definition savedLine (project : GeneratedProject.t) : LogEntry.t :=
  LogEntry.mk ("Project " +:+ dquote +:+ GeneratedProject.name project +:+ dquote
               +:+ " saved to history.") success.
Definition alreadySavedLine (project : GeneratedProject.t) : LogEntry.t :=
  LogEntry.mk ("Project " +:+ dquote +:+ GeneratedProject.name project +:+ dquote
               +:+ " is already saved.") warning.

(** The record a successful generation creates, when the generation
    service has answered at [s0]. *)
Definition generatedEntry (render : App.t) (generated : GeneratedProject.t) (s0 : State)
    : SavedProject.t :=
  SavedProject.mk (env (trace s0) RandomId) (env (trace s0 ++ [RandomId]) DateNow)
    (App.prompt render) generated.

Definition loadProject (entry : SavedProject.t) : M unit :=
  setPrompt (SavedProject.prompt entry);;
  setProject (Some (SavedProject.project entry));;
  setStep REVIEW;;
  setShowHistory false;;
  addLog ("Loaded project " +:+ dquote +:+ GeneratedProject.name (SavedProject.project entry)
          +:+ dquote +:+ " from history.") info.

Definition deleteProject (render : App.t) (id : string) : M unit :=
  let updated :=
    List.filter (λ p, negb (String.eqb (SavedProject.id p) id)) (App.savedProjects render) in
  saveHistory render updated.

(** *** [App.tsx]: login *)

Definition handleLogin (render : App.t) : M unit :=
  let config := App.config render in
  if falsy (AppConfig.githubToken config) then ret tt
  else
    addLog "Verifying GitHub credentials..." info;;
    try_catch
      (username <- verifyGithubToken (AppConfig.githubToken config);;
       let newConfig :=
         AppConfig.mk (AppConfig.githubToken config) username
           (AppConfig.vercelToken config) (AppConfig.useBetaDeploy config) in
       setConfig newConfig;;
       saveConfig newConfig;;
       addLog ("Hello, " +:+ username +:+ "! Login successful.") success;;
       setStep PROMPT;;
       syncHistory (AppConfig.githubToken config) false)
      handleError.

(** [handleLogin] up to its [await]: the guard and the log line. Answers
    whether the handler goes on. *)
Definition handleLogin_begin (render : App.t) : M bool :=
  if falsy (AppConfig.githubToken (App.config render)) then ret false
  else
    addLog "Verifying GitHub credentials..." info;;
    ret true.

(** What is left of [handleLogin] once the verification answers, up to the
    call of [syncHistory]. Answers whether the login succeeded, in which
    case [syncHistory] starts. *)
Definition handleLogin_run (render : App.t) : M bool :=
  let config := App.config render in
  try_catch
    (username <- verifyGithubToken (AppConfig.githubToken config);;
     let newConfig :=
       AppConfig.mk (AppConfig.githubToken config) username
         (AppConfig.vercelToken config) (AppConfig.useBetaDeploy config) in
     setConfig newConfig;;
     saveConfig newConfig;;
     addLog ("Hello, " +:+ username +:+ "! Login successful.") success;;
     setStep PROMPT;;
     ret true)
    (λ err, handleError err;; ret false).

(** *** [App.tsx]: start-up *)

(** The [useEffect] that runs once when the component mounts. The stored
    configuration is merged into the state (it carries all four fields, as
    [saveConfig] is only given whole configurations, so the merge replaces
    them all) and, when it carries a token, the token is verified; the
    stored history is put into the state; the callbacks of the verification
    run after that. A value under a key that is not of the kind the
    component writes there has none of the fields read here and is passed
    over. *)
Definition restoreSession : M unit :=
  storage <- (λ s, (Returned (localStorage s), s));;
  verified <-
    match storage !! "autodeploy_config" with
    | Some (StoredConfig parsed) =>
        updateConfig (λ _, parsed);;
        if falsy (AppConfig.githubToken parsed) then ret None
        else
          r <- try_catch (u <- verifyGithubToken (AppConfig.githubToken parsed);; ret (Some u))
                 (λ _, ret None);;
          ret (Some (AppConfig.githubToken parsed, r))
    | _ => ret None
    end;;
  match storage !! "autodeploy_history" with
  | Some (StoredHistory savedHistory) => setSavedProjects savedHistory
  | _ => ret tt
  end;;
  match verified with
  | Some (token, Some u) =>
      updateConfig (λ prev, AppConfig.mk (AppConfig.githubToken prev) u
                              (AppConfig.vercelToken prev) (AppConfig.useBetaDeploy prev));;
      setStep PROMPT;;
      addLog ("Welcome back, " +:+ u +:+ ". Session restored.") success;;
      syncHistory token true
  | Some (_, None) =>
      addLog "Saved token expired or invalid. Please login again." warning;;
      setStep CONFIG
  | None => ret tt
  end.

(** The effect up to the point where it has run through: the stored
    configuration and history are in the state. Answers the token whose
    verification is under way, if any. *)
Definition restoreSession_begin : M (option string) :=
  storage <- (λ s, (Returned (localStorage s), s));;
  token <-
    match storage !! "autodeploy_config" with
    | Some (StoredConfig parsed) =>
        updateConfig (λ _, parsed);;
        ret (if falsy (AppConfig.githubToken parsed) then None
             else Some (AppConfig.githubToken parsed))
    | _ => ret None
    end;;
  match storage !! "autodeploy_history" with
  | Some (StoredHistory savedHistory) => setSavedProjects savedHistory
  | _ => ret tt
  end;;
  ret token.

(** The verification and its [then] and [catch] callbacks. Answers whether
    the session was restored, in which case a silent [syncHistory] starts. *)
Definition restoreSession_run (token : string) : M bool :=
  try_catch
    (u <- verifyGithubToken token;;
     updateConfig (λ prev, AppConfig.mk (AppConfig.githubToken prev) u
                             (AppConfig.vercelToken prev) (AppConfig.useBetaDeploy prev));;
     setStep PROMPT;;
     addLog ("Welcome back, " +:+ u +:+ ". Session restored.") success;;
     ret true)
    (λ _, addLog "Saved token expired or invalid. Please login again." warning;;
          setStep CONFIG;;
          ret false).

(** *** [App.tsx]: code generation *)

(** Up to the first [await]: the guard, the phase change, the log line.
    Answers whether the handler goes on. *)
Definition handleGenerate_begin (render : App.t) : M bool :=
  if blank (App.prompt render) then ret false
  else
    setStep GENERATING;;
    (match App.mode render with
     | generate =>
         addLog ("I'm brainstorming code for: " +:+ dquote
                 +:+ slice_from_start 30 (App.prompt render) +:+ "..." +:+ dquote) info
     | paste => addLog "Analyzing code structure..." info
     end);;
    ret true.

(** The [try] block and its [catch]. *)
Definition handleGenerate_run (render : App.t) : M unit :=
  try_catch
    (generated <- generateProjectCode (App.prompt render) (App.mode render);;
     setProject (Some generated);;
     addLog ("Prepared " +:+ dquote +:+ GeneratedProject.name generated +:+ dquote
             +:+ " with " +:+ decimal (length (GeneratedProject.files generated))
             +:+ " files.") success;;
     setStep REVIEW;;
     entry <- newEntry (App.prompt render) generated;;
     saveHistory render (entry :: App.savedProjects render))
    (λ err, handleError err;; setStep PROMPT).

Definition handleGenerate (render : App.t) : M unit :=
  go <- handleGenerate_begin render;;
  if go then handleGenerate_run render else ret tt.


(** *** [App.tsx]: deployment *)

(** [if (!project || !config.githubUsername) return;] *)
Definition handleDeploy_guard (render : App.t) : option GeneratedProject.t :=
  match App.project render with
  | Some project =>
      if falsy (AppConfig.githubUsername (App.config render)) then None else Some project
  | None => None
  end.

(** [(msg) => addLog(msg)], the progress callback of [handleDeploy]. *)
Definition onProgress (msg : string) : M unit := addLog msg info.

(** Step 3 of the pipeline: the hosting URL, if any, and [isBetaSuccess]. *)
Definition autoDeploy (config : AppConfig.t) (repoName : string) : M (option string * bool) :=
  if AppConfig.useBetaDeploy config && negb (falsy (AppConfig.vercelToken config)) then
    addLog "3. [Beta] Creating Vercel Project automatically..." info;;
    try_catch
      (vProject <- createVercelProject (AppConfig.vercelToken config) repoName
                     (AppConfig.githubUsername config +:+ "/" +:+ repoName) "github";;
       match vProject with
       | Some vProject =>
           let vUrl := "https://vercel.com/" +:+ AppConfig.githubUsername config +:+ "/"
                       +:+ VercelProject.name vProject in
           addLog "[Beta] Project created! Build triggered on Vercel." success;;
           ret (Some vUrl, true)
       | None => ret (None, false)
       end)
      (λ e, addLog ("[Beta] Auto-deploy failed (" +:+ Error.message e
                    +:+ "). Falling back to manual mode.") warning;;
            ret (None, false))
  else
    addLog "3. Skipping auto-deploy (Beta disabled or no token)." info;;
    ret (None, false).

(** Step 1 of the pipeline: the repository name with its random suffix
    in 0..999, and the repository. *)
Definition createStep (config : AppConfig.t) (project : GeneratedProject.t)
    : M (string * RepoData.t) :=
  suffix <- call RandomSuffix;;
  let repoName := GeneratedProject.name project +:+ "-" +:+ decimal (suffix mod 1000) in
  addLog ("1. Creating repository '" +:+ repoName +:+ "' on GitHub...") info;;
  repoData <- createRepository (AppConfig.githubToken config) repoName
                (GeneratedProject.description project);;
  addLog "GitHub Repository created successfully." success;;
  ret (repoName, repoData).

(** Step 2 of the pipeline. *)
Definition uploadStep (config : AppConfig.t) (repoName : string)
    (project : GeneratedProject.t) : M unit :=
  addLog "2. Uploading source code..." info;;
  pushFilesToRepo (AppConfig.githubToken config) (AppConfig.githubUsername config) repoName
    (GeneratedProject.files project) onProgress;;
  addLog "Source code uploaded." success.

(** The body of the [try] block of [handleDeploy] up to the value handed
    to [setDeploymentResult]: the pipeline [deploy(project, credentials)]
    of the specification. *)
Definition deploy (config : AppConfig.t) (project : GeneratedProject.t)
    : M DeploymentResult.t :=
  created <- createStep config project;;
  uploadStep config created.1 project;;
  hosting <- autoDeploy config created.1;;
  ret (DeploymentResult.mk (RepoData.html_url created.2) hosting.1 hosting.2).

(** Up to the first [await]. *)
Definition handleDeploy_begin : M unit :=
  setStep DEPLOYING;;
  addLog "Initiating deployment sequence..." warning.

(** The [try] block and its [catch]. *)
Definition handleDeploy_run (render : App.t) (project : GeneratedProject.t) : M unit :=
  try_catch
    (result <- deploy (App.config render) project;;
     setDeploymentResult result;;
     setStep SUCCESS)
    (λ err, handleError err;; setStep REVIEW).

Definition handleDeploy (render : App.t) : M unit :=
  match handleDeploy_guard render with
  | None => ret tt
  | Some project => handleDeploy_begin;; handleDeploy_run render project
  end.

(** *** Rendering: the controls that exist and accept a click *)

(** The left panel is replaced by the About text while [showAbout] holds,
    and the history drawer covers the screen while [showHistory] holds. *)
Definition panelVisible (a : App.t) : bool :=
  negb (App.showAbout a) && negb (App.showHistory a).

(** [<button onClick={handleGenerate} disabled={step === Step.GENERATING || !prompt.trim()}>]
    inside [(step === Step.PROMPT || step === Step.GENERATING) && ...]. *)
Definition generateButton (a : App.t) : bool :=
  panelVisible a
  && (bool_decide (App.step a = PROMPT) || bool_decide (App.step a = GENERATING))
  && negb (bool_decide (App.step a = GENERATING) || blank (App.prompt a)).

(** [<button onClick={handleDeploy} disabled={step === Step.DEPLOYING}>]
    inside [(step === Step.REVIEW || step === Step.DEPLOYING) && project && ...]. *)
Definition deployButton (a : App.t) : bool :=
  panelVisible a
  && (bool_decide (App.step a = REVIEW) || bool_decide (App.step a = DEPLOYING))
  && bool_decide (is_Some (App.project a))
  && negb (bool_decide (App.step a = DEPLOYING)).

(** The History button of the header: [step !== Step.CONFIG]. *)
Definition historyButton (a : App.t) : bool :=
  negb (App.showHistory a) && negb (bool_decide (App.step a = CONFIG)).

(** The login form: [step === Step.CONFIG]. *)
Definition loginForm (a : App.t) : bool :=
  panelVisible a && bool_decide (App.step a = CONFIG).

(** The prompt text area: [disabled={step === Step.GENERATING}]. *)
Definition promptArea (a : App.t) : bool :=
  panelVisible a && bool_decide (App.step a = PROMPT).

(** The two mode buttons: [disabled={step === Step.GENERATING}]. *)
Definition modeButton (a : App.t) : bool :=
  panelVisible a && bool_decide (App.step a = PROMPT).

(** The Load Test Code button: [mode === 'paste'], inside
    [(step === Step.PROMPT || step === Step.GENERATING) && ...]. *)
Definition templateButton (a : App.t) : bool :=
  panelVisible a
  && (bool_decide (App.step a = PROMPT) || bool_decide (App.step a = GENERATING))
  && bool_decide (App.mode a = paste).

(** The Load AutoDeploy Source button beside it:
    [config.githubUsername === 'Littlefish319']. *)
Definition selfSourceButton (a : App.t) : bool :=
  templateButton a && String.eqb (AppConfig.githubUsername (App.config a)) "Littlefish319".

(** The Vercel token input of the login form, and the beta check box:
    [disabled={!config.vercelToken}]. *)
Definition betaCheckbox (a : App.t) : bool :=
  loginForm a && negb (falsy (AppConfig.vercelToken (App.config a))).

(** Back to Editor, shown with the project in [REVIEW] and with the result
    in [SUCCESS]. *)
Definition backButton (a : App.t) : bool :=
  panelVisible a
  && ((bool_decide (App.step a = REVIEW) && bool_decide (is_Some (App.project a)))
      || (bool_decide (App.step a = SUCCESS)
          && bool_decide (is_Some (App.deploymentResult a)))).

(** Save to History, inside
    [(step === Step.REVIEW || step === Step.DEPLOYING) && project && ...]. *)
Definition saveButton (a : App.t) : bool :=
  panelVisible a
  && (bool_decide (App.step a = REVIEW) || bool_decide (App.step a = DEPLOYING))
  && bool_decide (is_Some (App.project a)).

(** Create New App, inside [step === Step.SUCCESS && deploymentResult && ...]. *)
Definition createNewButton (a : App.t) : bool :=
  panelVisible a && bool_decide (App.step a = SUCCESS)
  && bool_decide (is_Some (App.deploymentResult a)).

(** The About button of the header, under the drawer while that is open. *)
Definition aboutButton (a : App.t) : bool := negb (App.showHistory a).

(** Close & Return to App, at the foot of the About text. *)
Definition closeAboutButton (a : App.t) : bool :=
  App.showAbout a && negb (App.showHistory a).

(** Sync Cloud History, in the drawer: [config.githubToken && ...],
    [disabled={isSyncing}]. *)
Definition syncButton (a : App.t) : bool :=
  App.showHistory a && negb (falsy (AppConfig.githubToken (App.config a)))
  && negb (App.isSyncing a).

(** *** The event loop *)

(** A handler that has started and not yet finished: what is left of it,
    with the render and the values it closed over. *)
Inductive Run :=
  | GenerateRun (render : App.t)
  | DeployRun (render : App.t) (project : GeneratedProject.t)
  | SyncRun (token : string) (silent : bool)
  | RestoreRun (token : string)
  | LoginRun (render : App.t).

Record Sys := mkSys { state : State; inFlight : list Run }.

Inductive Event :=
  | TypeToken (v : string)
  | SubmitLogin
  | TypePrompt (v : string)
  | ClickGenerate
  | ClickDeploy
  | ClickHistory
  | ClickSavedProject (i : nat)
  (* the [i]-th run in flight gets its answers and runs to its end *)
  | Settle (i : nat)
  | TypeVercelToken (v : string)
  | CheckBeta (checked : bool)
  | ClickAbout
  | ClickCloseAbout
  (* the cross of the drawer or the backdrop beside it *)
  | ClickCloseHistory
  | ClickSync
  | ClickDelete (i : nat)
  | ClickMode (v : Mode)
  (* [code] is the text [getTestTemplate()] gives *)
  | ClickLoadTestTemplate (code : string)
  (* [code] is the text [getSelfSourceCode()] gives *)
  | ClickLoadSelfSource (code : string)
  | ClickBack
  | ClickSave
  | ClickCreateNew.

Definition exec (m : M unit) (s : State) : State := (m s).2.

Definition is_deploy (r : Run) : bool :=
  match r with DeployRun _ _ => true | _ => false end.

(** [syncHistory] started and left in flight when it goes on past its
    guard. *)
Definition startSync (token : string) (silent : bool) (s : State) (runs : list Run) : Sys :=
  match syncHistory_begin token silent s with
  | (Returned true, s') => mkSys s' (runs ++ [SyncRun token silent])
  | (_, s') => mkSys s' runs
  end.

(** [handleLoadTestTemplate] and [handleLoadSelfSource]; the texts come
    from [services/templateService]. *)
Definition handleLoadTestTemplate (code : string) : M unit :=
  setPrompt code;;
  addLog "Loaded Test Template (Hello World)." success.

Definition handleLoadSelfSource (code : string) : M unit :=
  setPrompt code;;
  addLog "Loaded AutoDeploy Agent source code. Ready to replicate." success.

(** [() => { setStep(Step.PROMPT); setProject(null); setLogs([]); setPrompt(''); }] *)
Definition createNewApp : M unit :=
  setStep PROMPT;;
  setProject None;;
  setLogs [];;
  setPrompt "".

(** One event, handled to the next suspension point. A click on a control
    that is absent or disabled reaches no handler. A handler that awaits
    an answer is left in flight and goes on when it settles; what it does
    from there on to its end changes, between two answers, nothing but the
    log, and is taken in one piece. The push to the gist that follows a
    change of the history changes nothing at all and is taken with the
    handler that starts it. *)
Definition dispatch (ev : Event) (sys : Sys) : Sys :=
  let s := state sys in
  let a := app s in
  match ev with
  | TypeToken v =>
      if loginForm a then
        let c := App.config a in
        mkSys (exec (setConfig (AppConfig.mk v (AppConfig.githubUsername c)
                                  (AppConfig.vercelToken c) (AppConfig.useBetaDeploy c))) s)
              (inFlight sys)
      else sys
  | SubmitLogin =>
      if loginForm a then
        match handleLogin_begin a s with
        | (Returned true, s') => mkSys s' (inFlight sys ++ [LoginRun a])
        | (_, s') => mkSys s' (inFlight sys)
        end
      else sys
  | TypePrompt v =>
      if promptArea a then mkSys (exec (setPrompt v) s) (inFlight sys) else sys
  | ClickGenerate =>
      if generateButton a then
        match handleGenerate_begin a s with
        | (Returned true, s') => mkSys s' (inFlight sys ++ [GenerateRun a])
        | (_, s') => mkSys s' (inFlight sys)
        end
      else sys
  | ClickDeploy =>
      if deployButton a then
        match handleDeploy_guard a with
        | Some project =>
            mkSys (exec handleDeploy_begin s) (inFlight sys ++ [DeployRun a project])
        | None => sys
        end
      else sys
  | ClickHistory =>
      if historyButton a then mkSys (exec (setShowHistory true) s) (inFlight sys) else sys
  | ClickSavedProject i =>
      if App.showHistory a then
        match App.savedProjects a !! i with
        | Some entry => mkSys (exec (loadProject entry) s) (inFlight sys)
        | None => sys
        end
      else sys
  | Settle i =>
      match inFlight sys !! i with
      | Some (GenerateRun render) =>
          mkSys (exec (handleGenerate_run render) s) (delete i (inFlight sys))
      | Some (DeployRun render project) =>
          mkSys (exec (handleDeploy_run render project) s) (delete i (inFlight sys))
      | Some (SyncRun token silent) =>
          mkSys (exec (syncHistory_run token silent) s) (delete i (inFlight sys))
      | Some (RestoreRun token) =>
          match restoreSession_run token s with
          | (Returned true, s') => startSync token true s' (delete i (inFlight sys))
          | (_, s') => mkSys s' (delete i (inFlight sys))
          end
      | Some (LoginRun render) =>
          match handleLogin_run render s with
          | (Returned true, s') =>
              startSync (AppConfig.githubToken (App.config render)) false s'
                (delete i (inFlight sys))
          | (_, s') => mkSys s' (delete i (inFlight sys))
          end
      | None => sys
      end
  | TypeVercelToken v =>
      if loginForm a then
        let c := App.config a in
        mkSys (exec (setConfig (AppConfig.mk (AppConfig.githubToken c)
                                  (AppConfig.githubUsername c) v (AppConfig.useBetaDeploy c))) s)
              (inFlight sys)
      else sys
  | CheckBeta checked =>
      if betaCheckbox a then
        let c := App.config a in
        mkSys (exec (setConfig (AppConfig.mk (AppConfig.githubToken c)
                                  (AppConfig.githubUsername c) (AppConfig.vercelToken c)
                                  checked)) s)
              (inFlight sys)
      else sys
  | ClickAbout =>
      if aboutButton a then
        mkSys (exec (setShowAbout (negb (App.showAbout a))) s) (inFlight sys)
      else sys
  | ClickCloseAbout =>
      if closeAboutButton a then mkSys (exec (setShowAbout false) s) (inFlight sys) else sys
  | ClickCloseHistory =>
      if App.showHistory a then mkSys (exec (setShowHistory false) s) (inFlight sys) else sys
  | ClickSync =>
      if syncButton a then
        startSync (AppConfig.githubToken (App.config a)) false s (inFlight sys)
      else sys
  | ClickDelete i =>
      if App.showHistory a then
        match App.savedProjects a !! i with
        | Some p => mkSys (exec (deleteProject a (SavedProject.id p)) s) (inFlight sys)
        | None => sys
        end
      else sys
  | ClickMode v =>
      if modeButton a then mkSys (exec (setMode v) s) (inFlight sys) else sys
  | ClickLoadTestTemplate code =>
      if templateButton a then mkSys (exec (handleLoadTestTemplate code) s) (inFlight sys)
      else sys
  | ClickLoadSelfSource code =>
      if selfSourceButton a then mkSys (exec (handleLoadSelfSource code) s) (inFlight sys)
      else sys
  | ClickBack =>
      if backButton a then mkSys (exec (setStep PROMPT) s) (inFlight sys) else sys
  | ClickSave =>
      if saveButton a then mkSys (exec (saveCurrentProject a) s) (inFlight sys) else sys
  | ClickCreateNew =>
      if createNewButton a then mkSys (exec createNewApp s) (inFlight sys) else sys
  end.

(** The component as it stands once mounted over the stored values
    [storage]: the effect has read them, and the verification of a stored
    token is in flight. *)
Definition mount (storage : gmap string Stored) : Sys :=
  match restoreSession_begin (mkState App.initial storage []) with
  | (Returned (Some token), s) => mkSys s [RestoreRun token]
  | (_, s) => mkSys s []
  end.

Definition run_events (evs : list Event) (sys : Sys) : Sys :=
  fold_left (λ sys ev, dispatch ev sys) evs sys.

Definition deploysInFlight (sys : Sys) : nat :=
  length (List.filter is_deploy (inFlight sys)).
End Component.

(** ** Reading a trace *)

(** The path of a file upload, the [PUT] of [pushFilesToRepo]. *)
Definition uploadPath (c : Call) : option string :=
  match c with
  | PutContents _ _ _ path _ _ _ => Some path
  | _ => None
  end.

(** The paths uploaded by a run of calls, in the order of the calls. *)
Definition uploadedPaths (calls : list Call) : list string := omap uploadPath calls.

Definition is_hosting (c : Call) : bool :=
  match c with
  | CreateVercel _ _ _ _ => true
  | _ => false
  end.

(** The hosting-provisioning calls of a run of calls. *)
Definition hostingCalls (calls : list Call) : list Call := List.filter is_hosting calls.

(** The upload request of [file] with the encoded text [contentEncoded]
    and the revision marker [sha], as [pushFilesToRepo] issues it. *)
Definition putOf (token username repoName : string) (file : FileNode.t)
    (contentEncoded : string) (sha : option string) : Call :=
  PutContents token username repoName (FileNode.path file)
    ("Add " +:+ FileNode.path file +:+ " via AutoDeploy Agent") contentEncoded sha.

(** The [sha] a probe's answer gives: that of the file when the path holds
    one, [undefined] otherwise. *)
Definition probedSha (checkRes : Fetch (option string)) : option string :=
  match checkRes with
  | Ok (inr sha) => sha
  | _ => None
  end.

(** The probe of [file]. *)
Definition probeOf (token username repoName : string) (file : FileNode.t) : Call :=
  GetContents token username repoName (FileNode.path file).

(** How the upload of a file fails, and the error [pushFilesToRepo] throws
    then: the request rejects and its error goes through as it is, or the
    host answers with a status that is not [ok]. *)
Inductive UploadFailure (file : FileNode.t) : Fetch unit → Error.t → Prop :=
  | PutRejected e : UploadFailure file (Rejected e) e
  | PutNotOk json :
      UploadFailure file (NotOk json) (Error.mk ("Failed to upload " +:+ FileNode.path file)).

(** An error message names a path when the path occurs in it. *)
Definition names (message path : string) : bool :=
  bool_decide (is_Some (index 0 path message)).

(** ** Sample data for the scenarios *)

Definition sampleFiles : list FileNode.t :=
  [FileNode.mk "index.html" "<html></html>"; FileNode.mk "src/main.ts" "console.log(1)"].

Definition sampleProject : GeneratedProject.t :=
  GeneratedProject.mk "demo" "A demo" sampleFiles.

(** An environment in which everything works: the token belongs to
    [octocat], no file and no sync gist exists yet, the random draws are
    fixed and the clock ticks with every call. *)
Definition friendly : Env :=
  λ past c,
    match c return Answer c with
    | VerifyToken _ => Ok (inr "octocat")
    | CreateRepo _ name _ => Ok (inr (RepoData.mk ("https://github.com/octocat/" +:+ name)))
    | GetContents _ _ _ _ => NotOk (inr (ApiError.mk None (Some "Not Found")))
    | PutContents _ _ _ _ _ _ _ => Ok (inr ())
    | CreateVercel _ projectName _ _ =>
        Ok (inr (Some (VercelProject.mk projectName ("https://" +:+ projectName +:+ ".vercel.app"))))
    | ListGists _ => Ok (inr [])
    | GetRaw _ => Ok (inr None)
    | PatchGist _ _ _ => Ok (inr ())
    | PostGist _ _ => Ok (inr ())
    | GetApiKey => "key"
    | GenerateContent _ _ => AiProject sampleProject
    | RandomId => "k3x9q"
    | RandomSuffix => 42
    | DateNow => (1700000000000 + Z.of_nat (length past))%Z
    end.

(** [base], except that the upload of a path is answered by [f]. *)
Definition answeringPut (f : string → Fetch unit) (base : Env) : Env :=
  λ past c,
    match c return Answer c with
    | PutContents _ _ _ path _ _ _ => f path
    | c' => base past c'
    end.

(** [base], except that repository creation is answered by [r]. *)
Definition answeringCreateRepo (r : Fetch RepoData.t) (base : Env) : Env :=
  λ past c,
    match c return Answer c with
    | CreateRepo _ _ _ => r
    | c' => base past c'
    end.

(** [base], except that hosting provisioning is answered by [r]. *)
Definition answeringCreateVercel (r : Fetch (option VercelProject.t)) (base : Env) : Env :=
  λ past c,
    match c return Answer c with
    | CreateVercel _ _ _ _ => r
    | c' => base past c'
    end.

(** The network drops the upload of [src/main.ts]. *)
Definition dropsMainTs : Env :=
  answeringPut
    (λ path, if String.eqb path "src/main.ts" then Rejected (Error.mk "Failed to fetch")
             else Ok (inr ()))
    friendly.

(** The host refuses the upload of [src/main.ts]. *)
Definition refusesMainTs : Env :=
  answeringPut
    (λ path, if String.eqb path "src/main.ts"
             then NotOk (inr (ApiError.mk None (Some "Validation Failed")))
             else Ok (inr ()))
    friendly.

(** Stand-ins for the base64 encoder in the scenarios: one that encodes
    every text, and one that throws on the text of [src/main.ts]. *)
Definition plain (content : string) : Error.t + string := inr content.

Definition malformed : Error.t := Error.mk "URI malformed".

Definition chokesOnMainTs (content : string) : Error.t + string :=
  if String.eqb content "console.log(1)" then inl malformed else inr content.

Definition sampleConfig : AppConfig.t := AppConfig.mk "ghp_token" "octocat" "" false.
Definition sampleBetaConfig : AppConfig.t := AppConfig.mk "ghp_token" "octocat" "vercel_token" true.

Definition rec_ (i : string) (ts : Z) : SavedProject.t :=
  SavedProject.mk i ts "" (GeneratedProject.mk "" "" []).

Definition sampleLocal : list SavedProject.t := [rec_ "a" 5; rec_ "c" 7].
Definition sampleCloud : list SavedProject.t := [rec_ "a" 5; rec_ "b" 9].

Definition localCopy : SavedProject.t :=
  SavedProject.mk "a" 99 "edited locally" (GeneratedProject.mk "local" "" []).
Definition cloudCopy : SavedProject.t :=
  SavedProject.mk "a" 5 "from the cloud" (GeneratedProject.mk "cloud" "" []).

Definition alreadyExists : Env :=
  answeringCreateVercel
    (NotOk (inr (ApiError.mk (Some "PROJECT_ALREADY_EXISTS") (Some "Project already exists"))))
    friendly.

Definition hostingDown : Env :=
  answeringCreateVercel (NotOk (inr (ApiError.mk (Some "forbidden") (Some "Not authorized"))))
    friendly.

Definition repoNameTaken : Env :=
  answeringCreateRepo
    (NotOk (inr (ApiError.mk None (Some "Repository creation failed."))))
    friendly.

Definition sampleRender : App.t :=
  App.with_project (Some sampleProject)
    (App.with_config sampleBetaConfig (App.with_step REVIEW App.initial)).

Definition sampleStart : State := mkState sampleRender ∅ [].

(** The sync gist exists and holds [history]. *)
Definition cloudHolds (history : list SavedProject.t) : Env :=
  λ past c,
    match c return Answer c with
    | ListGists _ =>
        Ok (inr [Gist.mk "g1" "autodeploy-sync"
                   {[ "autodeploy-data.json" := GistFile.mk "https://gist.example/raw" ]}])
    | GetRaw _ => Ok (inr (Some history))
    | c' => friendly past c'
    end.

Definition localOnly : State :=
  mkState (App.with_savedProjects [rec_ "a" 5] sampleRender) ∅ [].

Definition loggedIn : State :=
  mkState (App.with_prompt "a todo app"
             (App.with_config sampleConfig (App.with_step PROMPT App.initial))) ∅ [].

Definition initialSys : Sys := mkSys initialState [].

(** From a fresh start: log in (the verification settles, then the
    synchronisation it starts), type a prompt, generate, start a deploy,
    open the history drawer while it runs, load the saved project, deploy
    again. *)
Definition deployTwice : list Event :=
  [TypeToken "ghp_token"; SubmitLogin; Settle 0; Settle 0;
   TypePrompt "a todo app"; ClickGenerate; Settle 0;
   ClickDeploy; ClickHistory; ClickSavedProject 0; ClickDeploy].

(** ** The rest of the component *)

Section Uploading.
Variable env : Env.
Variable btoa_utf8 : string → Error.t + string.

(** The files [pushFilesToRepo] has uploaded, with the calls it made for
    them from [past] on: for each file the probe, then the upload of the
    encoded text with the [sha] the probe gave, which the host accepted. *)
Inductive Uploaded (token username repoName : string)
    : list Call → list FileNode.t → list Call → Prop :=
  | Uploaded_nil past : Uploaded token username repoName past [] []
  | Uploaded_cons past file files calls contentEncoded json :
      let probe := probeOf token username repoName file in
      let put := putOf token username repoName file contentEncoded (probedSha (env past probe)) in
      btoa_utf8 (FileNode.content file) = inr contentEncoded →
      env (past ++ [probe]) put = Ok json →
      Uploaded token username repoName (past ++ [probe; put]) files calls →
      Uploaded token username repoName past (file :: files) (probe :: put :: calls).

(** The calls [pushFilesToRepo] makes from [past] on for the files it
    reaches: a probe and an upload per file, the upload carrying the
    encoded text and the [sha] its probe gave; a file whose text cannot be
    encoded gets its probe only, and is the last one reached. *)
Inductive ProbeThenPut (token username repoName : string)
    : list Call → list FileNode.t → list Call → Prop :=
  | ProbeThenPut_nil past : ProbeThenPut token username repoName past [] []
  | ProbeThenPut_cons past file files calls contentEncoded :
      let probe := probeOf token username repoName file in
      let put := putOf token username repoName file contentEncoded (probedSha (env past probe)) in
      btoa_utf8 (FileNode.content file) = inr contentEncoded →
      ProbeThenPut token username repoName (past ++ [probe; put]) files calls →
      ProbeThenPut token username repoName past (file :: files) (probe :: put :: calls)
  | ProbeThenPut_stuck past file e :
      btoa_utf8 (FileNode.content file) = inl e →
      ProbeThenPut token username repoName past [file] [probeOf token username repoName file].

(** The files whose text the encoder takes. *)
Definition encodes (file : FileNode.t) : bool :=
  match btoa_utf8 (FileNode.content file) with
  | inr _ => true
  | inl _ => false
  end.

(** The cloud history as the environment presents it after the calls
    [past]: the listing shows a gist described as the sync gist, that gist
    has the data file with an address, and the file read at that address
    gives the history ([[]] when the payload carries none). *)
Definition remoteHistory (token : string) (past : list Call) : option (list SavedProject.t) :=
  match env past (ListGists token) with
  | Ok (inr gists) =>
      match findSyncGist gists with
      | Some syncGist =>
          match Gist.files syncGist !! GIST_FILENAME with
          | Some file =>
              if falsy (GistFile.raw_url file) then None
              else
                match env (past ++ [ListGists token]) (GetRaw (GistFile.raw_url file)) with
                | Ok (inr history) => Some (default [] history)
                | NotOk (inr _) => Some []
                | _ => None
                end
          | None => None
          end
      | None => None
      end
  | _ => None
  end.
End Uploading.

(** The calls on the contents of a repository. *)
Definition is_contents (c : Call) : Prop :=
  match c with
  | GetContents _ _ _ _ | PutContents _ _ _ _ _ _ _ => True
  | _ => False
  end.

(** The line [pushFilesToRepo] reports before it uploads a file. *)
Definition progressLine (file : FileNode.t) : LogEntry.t :=
  LogEntry.mk ("Pushing " +:+ FileNode.path file +:+ "...") info.

(** A computation that, wherever it is run, writes nothing but log lines
    and makes only calls that satisfy [P]. *)
Definition confined (P : Call → Prop) {A} (m : M A) : Prop :=
  ∀ s, ∃ logs calls,
    (m s).2 = mkState (App.with_logs (App.logs (app s) ++ logs) (app s)) (localStorage s)
                (trace s ++ calls)
    ∧ Forall P calls.

(** The stored history is the history of the state: a list under
    [autodeploy_history] is the list of saved projects, and nothing is
    stored only while no project is saved. *)
Definition inSync (s : State) : Prop :=
  match localStorage s !! "autodeploy_history" with
  | Some (StoredHistory h) => App.savedProjects (app s) = h
  | Some (StoredConfig _) => False
  | None => App.savedProjects (app s) = []
  end.

(** The values the component finds stored when it mounts are values it
    has written: a history under [autodeploy_history], if anything. *)
Definition wellStored (storage : gmap string Stored) : Prop :=
  match storage !! "autodeploy_history" with
  | Some (StoredConfig _) => False
  | _ => True
  end.


(** The gists an environment lists and the file it serves when it keeps
    what [saveHistoryToGist] writes: the history of the latest write. *)
Definition lastWritten (past : list Call) : option (list SavedProject.t) :=
  fold_left
    (λ acc c,
       match c with
       | PostGist _ history | PatchGist _ _ history => Some history
       | _ => acc
       end)
    past None.

Definition syncGistOf (past : list Call) : list Gist.t :=
  match lastWritten past with
  | Some _ =>
      [Gist.mk "g1" "autodeploy-sync"
         {[ "autodeploy-data.json" := GistFile.mk "https://gist.example/raw" ]}]
  | None => []
  end.

(** An environment is a gist store when listing shows the sync gist once
    something was written and the raw file holds the latest write. *)
Definition GistStore (env : Env) : Prop :=
  (∀ past token, env past (ListGists token) = Ok (inr (syncGistOf past)))
  ∧ (∀ past url, env past (GetRaw url) = Ok (inr (lastWritten past)))
  ∧ (∀ past token history, env past (PostGist token history) = Ok (inr ()))
  ∧ (∀ past token i history, env past (PatchGist token i history) = Ok (inr ())).

Definition gistStore : Env :=
  λ past c,
    match c return Answer c with
    | ListGists _ => Ok (inr (syncGistOf past))
    | GetRaw _ => Ok (inr (lastWritten past))
    | c' => friendly past c'
    end.

(** *** The progress column *)

Inductive ProgressState := pending | active | completed.

#[global] Instance ProgressState_eq_dec : EqDecision ProgressState.
Proof. solve_decision. Defined.

(** [order.indexOf(s)] *)
Definition order : list Step := [CONFIG; PROMPT; GENERATING; REVIEW; DEPLOYING; SUCCESS].

Fixpoint indexOf (s : Step) (l : list Step) : Z :=
  match l with
  | [] => (-1)%Z
  | x :: l' =>
      if bool_decide (x = s) then 0%Z
      else let i := indexOf s l' in if (i <? 0)%Z then (-1)%Z else (i + 1)%Z
  end.

(** The [state] computed by [ProgressStep], assignment by assignment. *)
Definition ProgressStep (s current : Step) : ProgressState :=
  let idx := indexOf s order in
  let currentIdx := indexOf current order in
  let state := pending in
  let state := if bool_decide (current = s) then active else state in
  let state := if (idx <? currentIdx)%Z then completed else state in
  let state :=
    if bool_decide (s = GENERATING) && bool_decide (current = PROMPT) then pending else state in
  state.

(** The steps the progress column shows. *)
Definition shownSteps : list Step := [CONFIG; PROMPT; GENERATING; DEPLOYING; SUCCESS].

(** The two messages of [generateProjectCode]. *)
Definition missingKey : string := "Gemini API Key is missing from environment variables.".
Definition failedToProcess : string := "I failed to process the code. Please try again.".

(** The history [restoreSession] starts from: the stored one if there is
    one. *)
Definition restoredHistory (s : State) : list SavedProject.t :=
  match localStorage s !! "autodeploy_history" with
  | Some (StoredHistory savedHistory) => savedHistory
  | _ => App.savedProjects (app s)
  end.

(** [{...c, githubUsername: u}] *)
Definition withUsername (c : AppConfig.t) (u : string) : AppConfig.t :=
  AppConfig.mk (AppConfig.githubToken c) u (AppConfig.vercelToken c) (AppConfig.useBetaDeploy c).


(** A stored session, and a login form with the token typed. *)
Definition storedSession : State :=
  mkState App.initial
    (<["autodeploy_history" := StoredHistory sampleLocal]>
       {[ "autodeploy_config" := StoredConfig sampleConfig ]})
    [].

Definition tokenTyped : State :=
  mkState (App.with_config (AppConfig.mk "ghp_token" "" "" false) App.initial) ∅ [].

(** * Properties *)

(** Case analysis on every answer of the environment a run meets. *)
Ltac step_calls env :=
  repeat first
    [ progress simpl
    | match goal with
      | |- context [env ?past ?c] => destruct (env past c)
      | |- context [findSyncGist ?gists] => destruct (findSyncGist gists)
      | |- context [match ?x with _ => _ end] => is_var x; destruct x
      | |- context [Gist.files ?g !! ?k] => destruct (Gist.files g !! k)
      | |- context [falsy ?x] => destruct (falsy x)
      end ].

(** ** History reconciler *)

(** The scenario of the specification: local [a@5], remote [a@5; b@9]. *)
Example merge_scenario :
  merge [rec_ "a" 5] [rec_ "a" 5; rec_ "b" 9] = [rec_ "b" 9; rec_ "a" 5].
Proof. reflexivity. Qed.

(** *** Sorting *)

Section ArraySortFacts.
Context {A : Type} (compareFn : A → A → Z).

Lemma sort_insert_Permutation x l : sort_insert compareFn x l ≡ₚ x :: l.
Proof.
  induction l as [|y l IH]; simpl; [done|].
  destruct (compareFn x y <=? 0)%Z; [done|].
  rewrite IH. apply Permutation_swap.
Qed.

Lemma Array_sort_Permutation l : Array_sort compareFn l ≡ₚ l.
Proof.
  induction l as [|x l IH]; simpl; [done|].
  unfold Array_sort in *; simpl.
  by rewrite sort_insert_Permutation, IH.
Qed.

Lemma Array_sort_length l : length (Array_sort compareFn l) = length l.
Proof. by rewrite Array_sort_Permutation. Qed.
End ArraySortFacts.

Lemma sort_insert_HdRel a x l :
  newer_or_equal a x → HdRel newer_or_equal a l →
  HdRel newer_or_equal a (sort_insert byTimestampDesc x l).
Proof.
  intros Hax Hal. destruct l as [|y l]; simpl; [by constructor|].
  destruct (byTimestampDesc x y <=? 0)%Z; constructor; [done|].
  by inversion Hal.
Qed.

Lemma sort_insert_Sorted x l :
  Sorted newer_or_equal l → Sorted newer_or_equal (sort_insert byTimestampDesc x l).
Proof.
  induction 1 as [|y l Hl IH Hhd]; simpl; [by repeat constructor|].
  destruct (byTimestampDesc x y <=? 0)%Z eqn:Hc.
  - constructor; [by constructor|]. constructor.
    apply Z.leb_le in Hc. unfold byTimestampDesc in Hc. unfold newer_or_equal. lia.
  - constructor; [done|]. apply sort_insert_HdRel; [|done].
    apply Z.leb_gt in Hc. unfold byTimestampDesc in Hc. unfold newer_or_equal. lia.
Qed.

Lemma Array_sort_Sorted l : Sorted newer_or_equal (Array_sort byTimestampDesc l).
Proof.
  induction l as [|x l IH]; [constructor|].
  unfold Array_sort in *; simpl. by apply sort_insert_Sorted.
Qed.

(** *** The [forEach] of the merge *)

Lemma filter_ext_elem {A} (P1 P2 : A → Prop)
    `{!∀ x, Decision (P1 x), !∀ x, Decision (P2 x)} (l : list A) :
  (∀ x, x ∈ l → P1 x ↔ P2 x) → filter P1 l = filter P2 l.
Proof.
  induction l as [|a l IH]; intros Hiff; [done|].
  assert (filter P1 l = filter P2 l) as Hl by (apply IH; intros; apply Hiff; by right).
  destruct (decide (P1 a)) as [H1|H1].
  - rewrite !filter_cons_True; [by rewrite Hl|by apply (Hiff a); [left|]|done].
  - rewrite !filter_cons_False; [done| |done]. rewrite <-(Hiff a); [done|by left].
Qed.

Lemma find_id_None (combined : list SavedProject.t) (p : SavedProject.t) :
  find (λ c, String.eqb (SavedProject.id c) (SavedProject.id p)) combined = None
  ↔ SavedProject.id p ∉ ids combined.
Proof.
  unfold ids. induction combined as [|c combined IH]; simpl.
  - split; [intros _; apply not_elem_of_nil|done].
  - rewrite not_elem_of_cons. destruct (String.eqb_spec (SavedProject.id c) (SavedProject.id p)).
    + split; [done|]. intros [? _]. congruence.
    + rewrite IH. split; [|tauto]. intros ?; split; [congruence|done].
Qed.

Lemma pushMissing_cons combined p prev :
  pushMissing combined (p :: prev) =
  pushMissing (if decide (SavedProject.id p ∈ ids combined) then combined else combined ++ [p]) prev.
Proof.
  unfold pushMissing; simpl.
  destruct (find _ combined) eqn:Hf.
  - rewrite decide_True; [done|].
    destruct (decide (SavedProject.id p ∈ ids combined)) as [|Hn]; [done|].
    apply find_id_None in Hn. congruence.
  - apply find_id_None in Hf. by rewrite decide_False.
Qed.

(** Whatever the lists, the result is the cloud list followed by local
    records whose ids the cloud list does not have. *)
Lemma pushMissing_shape prev : ∀ combined,
  ∃ pushed, pushMissing combined prev = combined ++ pushed
            ∧ ∀ p, p ∈ pushed → p ∈ prev ∧ absentFrom combined p.
Proof.
  induction prev as [|p prev IH]; intros combined.
  - exists []. split; [by rewrite app_nil_r|]. intros p Hp. by apply elem_of_nil in Hp.
  - rewrite pushMissing_cons. case_decide as Hin.
    + destruct (IH combined) as (pushed & -> & Hp). exists pushed. split; [done|].
      intros q Hq. destruct (Hp q Hq). split; [by right|done].
    + destruct (IH (combined ++ [p])) as (pushed & -> & Hp).
      exists (p :: pushed). split; [by rewrite <-app_assoc|].
      intros q [->|Hq]%elem_of_cons; [split; [by left|done]|].
      destruct (Hp q Hq) as [? Hab]. split; [by right|].
      unfold absentFrom, ids in *. rewrite fmap_app, elem_of_app in Hab. tauto.
Qed.

Lemma pushMissing_ids prev : ∀ combined i,
  i ∈ ids combined ∨ i ∈ ids prev → i ∈ ids (pushMissing combined prev).
Proof.
  induction prev as [|p prev IH]; intros combined i.
  - intros [?|Hi]; [done|]. by apply elem_of_nil in Hi.
  - rewrite pushMissing_cons. intros Hi. apply IH.
    unfold ids in *. rewrite fmap_cons, elem_of_cons in Hi.
    case_decide as Hin.
    + destruct Hi as [?|[->|?]]; auto.
    + rewrite fmap_app, elem_of_app. simpl. rewrite list_elem_of_singleton. tauto.
Qed.

(** With distinct local ids the pushed records are exactly the local
    records absent from the cloud list, in their local order. *)
Lemma pushMissing_NoDup prev : ∀ combined,
  NoDup (ids prev) →
  pushMissing combined prev = combined ++ filter (absentFrom combined) prev.
Proof.
  induction prev as [|p prev IH]; intros combined Hnd.
  - by rewrite filter_nil, app_nil_r.
  - unfold ids in Hnd. rewrite fmap_cons in Hnd. apply NoDup_cons in Hnd as [Hp Hnd].
    rewrite pushMissing_cons. case_decide as Hin.
    + rewrite IH by done. by rewrite filter_cons_False by (unfold absentFrom; tauto).
    + rewrite IH by done. rewrite filter_cons_True by done.
      rewrite <-app_assoc. simpl. do 2 f_equal.
      apply filter_ext_elem. intros q Hq. unfold absentFrom, ids.
      rewrite fmap_app, elem_of_app. simpl. rewrite list_elem_of_singleton.
      assert (SavedProject.id q ≠ SavedProject.id p).
      { intros Heq. apply Hp. rewrite <-Heq. by apply list_elem_of_fmap_2. }
      tauto.
Qed.

Lemma merge_Permutation (L R : list SavedProject.t) :
  ∃ pushed, merge L R ≡ₚ R ++ pushed ∧ ∀ p, p ∈ pushed → p ∈ L ∧ absentFrom R p.
Proof.
  destruct (pushMissing_shape L R) as (pushed & Heq & Hp).
  exists pushed. split; [|done]. unfold merge. by rewrite Array_sort_Permutation, Heq.
Qed.

(** *** The merge *)

(** C1. For a local list [L] and a cloud list [R], each with pairwise
    distinct ids, [merge L R] is the sort, newest first, of [R] followed by
    the local records whose id is absent from [R]; it has
    [|R| + |L \ ids(R)|] records, contains every id of [L] and of [R], and
    its timestamps never increase. *)
Theorem merge_disjoint_ids (L R : list SavedProject.t) :
  NoDup (ids L) → NoDup (ids R) →
  merge L R = Array_sort byTimestampDesc (R ++ filter (absentFrom R) L)
  ∧ length (merge L R) = length R + length (filter (absentFrom R) L)
  ∧ (∀ i, i ∈ ids L ∨ i ∈ ids R → i ∈ ids (merge L R))
  ∧ Sorted newer_or_equal (merge L R).
Proof.
  intros HL _. unfold merge. rewrite pushMissing_NoDup by done.
  split; [done|]. split; [by rewrite Array_sort_length, length_app|].
  split; [|apply Array_sort_Sorted].
  intros i Hi. unfold ids. rewrite Array_sort_Permutation.
  rewrite <-(pushMissing_NoDup L R HL). apply pushMissing_ids. tauto.
Qed.

Lemma merge_disjoint_ids_witness :
  merge sampleLocal sampleCloud
    = Array_sort byTimestampDesc (sampleCloud ++ filter (absentFrom sampleCloud) sampleLocal)
  ∧ length (merge sampleLocal sampleCloud)
    = length sampleCloud + length (filter (absentFrom sampleCloud) sampleLocal)
  ∧ (∀ i, i ∈ ids sampleLocal ∨ i ∈ ids sampleCloud → i ∈ ids (merge sampleLocal sampleCloud))
  ∧ Sorted newer_or_equal (merge sampleLocal sampleCloud).
Proof.
  apply (merge_disjoint_ids sampleLocal sampleCloud).
  - apply (bool_decide_unpack _). vm_compute. reflexivity.
  - apply (bool_decide_unpack _). vm_compute. reflexivity.
Defined.

Example merge_sample :
  merge sampleLocal sampleCloud = [rec_ "b" 9; rec_ "c" 7; rec_ "a" 5].
Proof. reflexivity. Qed.

(** C9. When an id occurs in the local and in the cloud list, the records
    of [merge L R] with that id are the cloud records with that id, and a
    local record with that id is in the result only if the cloud list holds
    that very record: whatever the local copy says, the cloud copy stays. *)
Theorem merge_remote_wins (L R : list SavedProject.t) (i : string) :
  i ∈ ids L → i ∈ ids R →
  filter (hasId i) (merge L R) ≡ₚ filter (hasId i) R
  ∧ ∀ p, p ∈ L → hasId i p → p ∈ merge L R → p ∈ R.
Proof.
  intros _ HR. destruct (merge_Permutation L R) as (pushed & Hperm & Hpushed).
  assert (∀ p, hasId i p → p ∉ pushed) as Hnot.
  { intros p Hid Hp. destruct (Hpushed p Hp) as [_ Hab].
    apply Hab. unfold hasId in Hid. by rewrite Hid. }
  split.
  - rewrite Hperm, filter_app.
    assert (filter (hasId i) pushed = []) as ->; [|by rewrite app_nil_r].
    apply elem_of_nil_inv. intros p [Hid Hp]%list_elem_of_filter. by apply (Hnot p).
  - intros p _ Hid Hp. rewrite Hperm, elem_of_app in Hp.
    destruct Hp as [?|Hp]; [done|]. by destruct (Hnot p).
Qed.

Lemma merge_remote_wins_witness :
  filter (hasId "a") (merge [localCopy] [cloudCopy; rec_ "b" 9])
    ≡ₚ filter (hasId "a") [cloudCopy; rec_ "b" 9]
  ∧ ∀ p, p ∈ [localCopy] → hasId "a" p →
         p ∈ merge [localCopy] [cloudCopy; rec_ "b" 9] → p ∈ [cloudCopy; rec_ "b" 9].
Proof.
  apply (merge_remote_wins [localCopy] [cloudCopy; rec_ "b" 9] "a").
  - apply (bool_decide_unpack _). vm_compute. reflexivity.
  - apply (bool_decide_unpack _). vm_compute. reflexivity.
Defined.

Example merge_collision :
  merge [localCopy] [cloudCopy; rec_ "b" 9] = [rec_ "b" 9; cloudCopy].
Proof. reflexivity. Qed.

(** ** Deployment pipeline *)

Lemma with_logs_same (a : App.t) : App.with_logs (App.logs a ++ []) a = a.
Proof. destruct a. unfold App.with_logs. simpl. by rewrite app_nil_r. Qed.

Lemma uploadedPaths_app calls calls' :
  uploadedPaths (calls ++ calls') = uploadedPaths calls ++ uploadedPaths calls'.
Proof. unfold uploadedPaths. apply omap_app. Qed.

Section Pipeline.
Variable env : Env.
Variable btoa_utf8 : string → Error.t + string.

Implicit Types (s : State) (e : Error.t).

Lemma addLog_run message type s :
  addLog message type s
  = (Returned tt,
     mkState (App.with_logs (App.logs (app s) ++ [LogEntry.mk message type]) (app s))
             (localStorage s) (trace s)).
Proof. reflexivity. Qed.

Lemma probeSha_value token username repoName path s :
  probeSha env token username repoName path s
  = (Returned (probedSha (env (trace s) (GetContents token username repoName path))),
     mkState (app s) (localStorage s) (trace s ++ [GetContents token username repoName path])).
Proof.
  unfold probeSha, try_catch, bind, call, ret, throw, probedSha. simpl.
  by destruct (env (trace s) (GetContents token username repoName path))
    as [e|[e|sha]|json].
Qed.

(** Every way a run of [pushFilesToRepo] can end: with all files uploaded,
    or at the first file whose text cannot be encoded or whose upload is
    rejected or refused. *)
Lemma pushFilesToRepo_run token username repoName files : ∀ s out s',
  pushFilesToRepo env btoa_utf8 token username repoName files onProgress s = (out, s') →
  ∃ uploaded calls,
    Uploaded env btoa_utf8 token username repoName (trace s) uploaded calls
    ∧ match out with
      | Returned _ =>
          uploaded = files
          ∧ s' = mkState
                   (App.with_logs (App.logs (app s) ++ (progressLine <$> files)) (app s))
                   (localStorage s) (trace s ++ calls)
      | Thrown e =>
          ∃ file rest tail,
            files = uploaded ++ file :: rest
            ∧ s' = mkState
                     (App.with_logs
                        (App.logs (app s) ++ (progressLine <$> uploaded ++ [file])) (app s))
                     (localStorage s)
                     (trace s ++ calls ++ probeOf token username repoName file :: tail)
            ∧ match btoa_utf8 (FileNode.content file) with
              | inl e' => e = e' ∧ tail = []
              | inr contentEncoded =>
                  let probe := probeOf token username repoName file in
                  let put := putOf token username repoName file contentEncoded
                               (probedSha (env (trace s ++ calls) probe)) in
                  tail = [put] ∧ UploadFailure file (env (trace s ++ calls ++ [probe]) put) e
              end
      end.
Proof.
  induction files as [|file files IH]; intros s out s' Hrun.
  - injection Hrun as <- <-. exists [], []. split; [constructor|]. split; [done|].
    simpl. rewrite with_logs_same, app_nil_r. by destruct s.
  - simpl in Hrun. unfold bind at 1, onProgress at 1 in Hrun. rewrite addLog_run in Hrun.
    unfold bind at 1 in Hrun. rewrite probeSha_value in Hrun. simpl in Hrun.
    fold (probeOf token username repoName file) in Hrun.
    set (probe := probeOf token username repoName file) in *.
    destruct (btoa_utf8 (FileNode.content file)) as [e0|contentEncoded] eqn:Henc.
    { injection Hrun as <- <-. exists [], []. split; [constructor|].
      exists file, files, []. rewrite Henc. simpl. done. }
    unfold bind at 1, call at 1 in Hrun. simpl in Hrun.
    fold (putOf token username repoName file contentEncoded (probedSha (env (trace s) probe)))
      in Hrun.
    set (put := putOf token username repoName file contentEncoded
                  (probedSha (env (trace s) probe))) in *.
    destruct (env (trace s ++ [probe]) put) as [e|json|json] eqn:Hput.
    + injection Hrun as <- <-. exists [], []. split; [constructor|].
      exists file, files, [put]. rewrite Henc. simpl. rewrite !app_nil_r.
      split; [done|]. split; [by rewrite <-app_assoc|]. split; [done|].
      fold probe put. rewrite Hput. constructor.
    + apply IH in Hrun as (uploaded & calls & Huploaded & Hout). simpl in Huploaded, Hout.
      exists (file :: uploaded), (probe :: put :: calls). split.
      { eapply Uploaded_cons; [done|exact Hput|]. by rewrite <-app_assoc in Huploaded. }
      destruct out as [[]|e].
      * destruct Hout as [-> ->]. split; [done|]. simpl. by rewrite <-!app_assoc.
      * destruct Hout as (file' & rest & tail & -> & -> & Hfail).
        exists file', rest, tail. split; [done|]. split; [simpl; by rewrite <-!app_assoc|].
        destruct (btoa_utf8 (FileNode.content file')); [done|].
        rewrite <-!app_assoc in Hfail. exact Hfail.
    + injection Hrun as <- <-. exists [], []. split; [constructor|].
      exists file, files, [put]. rewrite Henc. simpl. rewrite !app_nil_r.
      split; [done|]. split; [by rewrite <-app_assoc|]. split; [done|].
      fold probe put. rewrite Hput. constructor.
Qed.

(** For each uploaded file one upload, in order, after its probe. *)
Lemma Uploaded_paths token username repoName past uploaded calls :
  Uploaded env btoa_utf8 token username repoName past uploaded calls →
  uploadedPaths calls = FileNode.path <$> uploaded
  ∧ length calls = 2 * length uploaded.
Proof.
  induction 1 as [|past file files calls contentEncoded json probe put _ _ _ [IH1 IH2]];
    [done|].
  simpl. rewrite IH1. split; [done|]. rewrite IH2. lia.
Qed.

(** C2 (as amended). [pushFilesToRepo] takes the files one after the other
    in their declared order. A run uploads a first part [uploaded] of them,
    each with one probe and then one upload that carries the encoded text
    and that the host accepts. The run returns only when that part is the
    whole list. Otherwise it throws at the next file, [file], and makes no
    call for any file after it: either the text of [file] cannot be
    encoded, the error is the one of the encoder and the probe of [file]
    is the last call, no upload of [file] being issued; or the upload of
    [file] is issued once and is the last call, and it is rejected, the
    error being the transport error, or refused by the host, the error
    being [Failed to upload <path>]. *)
Theorem pushFilesToRepo_sequential token username repoName files s out s' :
  pushFilesToRepo env btoa_utf8 token username repoName files onProgress s = (out, s') →
  ∃ uploaded calls,
    Uploaded env btoa_utf8 token username repoName (trace s) uploaded calls
    ∧ uploadedPaths calls = FileNode.path <$> uploaded
    ∧ match out with
      | Returned _ => uploaded = files ∧ trace s' = trace s ++ calls
      | Thrown e =>
          ∃ file rest,
            files = uploaded ++ file :: rest
            ∧ let past := trace s ++ calls in
              let probe := probeOf token username repoName file in
              match btoa_utf8 (FileNode.content file) with
              | inl e' => e = e' ∧ trace s' = past ++ [probe]
              | inr contentEncoded =>
                  let put := putOf token username repoName file contentEncoded
                               (probedSha (env past probe)) in
                  trace s' = past ++ [probe; put]
                  ∧ UploadFailure file (env (past ++ [probe]) put) e
              end
      end.
Proof.
  intros Hrun.
  apply pushFilesToRepo_run in Hrun as (uploaded & calls & Huploaded & Hout).
  exists uploaded, calls. split; [done|].
  split; [by eapply Uploaded_paths|].
  destruct out as [[]|e].
  - destruct Hout as [-> ->]. done.
  - destruct Hout as (file & rest & tail & -> & -> & Hfail).
    exists file, rest. split; [done|]. simpl.
    destruct (btoa_utf8 (FileNode.content file)) as [e'|contentEncoded].
    + destruct Hfail as [-> ->]. by rewrite <-app_assoc.
    + destruct Hfail as [-> Hfail]. rewrite <-!app_assoc in *. done.
Qed.
End Pipeline.

Lemma pushFilesToRepo_sequential_witness :
  let run := pushFilesToRepo refusesMainTs plain "ghp_token" "octocat" "demo-42"
               sampleFiles onProgress initialState in
  let e := Error.mk "Failed to upload src/main.ts" in
  run.1 = Thrown e
  ∧ ∃ uploaded calls,
      Uploaded refusesMainTs plain "ghp_token" "octocat" "demo-42" [] uploaded calls
      ∧ uploadedPaths calls = FileNode.path <$> uploaded
      ∧ ∃ file rest,
          sampleFiles = uploaded ++ file :: rest
          ∧ let probe := probeOf "ghp_token" "octocat" "demo-42" file in
            let put := putOf "ghp_token" "octocat" "demo-42" file (FileNode.content file)
                         (probedSha (refusesMainTs calls probe)) in
            trace run.2 = calls ++ [probe; put]
            ∧ UploadFailure file (refusesMainTs (calls ++ [probe]) put) e.
Proof.
  intros run e. split; [vm_compute; reflexivity|].
  apply (pushFilesToRepo_sequential refusesMainTs plain "ghp_token" "octocat" "demo-42"
           sampleFiles initialState (Thrown e) run.2).
  vm_compute. reflexivity.
Defined.

(** The host refuses the second upload: the run throws, the first file is
    up and the refused upload is the last call. *)
Example upload_refused :
  let run := pushFilesToRepo refusesMainTs plain "ghp_token" "octocat" "demo-42"
               sampleFiles onProgress initialState in
  run.1 = Thrown (Error.mk "Failed to upload src/main.ts")
  ∧ uploadedPaths (trace run.2) = ["index.html"; "src/main.ts"].
Proof. vm_compute. done. Qed.

(** The text of the second file cannot be encoded: the run throws the
    error of the encoder after the probe of that file, and no upload of it
    is issued. *)
Example upload_not_encodable :
  let run := pushFilesToRepo friendly chokesOnMainTs "ghp_token" "octocat" "demo-42"
               sampleFiles onProgress initialState in
  run.1 = Thrown malformed
  ∧ trace run.2
    = [GetContents "ghp_token" "octocat" "demo-42" "index.html";
       PutContents "ghp_token" "octocat" "demo-42" "index.html"
         "Add index.html via AutoDeploy Agent" "<html></html>" None;
       GetContents "ghp_token" "octocat" "demo-42" "src/main.ts"].
Proof. vm_compute. done. Qed.

(** C2 as stated does not hold: when the upload request itself rejects,
    the error that aborts the pipeline is the transport error, which names
    no file. Here the upload of [src/main.ts] rejects with
    [Failed to fetch]. *)
Lemma upload_error_may_name_no_path :
  ¬ ∀ (env : Env) (btoa_utf8 : string → Error.t + string) token username repoName files s e s',
      pushFilesToRepo env btoa_utf8 token username repoName files onProgress s
        = (Thrown e, s') →
      ∃ file, file ∈ files ∧ names (Error.message e) (FileNode.path file) = true.
Proof.
  intros Hclaim.
  destruct (Hclaim dropsMainTs plain "ghp_token" "octocat" "demo-42" sampleFiles initialState
              (Error.mk "Failed to fetch")
              (pushFilesToRepo dropsMainTs plain "ghp_token" "octocat" "demo-42"
                 sampleFiles onProgress initialState).2 eq_refl)
    as (file & Hin & Hnames).
  unfold sampleFiles in Hin.
  repeat (apply elem_of_cons in Hin as [->|Hin]; [vm_compute in Hnames; discriminate|]).
  by apply elem_of_nil in Hin.
Qed.

(** *** The three steps *)

Section Deploy.
Variable env : Env.
Variable btoa_utf8 : string → Error.t + string.

Implicit Types (s : State) (e : Error.t) (config : AppConfig.t).

(** Repository creation makes one call and touches nothing else. *)
Lemma createRepository_run token name description s :
  ∃ out, createRepository env token name description s
         = (out, mkState (app s) (localStorage s)
                         (trace s ++ [CreateRepo token name description])).
Proof.
  unfold createRepository, bind, call, ret, throw. simpl.
  destruct (env (trace s) (CreateRepo token name description))
    as [e|[e|data]|[e|err]]; eauto.
Qed.

(** Step 1 draws the suffix and creates the repository; it writes log
    lines and nothing else of the component state. *)
Lemma createStep_run config project s out s' :
  createStep env config project s = (out, s') →
  ∃ repoName logs,
    s' = mkState (App.with_logs logs (app s)) (localStorage s)
           (trace s ++ [RandomSuffix;
                        CreateRepo (AppConfig.githubToken config) repoName
                          (GeneratedProject.description project)]).
Proof.
  unfold createStep. unfold bind at 1, call at 1. simpl.
  set (repoName := GeneratedProject.name project +:+ "-" +:+ decimal (env (trace s) RandomSuffix mod 1000)).
  unfold bind at 1. rewrite addLog_run. unfold bind at 1.
  match goal with |- context [createRepository _ ?t ?n ?d ?s1] =>
    destruct (createRepository_run t n d s1) as [o Ho]; rewrite Ho
  end.
  simpl. destruct o as [data|e]; intros [= <- <-]; exists repoName.
  - eexists. simpl. by rewrite <-app_assoc.
  - eexists. simpl. by rewrite <-app_assoc.
Qed.

(** The hosting call makes one call; its outcome depends on the calls
    made so far only. *)
Lemma createVercelProject_run vercelToken projectName repoName githubType past :
  ∃ out, ∀ a ls,
    createVercelProject env vercelToken projectName repoName githubType (mkState a ls past)
    = (out, mkState a ls (past ++ [CreateVercel vercelToken projectName repoName githubType])).
Proof.
  unfold createVercelProject, bind, call, ret, throw. simpl.
  destruct (env past (CreateVercel vercelToken projectName repoName githubType))
    as [e|[e|v]|[e|err]]; eauto.
  case_bool_decide; eauto.
Qed.

Lemma handleDeploy_run_returned render project s result s' :
  deploy env btoa_utf8 (App.config render) project s = (Returned result, s') →
  handleDeploy_run env btoa_utf8 render project s
  = (Returned tt,
     with_app (App.with_step SUCCESS)
       (with_app (App.with_deploymentResult (Some result)) s')).
Proof. intros H. unfold handleDeploy_run, try_catch, bind. by rewrite H. Qed.

Lemma handleDeploy_run_thrown render project s e s' :
  deploy env btoa_utf8 (App.config render) project s = (Thrown e, s') →
  handleDeploy_run env btoa_utf8 render project s
  = (Returned tt,
     with_app (App.with_step REVIEW)
       (with_app (λ a, App.with_logs (App.logs a ++ [LogEntry.mk (Error.message e) error]) a)
          s')).
Proof. intros H. unfold handleDeploy_run, try_catch, bind. by rewrite H. Qed.

(** C3. When the repository-creation step fails with [e], the pipeline
    stops there: [deploy] throws that same [e] and yields no result; the
    calls made contain no file upload and no hosting call; and the handler
    logs the message of [e] as an error, returns to [REVIEW] and leaves
    [deploymentResult] as it was. *)
Theorem deploy_aborts_when_repository_creation_fails render project s e s1 :
  createStep env (App.config render) project s = (Thrown e, s1) →
  deploy env btoa_utf8 (App.config render) project s = (Thrown e, s1)
  ∧ (∃ calls, trace s1 = trace s ++ calls
              ∧ uploadedPaths calls = [] ∧ hostingCalls calls = [])
  ∧ ∃ s', handleDeploy_run env btoa_utf8 render project s = (Returned tt, s')
          ∧ trace s' = trace s1
          ∧ App.deploymentResult (app s') = App.deploymentResult (app s)
          ∧ App.step (app s') = REVIEW
          ∧ last (App.logs (app s')) = Some (LogEntry.mk (Error.message e) error).
Proof.
  intros Hcreate.
  assert (deploy env btoa_utf8 (App.config render) project s = (Thrown e, s1)) as Hdeploy.
  { unfold deploy, bind. by rewrite Hcreate. }
  destruct (createStep_run _ _ _ _ _ Hcreate) as (repoName & logs & ->).
  split; [done|]. split.
  - eexists. split; [done|]. done.
  - eexists. split; [by apply handleDeploy_run_thrown|].
    simpl. repeat split. by rewrite last_snoc.
Qed.

(** C4. With auto-deploy enabled and a hosting token present, when the
    repository is created, every upload succeeds and the hosting call
    then fails with [e], the pipeline still returns a result: its
    [repoUrl] is the URL of the created repository, it has no [deployUrl]
    and [isBeta] is false. The failure is logged as a warning, and the
    handler stores the result and moves to [SUCCESS]. *)
Theorem deploy_survives_hosting_failure render project s repoName repoData s1 s2 e s3 :
  AppConfig.useBetaDeploy (App.config render) = true →
  AppConfig.vercelToken (App.config render) ≠ "" →
  createStep env (App.config render) project s = (Returned (repoName, repoData), s1) →
  uploadStep env btoa_utf8 (App.config render) repoName project s1 = (Returned tt, s2) →
  createVercelProject env (AppConfig.vercelToken (App.config render)) repoName
    (AppConfig.githubUsername (App.config render) +:+ "/" +:+ repoName) "github" s2
    = (Thrown e, s3) →
  let result := DeploymentResult.mk (RepoData.html_url repoData) None false in
  ∃ s', deploy env btoa_utf8 (App.config render) project s = (Returned result, s')
        ∧ trace s' = trace s3
        ∧ last (App.logs (app s'))
          = Some (LogEntry.mk ("[Beta] Auto-deploy failed (" +:+ Error.message e
                               +:+ "). Falling back to manual mode.") warning)
        ∧ ∃ s'', handleDeploy_run env btoa_utf8 render project s = (Returned tt, s'')
                 ∧ App.deploymentResult (app s'') = Some result
                 ∧ App.step (app s'') = SUCCESS.
Proof.
  intros Hbeta Htoken Hcreate Hupload Hhost result.
  assert (falsy (AppConfig.vercelToken (App.config render)) = false) as Hfalsy.
  { unfold falsy. by apply String.eqb_neq. }
  destruct (createVercelProject_run (AppConfig.vercelToken (App.config render)) repoName
              (AppConfig.githubUsername (App.config render) +:+ "/" +:+ repoName) "github"
              (trace s2)) as [out Hout].
  destruct s2 as [a2 ls2 tr2]. simpl in Hout.
  rewrite Hout in Hhost. injection Hhost as -> <-.
  eexists. split; [|split; [|split]].
  - unfold deploy. unfold bind at 1. rewrite Hcreate. simpl.
    unfold bind at 1. rewrite Hupload.
    unfold bind at 1, autoDeploy. rewrite Hbeta, Hfalsy. simpl.
    unfold bind at 1. rewrite addLog_run. simpl.
    unfold try_catch, bind at 1. rewrite Hout.
    unfold bind. rewrite addLog_run. simpl. reflexivity.
  - done.
  - simpl. by rewrite last_snoc.
  - eexists. split; [apply handleDeploy_run_returned|].
    + unfold deploy. unfold bind at 1. rewrite Hcreate. simpl.
      unfold bind at 1. rewrite Hupload.
      unfold bind at 1, autoDeploy. rewrite Hbeta, Hfalsy. simpl.
      unfold bind at 1. rewrite addLog_run. simpl.
      unfold try_catch, bind at 1. rewrite Hout.
      unfold bind. rewrite addLog_run. simpl. reflexivity.
    + done.
Qed.

(** C5. With auto-deploy enabled and a hosting token present, when the
    provider answers the hosting call made after the uploads with the
    code [PROJECT_ALREADY_EXISTS], provisioning counts as done: the result
    has [isBeta] true and the hosting URL
    [https://vercel.com/<owner>/<project name>], and the handler stores it
    and moves to [SUCCESS]. *)
Theorem deploy_treats_existing_project_as_success
    render project s repoName repoData s1 s2 err :
  AppConfig.useBetaDeploy (App.config render) = true →
  AppConfig.vercelToken (App.config render) ≠ "" →
  createStep env (App.config render) project s = (Returned (repoName, repoData), s1) →
  uploadStep env btoa_utf8 (App.config render) repoName project s1 = (Returned tt, s2) →
  env (trace s2)
    (CreateVercel (AppConfig.vercelToken (App.config render)) repoName
       (AppConfig.githubUsername (App.config render) +:+ "/" +:+ repoName) "github")
    = NotOk (inr err) →
  ApiError.code err = Some "PROJECT_ALREADY_EXISTS" →
  let result :=
    DeploymentResult.mk (RepoData.html_url repoData)
      (Some ("https://vercel.com/" +:+ AppConfig.githubUsername (App.config render)
             +:+ "/" +:+ repoName))
      true in
  ∃ s', deploy env btoa_utf8 (App.config render) project s = (Returned result, s')
        ∧ last (App.logs (app s'))
          = Some (LogEntry.mk "[Beta] Project created! Build triggered on Vercel." success)
        ∧ ∃ s'', handleDeploy_run env btoa_utf8 render project s = (Returned tt, s'')
                 ∧ App.deploymentResult (app s'') = Some result
                 ∧ App.step (app s'') = SUCCESS.
Proof.
  intros Hbeta Htoken Hcreate Hupload Hanswer Hcode result.
  assert (falsy (AppConfig.vercelToken (App.config render)) = false) as Hfalsy.
  { unfold falsy. by apply String.eqb_neq. }
  assert (∃ s', deploy env btoa_utf8 (App.config render) project s = (Returned result, s')
                ∧ last (App.logs (app s'))
                  = Some (LogEntry.mk "[Beta] Project created! Build triggered on Vercel."
                            success)) as (s' & Hdeploy & Hlog).
  { eexists. split.
    - unfold deploy. unfold bind at 1. rewrite Hcreate. simpl.
      unfold bind at 1. rewrite Hupload.
      unfold bind at 1, autoDeploy. rewrite Hbeta, Hfalsy. simpl.
      unfold bind at 1. rewrite addLog_run. simpl.
      unfold try_catch, bind at 1, createVercelProject, bind at 1, call. simpl.
      rewrite Hanswer. rewrite bool_decide_true by done.
      unfold ret at 1. unfold bind. rewrite addLog_run. simpl. reflexivity.
    - simpl. by rewrite last_snoc. }
  exists s'. split; [done|]. split; [done|].
  eexists. split; [by apply handleDeploy_run_returned|]. done.
Qed.
End Deploy.

(** *** The scenarios of the specification *)

(** Both uploads succeed, hosting disabled. *)
Example deploy_scenario_hosting_disabled :
  (deploy friendly plain sampleConfig sampleProject initialState).1
  = Returned (DeploymentResult.mk "https://github.com/octocat/demo-42" None false).
Proof. vm_compute. reflexivity. Qed.

(** Hosting enabled, the provider says the project already exists. *)
Example deploy_scenario_already_exists :
  (deploy alreadyExists plain sampleBetaConfig sampleProject initialState).1
  = Returned (DeploymentResult.mk "https://github.com/octocat/demo-42"
                (Some "https://vercel.com/octocat/demo-42") true).
Proof. vm_compute. reflexivity. Qed.

Lemma deploy_aborts_when_repository_creation_fails_witness :
  let e := Error.mk "GitHub Create Repo Error: Repository creation failed." in
  let s1 := (createStep repoNameTaken (App.config sampleRender) sampleProject sampleStart).2 in
  deploy repoNameTaken plain (App.config sampleRender) sampleProject sampleStart = (Thrown e, s1)
  ∧ (∃ calls, trace s1 = trace sampleStart ++ calls
              ∧ uploadedPaths calls = [] ∧ hostingCalls calls = [])
  ∧ ∃ s', handleDeploy_run repoNameTaken plain sampleRender sampleProject sampleStart
          = (Returned tt, s')
          ∧ trace s' = trace s1
          ∧ App.deploymentResult (app s') = App.deploymentResult (app sampleStart)
          ∧ App.step (app s') = REVIEW
          ∧ last (App.logs (app s')) = Some (LogEntry.mk (Error.message e) error).
Proof.
  intros e s1.
  apply (deploy_aborts_when_repository_creation_fails repoNameTaken plain sampleRender
           sampleProject sampleStart e s1).
  vm_compute. reflexivity.
Defined.

Lemma deploy_survives_hosting_failure_witness :
  let config := App.config sampleRender in
  let s1 := (createStep hostingDown config sampleProject sampleStart).2 in
  let s2 := (uploadStep hostingDown plain config "demo-42" sampleProject s1).2 in
  let s3 := (createVercelProject hostingDown "vercel_token" "demo-42" "octocat/demo-42"
               "github" s2).2 in
  let result := DeploymentResult.mk "https://github.com/octocat/demo-42" None false in
  ∃ s', deploy hostingDown plain config sampleProject sampleStart = (Returned result, s')
        ∧ trace s' = trace s3
        ∧ last (App.logs (app s'))
          = Some (LogEntry.mk
                    "[Beta] Auto-deploy failed (Not authorized). Falling back to manual mode."
                    warning)
        ∧ ∃ s'', handleDeploy_run hostingDown plain sampleRender sampleProject sampleStart
                 = (Returned tt, s'')
                 ∧ App.deploymentResult (app s'') = Some result
                 ∧ App.step (app s'') = SUCCESS.
Proof.
  intros config s1 s2 s3 result.
  apply (deploy_survives_hosting_failure hostingDown plain sampleRender sampleProject
           sampleStart "demo-42" (RepoData.mk "https://github.com/octocat/demo-42")
           s1 s2 (Error.mk "Not authorized") s3).
  - reflexivity.
  - discriminate.
  - vm_compute. reflexivity.
  - vm_compute. reflexivity.
  - vm_compute. reflexivity.
Defined.

Lemma deploy_treats_existing_project_as_success_witness :
  let config := App.config sampleRender in
  let result :=
    DeploymentResult.mk "https://github.com/octocat/demo-42"
      (Some "https://vercel.com/octocat/demo-42") true in
  ∃ s', deploy alreadyExists plain config sampleProject sampleStart = (Returned result, s')
        ∧ last (App.logs (app s'))
          = Some (LogEntry.mk "[Beta] Project created! Build triggered on Vercel." success)
        ∧ ∃ s'', handleDeploy_run alreadyExists plain sampleRender sampleProject sampleStart
                 = (Returned tt, s'')
                 ∧ App.deploymentResult (app s'') = Some result
                 ∧ App.step (app s'') = SUCCESS.
Proof.
  intros config result.
  apply (deploy_treats_existing_project_as_success alreadyExists plain sampleRender
           sampleProject sampleStart "demo-42"
           (RepoData.mk "https://github.com/octocat/demo-42")
           (createStep alreadyExists config sampleProject sampleStart).2
           (uploadStep alreadyExists plain config "demo-42" sampleProject
              (createStep alreadyExists config sampleProject sampleStart).2).2
           (ApiError.mk (Some "PROJECT_ALREADY_EXISTS") (Some "Project already exists"))).
  - reflexivity.
  - discriminate.
  - vm_compute. reflexivity.
  - vm_compute. reflexivity.
  - reflexivity.
  - reflexivity.
Defined.

(** ** History operations *)

Section History.
Variable env : Env.

Implicit Types (s : State) (render : App.t).

(** The push to the gist never throws and only makes calls. *)
Lemma saveHistoryToGist_run token history s :
  ∃ calls, saveHistoryToGist env token history s
           = (Returned tt, mkState (app s) (localStorage s) (trace s ++ calls)).
Proof.
  unfold saveHistoryToGist, try_catch, bind, call, ret, throw. simpl.
  step_calls env; eexists; rewrite <-?app_assoc; first [reflexivity | by rewrite app_nil_r].
Qed.

(** [saveHistory] replaces the list, stores it, and may push it. *)
Lemma saveHistory_run render newHistory s :
  ∃ calls, saveHistory env render newHistory s
           = (Returned tt,
              mkState (App.with_savedProjects newHistory (app s))
                      (<["autodeploy_history" := StoredHistory newHistory]> (localStorage s))
                      (trace s ++ calls)).
Proof.
  unfold saveHistory, bind, setSavedProjects, localStorage_setItem, modify. simpl.
  destruct (falsy _).
  - exists []. by rewrite app_nil_r.
  - unfold try_catch.
    match goal with |- context [saveHistoryToGist _ ?t ?h ?s1] =>
      destruct (saveHistoryToGist_run t h s1) as [calls ->]
    end.
    by exists calls.
Qed.

(** The record a save or a generation creates at [s]: its id and its
    timestamp are what the random source and the clock answer. *)
Lemma newEntry_run prompt project s :
  newEntry env prompt project s
  = (Returned (SavedProject.mk (env (trace s) RandomId) (env (trace s ++ [RandomId]) DateNow)
                 prompt project),
     mkState (app s) (localStorage s) (trace s ++ [RandomId; DateNow])).
Proof. unfold newEntry, bind, call, ret. simpl. by rewrite <-app_assoc. Qed.

Lemma saveCurrentProject_run render project s :
  App.project render = Some project →
  let entry := SavedProject.mk (env (trace s) RandomId) (env (trace s ++ [RandomId]) DateNow)
                 (App.prompt render) project in
  ∃ calls,
    saveCurrentProject env render s
    = (Returned tt,
       if existsb (sameNameAndPrompt project (App.prompt render)) (App.savedProjects render)
       then mkState (App.with_logs (App.logs (app s) ++ [alreadySavedLine project]) (app s))
              (localStorage s) (trace s ++ calls)
       else mkState
              (App.with_logs (App.logs (app s) ++ [savedLine project])
                 (App.with_savedProjects (entry :: App.savedProjects render) (app s)))
              (<["autodeploy_history" := StoredHistory (entry :: App.savedProjects render)]>
                 (localStorage s))
              (trace s ++ calls)).
Proof.
  intros Hproject entry. unfold saveCurrentProject. rewrite Hproject.
  unfold bind at 1. rewrite newEntry_run. fold entry.
  destruct (existsb _ _); simpl.
  - exists [RandomId; DateNow]. by rewrite addLog_run.
  - unfold bind at 1.
    match goal with |- context [saveHistory _ ?r ?h ?s1] =>
      destruct (saveHistory_run r h s1) as [calls ->]
    end.
    rewrite addLog_run. simpl.
    exists ([RandomId; DateNow] ++ calls). by rewrite <-app_assoc.
Qed.

Lemma sameNameAndPrompt_refl project prompt i ts :
  sameNameAndPrompt project prompt (SavedProject.mk i ts prompt project) = true.
Proof. unfold sameNameAndPrompt. simpl. by rewrite !String.eqb_refl. Qed.

(** C6. [saveCurrentProject] with a project at hand: when a record with
    the same project name and prompt is in the history, the history and
    [localStorage] stay as they are and the log gets the warning that the
    project is already saved; otherwise a new record with this prompt and
    project is put at the front and stored. Hence a second save of the
    same project and prompt leaves the length of the history unchanged and
    is answered by the warning. *)
Theorem saveCurrentProject_suppresses_duplicates render project s :
  App.project render = Some project →
  let found :=
    existsb (sameNameAndPrompt project (App.prompt render)) (App.savedProjects render) in
  let s1 := (saveCurrentProject env render s).2 in
  (found = true →
     App.savedProjects (app s1) = App.savedProjects (app s)
     ∧ localStorage s1 = localStorage s
     ∧ App.logs (app s1) = App.logs (app s) ++ [alreadySavedLine project])
  ∧ (found = false →
     ∃ entry,
       App.savedProjects (app s1) = entry :: App.savedProjects render
       ∧ SavedProject.prompt entry = App.prompt render
       ∧ SavedProject.project entry = project
       ∧ localStorage s1 !! "autodeploy_history"
         = Some (StoredHistory (entry :: App.savedProjects render)))
  ∧ (render = app s →
     let s2 := (saveCurrentProject env (app s1) s1).2 in
     App.savedProjects (app s2) = App.savedProjects (app s1)
     ∧ length (App.savedProjects (app s2)) = length (App.savedProjects (app s1))
     ∧ last (App.logs (app s2)) = Some (alreadySavedLine project)).
Proof.
  intros Hproject found s1.
  destruct (saveCurrentProject_run render project s Hproject) as [calls Hrun].
  fold found in Hrun. subst s1. rewrite Hrun. simpl.
  split; [|split].
  - intros Hfound. rewrite Hfound. done.
  - intros Hfound. rewrite Hfound. simpl. eexists. repeat split.
    by rewrite lookup_insert_eq.
  - intros ->.
    match goal with |- context [saveCurrentProject env (app ?s1) ?s1] =>
      assert (App.project (app s1) = Some project) as Hproject1
        by (destruct found; exact Hproject);
      assert (App.prompt (app s1) = App.prompt (app s)) as Hprompt1
        by (by destruct found);
      assert (existsb (sameNameAndPrompt project (App.prompt (app s1)))
                (App.savedProjects (app s1)) = true) as Hfound1;
      [|destruct (saveCurrentProject_run (app s1) project s1 Hproject1) as [calls1 Hrun1];
        rewrite Hfound1 in Hrun1; rewrite Hrun1; simpl;
        repeat split; by rewrite last_snoc]
    end.
    rewrite Hprompt1. destruct found eqn:Hfound; simpl; [done|].
    by rewrite sameNameAndPrompt_refl.
Qed.
End History.

Lemma saveCurrentProject_suppresses_duplicates_witness :
  let found :=
    existsb (sameNameAndPrompt sampleProject (App.prompt sampleRender))
      (App.savedProjects sampleRender) in
  let s1 := (saveCurrentProject friendly sampleRender sampleStart).2 in
  (found = true →
     App.savedProjects (app s1) = App.savedProjects (app sampleStart)
     ∧ localStorage s1 = localStorage sampleStart
     ∧ App.logs (app s1) = App.logs (app sampleStart) ++ [alreadySavedLine sampleProject])
  ∧ (found = false →
     ∃ entry,
       App.savedProjects (app s1) = entry :: App.savedProjects sampleRender
       ∧ SavedProject.prompt entry = App.prompt sampleRender
       ∧ SavedProject.project entry = sampleProject
       ∧ localStorage s1 !! "autodeploy_history"
         = Some (StoredHistory (entry :: App.savedProjects sampleRender)))
  ∧ (sampleRender = app sampleStart →
     let s2 := (saveCurrentProject friendly (app s1) s1).2 in
     App.savedProjects (app s2) = App.savedProjects (app s1)
     ∧ length (App.savedProjects (app s2)) = length (App.savedProjects (app s1))
     ∧ last (App.logs (app s2)) = Some (alreadySavedLine sampleProject)).
Proof.
  apply (saveCurrentProject_suppresses_duplicates friendly sampleRender sampleProject
           sampleStart).
  reflexivity.
Defined.

(** Saving the same project twice: one record, then the warning. *)
Example save_twice :
  let s1 := (saveCurrentProject friendly sampleRender sampleStart).2 in
  let s2 := (saveCurrentProject friendly (app s1) s1).2 in
  length (App.savedProjects (app s1)) = 1
  ∧ length (App.savedProjects (app s2)) = 1
  ∧ LogEntry.type <$> App.logs (app s2) = [success; warning].
Proof. vm_compute. done. Qed.

(** ** Synchronisation *)

Section Sync.
Variable env : Env.

Implicit Types (s : State).

(** Loading never throws; what it returns depends on the calls made so
    far only, and it touches nothing but the trace. *)
Lemma loadHistoryFromGist_run token past :
  ∃ remote calls, ∀ a ls,
    loadHistoryFromGist env token (mkState a ls past)
    = (Returned remote, mkState a ls (past ++ calls)).
Proof.
  unfold loadHistoryFromGist, try_catch, bind, call, ret, throw. simpl.
  step_calls env; do 2 eexists; intros a ls; rewrite <-?app_assoc; reflexivity.
Qed.

(** Loading returns the cloud history as the environment presents it. *)
Lemma loadHistoryFromGist_remote token past :
  ∃ calls, ∀ a ls,
    loadHistoryFromGist env token (mkState a ls past)
    = (Returned (remoteHistory env token past), mkState a ls (past ++ calls)).
Proof.
  unfold loadHistoryFromGist, remoteHistory, try_catch, bind, call, ret, throw. simpl.
  destruct (env past (ListGists token)) as [e|[e|gists]|json]; simpl;
    [by eexists..| |by eexists].
  destruct (findSyncGist gists) as [syncGist|]; simpl; [|by eexists].
  destruct (Gist.files syncGist !! GIST_FILENAME) as [file|]; simpl; [|by eexists].
  destruct (falsy (GistFile.raw_url file)); simpl; [by eexists|].
  destruct (env (past ++ [ListGists token]) (GetRaw (GistFile.raw_url file)))
    as [e|[e|history]|[e|err]]; simpl;
    eexists; intros a ls; rewrite <-app_assoc; reflexivity.
Qed.

(** Without a token nothing happens. *)
Lemma syncHistory_no_token silent s : syncHistory env "" silent s = (Returned tt, s).
Proof. reflexivity. Qed.

(** [syncHistory] with a token: what it changes and what it keeps. *)
Lemma syncHistory_effect token silent s :
  token ≠ "" →
  ∃ calls,
    let s' := (syncHistory env token silent s).2 in
    (syncHistory env token silent s).1 = Returned tt
    ∧ trace s' = trace s ++ calls
    ∧ App.step (app s') = App.step (app s)
    ∧ App.config (app s') = App.config (app s)
    ∧ App.prompt (app s') = App.prompt (app s)
    ∧ App.project (app s') = App.project (app s)
    ∧ App.showHistory (app s') = App.showHistory (app s)
    ∧ App.showAbout (app s') = App.showAbout (app s)
    ∧ match remoteHistory env token (trace s) with
      | Some cloud =>
          App.savedProjects (app s') = merge (App.savedProjects (app s)) cloud
          ∧ localStorage s'
            = <["autodeploy_history" := StoredHistory (merge (App.savedProjects (app s)) cloud)]>
                (localStorage s)
      | None =>
          App.savedProjects (app s') = App.savedProjects (app s)
          ∧ localStorage s' = localStorage s
      end.
Proof.
  intros Htoken.
  assert (falsy token = false) as Hfalsy by (unfold falsy; by apply String.eqb_neq).
  destruct (loadHistoryFromGist_remote token (trace s)) as (calls & Hload).
  exists calls. destruct s as [a ls past]. simpl in *.
  unfold syncHistory. rewrite Hfalsy.
  destruct silent;
    unfold bind, try_catch, when, ret, setIsSyncing, setSavedProjects,
      localStorage_setItem, addLog, modify, with_app; simpl;
    rewrite Hload; destruct (remoteHistory env token past) as [cloud|]; simpl; done.
Qed.

End Sync.



(** The sync scenario of the specification, and a sync with no gist. *)
Example sync_scenario :
  App.savedProjects
    (app (syncHistory (cloudHolds [rec_ "a" 5; rec_ "b" 9]) "ghp_token" false localOnly).2)
  = [rec_ "b" 9; rec_ "a" 5].
Proof. vm_compute. reflexivity. Qed.

Example sync_without_remote :
  App.savedProjects (app (syncHistory friendly "ghp_token" false localOnly).2) = [rec_ "a" 5]
  ∧ localStorage (syncHistory friendly "ghp_token" false localOnly).2 = ∅.
Proof. vm_compute. done. Qed.

(** ** Code generation *)

Section Generation.
Variable env : Env.

Implicit Types (s : State) (render : App.t).

(** Generation touches nothing but the trace. *)
Lemma generateProjectCode_run prompt mode s :
  ∃ out calls,
    generateProjectCode env prompt mode s
    = (out, mkState (app s) (localStorage s) (trace s ++ calls)).
Proof.
  unfold generateProjectCode, bind, call, ret, throw. simpl.
  destruct (falsy _); [eauto|]. simpl.
  destruct (env _ (GenerateContent prompt mode)); do 2 eexists;
    rewrite <-app_assoc; reflexivity.
Qed.

Lemma handleGenerate_run_returned render s generated s0 :
  generateProjectCode env (App.prompt render) (App.mode render) s = (Returned generated, s0) →
  let entry := generatedEntry env render generated s0 in
  ∃ logs calls,
    handleGenerate_run env render s
    = (Returned tt,
       mkState
         (App.with_savedProjects (entry :: App.savedProjects render)
            (App.with_step REVIEW
               (App.with_logs logs (App.with_project (Some generated) (app s)))))
         (<["autodeploy_history" := StoredHistory (entry :: App.savedProjects render)]>
            (localStorage s))
         (trace s0 ++ calls)).
Proof.
  intros Hgen entry.
  destruct (generateProjectCode_run (App.prompt render) (App.mode render) s)
    as (out & calls0 & Hrun).
  rewrite Hrun in Hgen. injection Hgen as -> <-.
  unfold handleGenerate_run, try_catch. unfold bind at 1. rewrite Hrun.
  unfold bind at 1, setProject, modify. simpl.
  unfold bind at 1. rewrite addLog_run. simpl.
  unfold bind at 1, setStep, modify. simpl.
  unfold bind at 1. rewrite newEntry_run. simpl.
  match goal with |- context [saveHistory _ ?r ?h ?s1] =>
    destruct (saveHistory_run env r h s1) as [calls ->]
  end.
  simpl. eexists. exists ([RandomId; DateNow] ++ calls).
  by rewrite (app_assoc (trace s ++ calls0) [RandomId; DateNow] calls).
Qed.

(** C10 (as amended). A successful generation puts a new record at the
    front of the history the handler closed over and stores the list; the
    record carries the prompt, the generated project, the id the random
    source gave and the time of the clock. No search for a record with the
    same name and prompt is made: a second successful generation from the
    same prompt puts a second record in front of the first, whatever the
    two have in common. *)
Theorem handleGenerate_run_prepends render s generated s0 :
  generateProjectCode env (App.prompt render) (App.mode render) s = (Returned generated, s0) →
  let entry := generatedEntry env render generated s0 in
  let s1 := (handleGenerate_run env render s).2 in
  App.savedProjects (app s1) = entry :: App.savedProjects render
  ∧ localStorage s1 !! "autodeploy_history"
    = Some (StoredHistory (entry :: App.savedProjects render))
  ∧ App.project (app s1) = Some generated
  ∧ App.step (app s1) = REVIEW
  ∧ ∀ generated' s0',
      render = app s →
      generateProjectCode env (App.prompt (app s1)) (App.mode (app s1)) s1
        = (Returned generated', s0') →
      let entry' := generatedEntry env (app s1) generated' s0' in
      let s2 := (handleGenerate_run env (app s1) s1).2 in
      App.savedProjects (app s2) = entry' :: entry :: App.savedProjects (app s)
      ∧ SavedProject.prompt entry' = SavedProject.prompt entry.
Proof.
  intros Hgen entry s1.
  destruct (handleGenerate_run_returned render s generated s0 Hgen) as (logs & calls & Hrun).
  fold entry in Hrun. subst s1. rewrite Hrun. simpl.
  split; [done|]. split; [by rewrite lookup_insert_eq|]. split; [done|]. split; [done|].
  intros generated' s0' -> Hgen'.
  match type of Hgen' with generateProjectCode _ _ _ ?s1 = _ =>
    destruct (handleGenerate_run_returned (app s1) s1 generated' s0' Hgen')
      as (logs' & calls' & Hrun')
  end.
  simpl in Hrun'. rewrite Hrun'. simpl. done.
Qed.
End Generation.

Lemma handleGenerate_run_prepends_witness :
  let render := app loggedIn in
  let s0 := (generateProjectCode friendly "a todo app" generate loggedIn).2 in
  let entry := generatedEntry friendly render sampleProject s0 in
  let s1 := (handleGenerate_run friendly render loggedIn).2 in
  App.savedProjects (app s1) = entry :: App.savedProjects render
  ∧ localStorage s1 !! "autodeploy_history"
    = Some (StoredHistory (entry :: App.savedProjects render))
  ∧ App.project (app s1) = Some sampleProject
  ∧ App.step (app s1) = REVIEW
  ∧ ∀ generated' s0',
      render = app loggedIn →
      generateProjectCode friendly (App.prompt (app s1)) (App.mode (app s1)) s1
        = (Returned generated', s0') →
      let entry' := generatedEntry friendly (app s1) generated' s0' in
      let s2 := (handleGenerate_run friendly (app s1) s1).2 in
      App.savedProjects (app s2) = entry' :: entry :: App.savedProjects (app loggedIn)
      ∧ SavedProject.prompt entry' = SavedProject.prompt entry.
Proof.
  intros render s0.
  apply (handleGenerate_run_prepends friendly render loggedIn sampleProject s0).
  vm_compute. reflexivity.
Defined.

(** Two generations from the same prompt: two records with the same name
    and prompt, and here with the same id, as the random source repeats. *)
Example generate_twice :
  let s1 := (handleGenerate friendly (app loggedIn) loggedIn).2 in
  let s2 := (handleGenerate friendly (App.with_step PROMPT (app s1)) s1).2 in
  ids (App.savedProjects (app s2)) = ["k3x9q"; "k3x9q"]
  ∧ SavedProject.timestamp <$> App.savedProjects (app s2)
    = [1700000000009; 1700000000003]%Z
  ∧ (GeneratedProject.name ∘ SavedProject.project) <$> App.savedProjects (app s2)
    = ["demo"; "demo"]
  ∧ SavedProject.prompt <$> App.savedProjects (app s2) = ["a todo app"; "a todo app"].
Proof. vm_compute. done. Qed.

(** C10 as stated does not hold: the id of the new record is what the
    random source gives, and nothing compares it with the ids at hand. Here
    the history holds a record with id [k3x9q] and the random source gives
    [k3x9q] again. *)
Lemma generated_id_may_repeat :
  ¬ ∀ (env : Env) render s generated s0,
      generateProjectCode env (App.prompt render) (App.mode render) s
        = (Returned generated, s0) →
      ∃ entry rest,
        App.savedProjects (app (handleGenerate_run env render s).2) = entry :: rest
        ∧ SavedProject.id entry ∉ ids (App.savedProjects render).
Proof.
  intros Hclaim.
  pose (s1 := (handleGenerate_run friendly (app loggedIn) loggedIn).2).
  destruct (Hclaim friendly (app s1) s1 sampleProject
              (generateProjectCode friendly "a todo app" generate s1).2)
    as (entry & rest & Heq & Hfresh).
  { vm_compute. reflexivity. }
  vm_compute in Heq. injection Heq as <- <-.
  apply Hfresh. vm_compute. constructor.
Qed.

(** ** Orchestration state machine *)

Section StateMachine.
Variable env : Env.
Variable btoa_utf8 : string → Error.t + string.

(** While the phase is [GENERATING] the generate button is disabled, and
    while it is [DEPLOYING] the deploy button is: a click changes
    nothing. *)
Lemma click_in_running_phase_is_ignored (sys : Sys) :
  (App.step (app (state sys)) = GENERATING →
     dispatch env btoa_utf8 ClickGenerate sys = sys)
  ∧ (App.step (app (state sys)) = DEPLOYING →
     dispatch env btoa_utf8 ClickDeploy sys = sys).
Proof.
  split; intros Hstep; unfold dispatch, generateButton, deployButton; rewrite Hstep; simpl.
  - by rewrite andb_false_r.
  - by rewrite andb_false_r.
Qed.

(** The handlers themselves do not look at the phase: they rely on the
    buttons. *)
Lemma handleDeploy_ignores_step render v :
  handleDeploy_guard (App.with_step v render) = handleDeploy_guard render.
Proof. reflexivity. Qed.

(** The history drawer is offered in every phase but [CONFIG], and loading
    a saved project sets the phase to [REVIEW] whatever is running. *)
Lemma loadProject_leaves_running_phase entry (sys : Sys) :
  App.showHistory (app (state sys)) = true →
  App.savedProjects (app (state sys)) !! 0 = Some entry →
  let sys' := dispatch env btoa_utf8 (ClickSavedProject 0) sys in
  App.step (app (state sys')) = REVIEW ∧ inFlight sys' = inFlight sys.
Proof. intros Hshow Hentry. unfold dispatch. by rewrite Hshow, Hentry. Qed.
End StateMachine.

(** C8, evaluated on the component. The invariant fails: after the events
    of [deployTwice] two deployment runs are in flight at once, the first
    started from the generated project and the second from the same project
    loaded from the history while the first was still running. *)
Theorem two_deploys_in_flight :
  let sys := run_events friendly plain deployTwice initialSys in
  deploysInFlight sys = 2
  ∧ length (inFlight sys) = 2
  ∧ App.step (app (state sys)) = DEPLOYING.
Proof. vm_compute. done. Qed.

(** Both runs then go through, each creating its own repository. *)
Example two_deploys_both_run :
  let sys := run_events friendly plain (deployTwice ++ [Settle 0; Settle 0]) initialSys in
  inFlight sys = []
  ∧ List.filter (λ c, match c with CreateRepo _ _ _ => true | _ => false end)
      (trace (state sys))
    = [CreateRepo "ghp_token" "demo-42" "A demo"; CreateRepo "ghp_token" "demo-42" "A demo"].
Proof. vm_compute. done. Qed.

(** * Further properties *)

(** ** More on the merge *)

Lemma sort_insert_front (x : SavedProject.t) (l : list SavedProject.t) :
  HdRel newer_or_equal x l → sort_insert byTimestampDesc x l = x :: l.
Proof.
  destruct 1 as [|y l Hxy]; simpl; [done|].
  unfold newer_or_equal in Hxy. unfold byTimestampDesc.
  by rewrite (proj2 (Z.leb_le _ _)) by lia.
Qed.

Lemma Array_sort_fixes_sorted (l : list SavedProject.t) :
  Sorted newer_or_equal l → Array_sort byTimestampDesc l = l.
Proof.
  induction 1 as [|x l Hl IH Hhd]; [done|].
  unfold Array_sort in *; simpl. rewrite IH. by apply sort_insert_front.
Qed.

(** X3. [Array.prototype.sort] with the timestamp comparator leaves a list
    that is already newest first exactly as it is, records with equal
    timestamps included; in particular sorting twice is sorting once. *)
Theorem Array_sort_of_sorted (l : list SavedProject.t) :
  Sorted newer_or_equal l →
  Array_sort byTimestampDesc l = l
  ∧ ∀ l', Array_sort byTimestampDesc (Array_sort byTimestampDesc l')
          = Array_sort byTimestampDesc l'.
Proof.
  intros Hl. split; [by apply Array_sort_fixes_sorted|].
  intros l'. apply Array_sort_fixes_sorted, Array_sort_Sorted.
Qed.

Lemma Array_sort_of_sorted_witness :
  Array_sort byTimestampDesc [rec_ "b" 9; rec_ "a" 5; rec_ "c" 5]
  = [rec_ "b" 9; rec_ "a" 5; rec_ "c" 5]
  ∧ ∀ l', Array_sort byTimestampDesc (Array_sort byTimestampDesc l')
          = Array_sort byTimestampDesc l'.
Proof.
  apply (Array_sort_of_sorted [rec_ "b" 9; rec_ "a" 5; rec_ "c" 5]).
  repeat constructor; unfold newer_or_equal; simpl; lia.
Defined.

#[local] Instance newer_or_equal_trans : Transitive newer_or_equal.
Proof. intros a b c. unfold newer_or_equal. lia. Qed.

Lemma HdRel_filter (P : SavedProject.t → Prop) `{!∀ p, Decision (P p)} x l :
  Forall (newer_or_equal x) l → HdRel newer_or_equal x (filter P l).
Proof.
  intros Hall. assert (Forall (newer_or_equal x) (filter P l)) as Hf.
  { apply Forall_forall. intros y [_ Hy]%list_elem_of_filter.
    by apply (proj1 (Forall_forall _ _) Hall). }
  destruct Hf; by constructor.
Qed.

Lemma filter_sort_insert (P : SavedProject.t → Prop) `{!∀ p, Decision (P p)} x l :
  StronglySorted newer_or_equal l →
  filter P (sort_insert byTimestampDesc x l)
  = if decide (P x) then sort_insert byTimestampDesc x (filter P l) else filter P l.
Proof.
  induction 1 as [|y l Hl IH Hall]; simpl.
  - rewrite filter_cons, filter_nil. by destruct (decide (P x)).
  - destruct (byTimestampDesc x y <=? 0)%Z eqn:Hc.
    + rewrite (filter_cons _ x). destruct (decide (P x)); [|done].
      symmetry. apply sort_insert_front. apply HdRel_filter. constructor.
      * apply Z.leb_le in Hc. unfold byTimestampDesc in Hc. unfold newer_or_equal. lia.
      * apply Forall_forall. intros z Hz. etrans; [|by apply (proj1 (Forall_forall _ _) Hall)].
        apply Z.leb_le in Hc. unfold byTimestampDesc in Hc. unfold newer_or_equal. lia.
    + rewrite (filter_cons _ y), IH, (filter_cons _ y).
      destruct (decide (P y)), (decide (P x)); simpl; try done.
      by rewrite Hc.
Qed.

(** Sorting and keeping the records that satisfy [P] can be done in either
    order. *)
Lemma filter_Array_sort (P : SavedProject.t → Prop) `{!∀ p, Decision (P p)} l :
  filter P (Array_sort byTimestampDesc l) = Array_sort byTimestampDesc (filter P l).
Proof.
  induction l as [|x l IH]; [done|].
  change (Array_sort byTimestampDesc (x :: l))
    with (sort_insert byTimestampDesc x (Array_sort byTimestampDesc l)).
  rewrite filter_sort_insert
    by (apply Sorted_StronglySorted; [apply _|apply Array_sort_Sorted]).
  rewrite IH, filter_cons. by destruct (decide (P x)).
Qed.

Lemma Array_sort_app_sorted (l1 l2 : list SavedProject.t) :
  Array_sort byTimestampDesc (l1 ++ Array_sort byTimestampDesc l2)
  = Array_sort byTimestampDesc (l1 ++ l2).
Proof.
  unfold Array_sort at 1 3. rewrite !foldr_app. f_equal.
  apply Array_sort_fixes_sorted, Array_sort_Sorted.
Qed.

(** The records pushed by the [forEach] have pairwise distinct ids, none of
    them an id of the list pushed onto. *)
Lemma pushMissing_pushed prev : ∀ combined,
  ∃ pushed, pushMissing combined prev = combined ++ pushed
            ∧ NoDup (ids pushed)
            ∧ ∀ p, p ∈ pushed → p ∈ prev ∧ absentFrom combined p.
Proof.
  induction prev as [|p prev IH]; intros combined.
  - exists []. split; [by rewrite app_nil_r|]. split; [constructor|].
    intros p Hp. by apply elem_of_nil in Hp.
  - rewrite pushMissing_cons. case_decide as Hin.
    + destruct (IH combined) as (pushed & -> & Hnd & Hp). exists pushed.
      split; [done|]. split; [done|].
      intros q Hq. destruct (Hp q Hq). split; [by right|done].
    + destruct (IH (combined ++ [p])) as (pushed & -> & Hnd & Hp).
      exists (p :: pushed). split; [by rewrite <-app_assoc|].
      assert (∀ q, q ∈ pushed → q ∈ prev ∧ absentFrom combined q
                                ∧ SavedProject.id q ≠ SavedProject.id p) as Hp'.
      { intros q Hq. destruct (Hp q Hq) as [? Hab]. split; [done|].
        unfold absentFrom, ids in *. rewrite fmap_app, elem_of_app in Hab.
        simpl in Hab. rewrite list_elem_of_singleton in Hab. tauto. }
      split.
      * unfold ids. rewrite fmap_cons. apply NoDup_cons. split; [|done].
        intros (q & Heq & Hq)%list_elem_of_fmap. destruct (Hp' q Hq) as (_ & _ & Hne).
        congruence.
      * intros q [->|Hq]%elem_of_cons; [split; [by left|done]|].
        destruct (Hp' q Hq) as (? & ? & _). split; [by right|done].
Qed.

(** The [forEach] pushes exactly the records absent from the list pushed
    onto, as soon as those have pairwise distinct ids. *)
Lemma pushMissing_filter prev : ∀ combined,
  NoDup (ids (filter (absentFrom combined) prev)) →
  pushMissing combined prev = combined ++ filter (absentFrom combined) prev.
Proof.
  induction prev as [|p prev IH]; intros combined Hnd.
  - by rewrite filter_nil, app_nil_r.
  - rewrite pushMissing_cons. case_decide as Hin.
    + rewrite filter_cons_False in Hnd |- * by (unfold absentFrom; tauto). by apply IH.
    + rewrite filter_cons_True in Hnd |- * by done.
      unfold ids in Hnd. rewrite fmap_cons in Hnd. apply NoDup_cons in Hnd as [Hp Hnd].
      assert (filter (absentFrom (combined ++ [p])) prev = filter (absentFrom combined) prev)
        as Heq.
      { apply filter_ext_elem. intros q Hq. unfold absentFrom, ids.
        rewrite fmap_app, elem_of_app. simpl. rewrite list_elem_of_singleton.
        split; [tauto|]. intros Hq'. intros [?|Heq]; [done|].
        apply Hp. rewrite <-Heq. apply list_elem_of_fmap_2. by apply list_elem_of_filter. }
      rewrite IH by (by rewrite Heq). by rewrite Heq, <-app_assoc.
Qed.

(** X1. The merge invents nothing and loses no id: every record of
    [merge L R] is a record of [R] or of [L], every record of [R] is in it,
    and its ids are exactly the ids of [L] and [R] together, whatever the
    two lists (repeated ids included). *)
Theorem merge_invents_nothing (L R : list SavedProject.t) :
  (∀ p, p ∈ merge L R → p ∈ R ∨ p ∈ L)
  ∧ (∀ p, p ∈ R → p ∈ merge L R)
  ∧ (∀ i, i ∈ ids (merge L R) ↔ i ∈ ids R ∨ i ∈ ids L).
Proof.
  destruct (merge_Permutation L R) as (pushed & Hperm & Hpushed).
  assert (∀ p, p ∈ merge L R → p ∈ R ∨ p ∈ L) as Hfrom.
  { intros p. rewrite Hperm, elem_of_app. intros [?|Hp]; [by left|].
    right. by apply Hpushed. }
  split; [done|]. split.
  - intros p Hp. rewrite Hperm, elem_of_app. by left.
  - intros i. split.
    + intros (p & -> & Hp)%list_elem_of_fmap.
      destruct (Hfrom p Hp); [left|right]; by apply list_elem_of_fmap_2.
    + intros Hi. unfold merge, ids. rewrite Array_sort_Permutation.
      apply pushMissing_ids. tauto.
Qed.

(** X2. When the ids of the cloud list are pairwise distinct, so are the
    ids of the merged list, even if the local list repeats ids. *)
Theorem merge_NoDup (L R : list SavedProject.t) :
  NoDup (ids R) → NoDup (ids (merge L R)).
Proof.
  intros HR. destruct (pushMissing_pushed L R) as (pushed & Heq & Hnd & Hp).
  unfold merge, ids. rewrite Array_sort_Permutation, Heq, fmap_app.
  apply NoDup_app. split; [done|]. split; [|done].
  intros i Hi (p & -> & Hpin)%list_elem_of_fmap. by apply (Hp p Hpin).
Qed.

Lemma merge_NoDup_witness :
  NoDup (ids (merge [rec_ "c" 7; rec_ "c" 8; rec_ "a" 1] sampleCloud)).
Proof.
  apply (merge_NoDup [rec_ "c" 7; rec_ "c" 8; rec_ "a" 1] sampleCloud).
  apply (bool_decide_unpack _). vm_compute. reflexivity.
Defined.

(** X4. Synchronising again with an unchanged cloud list changes nothing:
    merging the merged list with the same cloud list gives the merged list
    back, order included. *)
Theorem merge_idempotent (L R : list SavedProject.t) :
  merge (merge L R) R = merge L R.
Proof.
  destruct (pushMissing_pushed L R) as (pushed & Heq & Hnd & Hp).
  assert (filter (absentFrom R) R = []) as HRR.
  { apply elem_of_nil_inv. intros p [Hab Hin]%list_elem_of_filter.
    apply Hab. by apply list_elem_of_fmap_2. }
  assert (filter (absentFrom R) pushed = pushed) as Hpp.
  { clear Heq Hnd. induction pushed as [|q pushed IH]; [done|].
    rewrite filter_cons_True by (apply Hp; by left).
    f_equal. apply IH. intros ? ?. apply Hp. by right. }
  assert (filter (absentFrom R) (merge L R) = Array_sort byTimestampDesc pushed) as Hf.
  { unfold merge. by rewrite filter_Array_sort, Heq, filter_app, HRR, Hpp. }
  unfold merge at 1. rewrite pushMissing_filter.
  - rewrite Hf, Array_sort_app_sorted. unfold merge. by rewrite Heq.
  - rewrite Hf. unfold ids. by rewrite Array_sort_Permutation.
Qed.

(** ** What a computation leaves alone *)

Section Confined.
Variable env : Env.
Variable btoa_utf8 : string → Error.t + string.

Implicit Types (P : Call → Prop) (s : State).

Lemma confined_ret P {A} (a : A) : confined P (ret a).
Proof.
  intros s. exists [], []. simpl. rewrite with_logs_same, app_nil_r.
  split; [by destruct s|constructor].
Qed.

Lemma confined_throw P {A} e : confined P (@throw A e).
Proof.
  intros s. exists [], []. simpl. rewrite with_logs_same, app_nil_r.
  split; [by destruct s|constructor].
Qed.

Lemma confined_addLog P message type : confined P (addLog message type).
Proof.
  intros s. exists [LogEntry.mk message type], []. simpl. rewrite app_nil_r.
  split; [done|constructor].
Qed.

Lemma confined_call P c : P c → confined P (call env c).
Proof.
  intros Hc s. exists [], [c]. simpl. rewrite with_logs_same.
  split; [done|by repeat constructor].
Qed.

Lemma confined_bind P {A B} (m : M A) (k : A → M B) :
  confined P m → (∀ a, confined P (k a)) → confined P (bind m k).
Proof.
  intros Hm Hk s. destruct (Hm s) as (logs & calls & Hs & Hcalls).
  unfold bind. destruct (m s) as [[a|e] s1]; simpl in Hs; subst s1.
  - match goal with |- context [k a ?s1] => destruct (Hk a s1) as (logs' & calls' & -> & Hcalls') end.
    exists (logs ++ logs'), (calls ++ calls'). simpl. rewrite <-!app_assoc.
    split; [done|by apply Forall_app].
  - by exists logs, calls.
Qed.

Lemma confined_try_catch P {A} (body : M A) (handler : Error.t → M A) :
  confined P body → (∀ e, confined P (handler e)) → confined P (try_catch body handler).
Proof.
  intros Hm Hk s. destruct (Hm s) as (logs & calls & Hs & Hcalls).
  unfold try_catch. destruct (body s) as [[a|e] s1]; simpl in Hs; subst s1.
  - by exists logs, calls.
  - match goal with |- context [handler e ?s1] =>
      destruct (Hk e s1) as (logs' & calls' & -> & Hcalls') end.
    exists (logs ++ logs'), (calls ++ calls'). simpl. rewrite <-!app_assoc.
    split; [done|by apply Forall_app].
Qed.

Lemma confined_mono P Q {A} (m : M A) :
  (∀ c, P c → Q c) → confined P m → confined Q m.
Proof.
  intros HPQ Hm s. destruct (Hm s) as (logs & calls & Hs & Hcalls).
  exists logs, calls. split; [done|]. by eapply Forall_impl.
Qed.

(** Chains of [bind], [try_catch], [ret], [throw], [addLog] and calls. *)
Ltac confine :=
  repeat first
    [ apply confined_ret
    | apply confined_throw
    | apply confined_addLog
    | apply confined_bind; [|intros ?]
    | apply confined_try_catch; [|intros ?]
    | apply confined_call
    | match goal with
      | |- confined _ (match ?x with _ => _ end) => destruct x
      | |- confined _ (if ?x then _ else _) => destruct x
      | |- confined _ (when ?b _) => destruct b; simpl
      end ].

Lemma confined_pushFilesToRepo token username repoName files :
  confined is_contents (pushFilesToRepo env btoa_utf8 token username repoName files onProgress).
Proof.
  induction files as [|file files IH]; simpl; [apply confined_ret|].
  unfold onProgress, probeSha. confine; try exact I. exact IH.
Qed.

Lemma confined_createStep config project :
  confined (λ c, is_hosting c = false ∧ uploadPath c = None) (createStep env config project).
Proof. unfold createStep, createRepository. confine; done. Qed.

Lemma confined_uploadStep config repoName project :
  confined (λ c, is_hosting c = false) (uploadStep env btoa_utf8 config repoName project).
Proof.
  unfold uploadStep. confine.
  eapply confined_mono; [|apply confined_pushFilesToRepo]. by intros [].
Qed.

Lemma confined_autoDeploy config repoName : confined (λ _, True) (autoDeploy env config repoName).
Proof. unfold autoDeploy, createVercelProject. confine; done. Qed.

Lemma confined_deploy config project :
  confined (λ _, True) (deploy env btoa_utf8 config project).
Proof.
  unfold deploy. confine; try done; try apply confined_autoDeploy.
  eapply confined_mono; [|apply confined_pushFilesToRepo]. done.
Qed.

(** X14. With auto-deploy switched off, or with no hosting token, the
    pipeline never makes a hosting call, whatever the environment answers
    and however the run ends; a result it returns has [isBeta] false and no
    [deployUrl]; and it writes nothing but log lines. *)
Theorem deploy_without_hosting config project s :
  AppConfig.useBetaDeploy config = false ∨ AppConfig.vercelToken config = "" →
  let run := deploy env btoa_utf8 config project s in
  (∃ logs calls,
     run.2 = mkState (App.with_logs (App.logs (app s) ++ logs) (app s)) (localStorage s)
               (trace s ++ calls)
     ∧ hostingCalls calls = [])
  ∧ ∀ result, run.1 = Returned result →
      DeploymentResult.isBeta result = false ∧ DeploymentResult.deployUrl result = None.
Proof.
  intros Hoff run.
  assert (AppConfig.useBetaDeploy config && negb (falsy (AppConfig.vercelToken config)) = false)
    as Hcond.
  { destruct Hoff as [->| ->]; [done|]. by rewrite andb_false_r. }
  split.
  - assert (confined (λ c, is_hosting c = false) (deploy env btoa_utf8 config project)) as Hc.
    { unfold deploy. apply confined_bind; [|intros created].
      { eapply confined_mono; [|apply confined_createStep]. by intros ? []. }
      apply confined_bind; [apply confined_uploadStep|intros _].
      apply confined_bind; [|intros hosting; apply confined_ret].
      unfold autoDeploy. rewrite Hcond. confine. }
    destruct (Hc s) as (logs & calls & Hs & Hcalls). exists logs, calls. split; [done|].
    unfold hostingCalls. clear Hs. induction Hcalls as [|c calls Hcall _ IH]; [done|].
    simpl. by rewrite Hcall.
  - subst run. unfold deploy, bind.
    destruct (createStep env config project s) as [[created|e] s1]; [|done].
    destruct (uploadStep env btoa_utf8 config created.1 project s1) as [[[]|e] s2]; [|done].
    unfold autoDeploy. rewrite Hcond. simpl. by intros result [= <-].
Qed.
End Confined.

Lemma deploy_without_hosting_witness :
  let run := deploy friendly plain sampleConfig sampleProject initialState in
  (∃ logs calls,
     run.2 = mkState (App.with_logs (App.logs (app initialState) ++ logs) (app initialState))
               (localStorage initialState) (trace initialState ++ calls)
     ∧ hostingCalls calls = [])
  ∧ ∀ result, run.1 = Returned result →
      DeploymentResult.isBeta result = false ∧ DeploymentResult.deployUrl result = None.
Proof.
  apply (deploy_without_hosting friendly plain sampleConfig sampleProject initialState).
  left. reflexivity.
Defined.

(** ** More on the upload step *)

Section Uploads.
Variable env : Env.
Variable btoa_utf8 : string → Error.t + string.

Implicit Types (s : State) (files : list FileNode.t).

Lemma Uploaded_then token username repoName past uploaded calls :
  Uploaded env btoa_utf8 token username repoName past uploaded calls →
  ∀ reached calls',
    ProbeThenPut env btoa_utf8 token username repoName (past ++ calls) reached calls' →
    ProbeThenPut env btoa_utf8 token username repoName past (uploaded ++ reached)
      (calls ++ calls').
Proof.
  induction 1 as [past|past file files calls contentEncoded json probe put Henc _ _ IH];
    intros reached calls' Hrest.
  - by rewrite app_nil_r in Hrest.
  - simpl. eapply ProbeThenPut_cons; [done|]. apply IH.
    by rewrite <-app_assoc.
Qed.

Lemma Uploaded_encodes token username repoName past uploaded calls :
  Uploaded env btoa_utf8 token username repoName past uploaded calls →
  List.filter (encodes btoa_utf8) uploaded = uploaded.
Proof.
  induction 1 as [past|past file files calls contentEncoded json probe put Henc _ _ IH];
    [done|].
  simpl. unfold encodes at 1. by rewrite Henc, IH.
Qed.

Lemma filter_encodes_snoc uploaded file :
  List.filter (encodes btoa_utf8) uploaded = uploaded →
  List.filter (encodes btoa_utf8) (uploaded ++ [file])
  = uploaded ++ (if encodes btoa_utf8 file then [file] else []).
Proof.
  intros Hall. rewrite List.filter_app, Hall. simpl. by destruct (encodes btoa_utf8 file).
Qed.

(** X12. The calls of [pushFilesToRepo] come file by file in the declared
    order, for the files the run reaches: a probe of the file's path, then
    the upload of the same path, carrying the encoded text and the [sha]
    the probe found, none when the probe failed in any way. A failed probe
    stops nothing. A file whose text cannot be encoded gets its probe and
    no upload, and is the last file reached. No other call is made, and a
    run that returns has made the two calls for every file. *)
Theorem pushFilesToRepo_probes_then_puts token username repoName files s :
  let run := pushFilesToRepo env btoa_utf8 token username repoName files onProgress s in
  ∃ reached calls,
    trace run.2 = trace s ++ calls
    ∧ ProbeThenPut env btoa_utf8 token username repoName (trace s) reached calls
    ∧ reached `prefix_of` files
    ∧ (∀ a, run.1 = Returned a → reached = files ∧ length calls = 2 * length files).
Proof.
  intros run.
  destruct (pushFilesToRepo_run env btoa_utf8 token username repoName files s run.1 run.2)
    as (uploaded & calls & Huploaded & Hout); [apply surjective_pairing|].
  pose proof (Uploaded_then _ _ _ _ _ _ Huploaded) as Hthen.
  destruct run.1 as [[]|e].
  - destruct Hout as [-> ->]. exists files, calls. split; [done|].
    split; [|split; [done|]].
    + specialize (Hthen [] []). rewrite !app_nil_r in Hthen. apply Hthen. constructor.
    + intros _ _. split; [done|]. by eapply Uploaded_paths.
  - destruct Hout as (file & rest & tail & -> & -> & Hfail).
    exists (uploaded ++ [file]), (calls ++ probeOf token username repoName file :: tail).
    split; [done|]. split; [|split; [|done]].
    + apply Hthen.
      destruct (btoa_utf8 (FileNode.content file)) as [e'|contentEncoded] eqn:Henc.
      * destruct Hfail as [_ ->]. by eapply ProbeThenPut_stuck.
      * destruct Hfail as [-> _]. eapply ProbeThenPut_cons; [done|]. constructor.
    + apply prefix_app, prefix_cons, prefix_nil.
Qed.

(** X13. [pushFilesToRepo] reports one progress line per file it reaches,
    in the declared order, and writes nothing else: not the stored data,
    and of the component state only the log. The uploads it issues are
    those of the reached files whose text the encoder takes, in the same
    order; a run that returns has reached every file. *)
Theorem pushFilesToRepo_progress token username repoName files s :
  let run := pushFilesToRepo env btoa_utf8 token username repoName files onProgress s in
  ∃ reached calls,
    run.2 = mkState (App.with_logs (App.logs (app s) ++ (progressLine <$> reached)) (app s))
              (localStorage s) (trace s ++ calls)
    ∧ uploadedPaths calls = FileNode.path <$> List.filter (encodes btoa_utf8) reached
    ∧ reached `prefix_of` files
    ∧ (∀ a, run.1 = Returned a → reached = files).
Proof.
  intros run.
  destruct (pushFilesToRepo_run env btoa_utf8 token username repoName files s run.1 run.2)
    as (uploaded & calls & Huploaded & Hout); [apply surjective_pairing|].
  pose proof (Uploaded_encodes _ _ _ _ _ _ Huploaded) as Hencodes.
  destruct (Uploaded_paths _ _ _ _ _ _ _ _ Huploaded) as [Hpaths _].
  destruct run.1 as [[]|e].
  - destruct Hout as [-> ->]. exists files, calls. by rewrite Hencodes.
  - destruct Hout as (file & rest & tail & -> & -> & Hfail).
    exists (uploaded ++ [file]), (calls ++ probeOf token username repoName file :: tail).
    split; [done|]. split; [|split; [|done]].
    + rewrite filter_encodes_snoc by done. rewrite uploadedPaths_app, Hpaths, fmap_app.
      f_equal. unfold encodes.
      destruct (btoa_utf8 (FileNode.content file)) as [e'|contentEncoded].
      * by destruct Hfail as [_ ->].
      * by destruct Hfail as [-> _].
    + apply prefix_app, prefix_cons, prefix_nil.
Qed.
End Uploads.

(** A re-deploy onto a path that holds a file sends that file's [sha]. *)
Example upload_sends_probed_sha :
  let holds : Env :=
    λ past c,
      match c return Answer c with
      | GetContents _ _ _ _ => Ok (inr (Some "3a0f86"))
      | c' => friendly past c'
      end in
  trace (pushFilesToRepo holds plain "t" "octocat" "demo-42" [FileNode.mk "index.html" "x"]
           onProgress initialState).2
  = [GetContents "t" "octocat" "demo-42" "index.html";
     PutContents "t" "octocat" "demo-42" "index.html" "Add index.html via AutoDeploy Agent" "x"
       (Some "3a0f86")].
Proof. vm_compute. reflexivity. Qed.

(** ** More on the pipeline *)

Section PipelineOutcome.
Variable env : Env.
Variable btoa_utf8 : string → Error.t + string.

Implicit Types (s : State) (config : AppConfig.t).

Lemma createStep_returned config project s created s1 :
  createStep env config project s = (Returned created, s1) →
  created.1 = GeneratedProject.name project +:+ "-"
              +:+ decimal (env (trace s) RandomSuffix mod 1000)
  ∧ env (trace s ++ [RandomSuffix])
      (CreateRepo (AppConfig.githubToken config) created.1
         (GeneratedProject.description project))
    = Ok (inr created.2)
  ∧ trace s1 = trace s ++ [RandomSuffix;
                           CreateRepo (AppConfig.githubToken config) created.1
                             (GeneratedProject.description project)].
Proof.
  unfold createStep, createRepository, bind, call, ret, throw, addLog, modify. simpl.
  destruct (env (trace s ++ [RandomSuffix]) _) as [e|[e|data]|[e|err]] eqn:Hanswer;
    intros [= <- <-]. simpl. split; [done|]. split; [done|]. by rewrite <-app_assoc.
Qed.

Lemma uploadStep_returned config repoName project s s' :
  uploadStep env btoa_utf8 config repoName project s = (Returned tt, s') →
  ∃ calls,
    trace s' = trace s ++ calls
    ∧ Uploaded env btoa_utf8 (AppConfig.githubToken config) (AppConfig.githubUsername config)
        repoName (trace s) (GeneratedProject.files project) calls.
Proof.
  unfold uploadStep. unfold bind at 1. rewrite addLog_run.
  unfold bind at 1.
  match goal with |- context [pushFilesToRepo _ _ ?t ?u ?r ?f _ ?s1] =>
    destruct (pushFilesToRepo env btoa_utf8 t u r f onProgress s1) as [o s2] eqn:Hpush;
    apply pushFilesToRepo_run in Hpush as (uploaded & calls & Huploaded & Hout)
  end.
  destruct o as [[]|e]; [|done]. destruct Hout as [-> ->].
  rewrite addLog_run. simpl. intros [= <-]. by exists calls.
Qed.

Lemma autoDeploy_run config repoName s :
  ∃ hosting logs calls,
    autoDeploy env config repoName s
    = (Returned hosting,
       mkState (App.with_logs (App.logs (app s) ++ logs) (app s)) (localStorage s)
         (trace s ++ calls))
    ∧ uploadedPaths calls = []
    ∧ (hosting.2 = true ↔ is_Some hosting.1).
Proof.
  unfold autoDeploy.
  destruct (AppConfig.useBetaDeploy config && negb (falsy (AppConfig.vercelToken config))).
  - unfold bind at 1. rewrite addLog_run. unfold try_catch, bind at 1.
    destruct (createVercelProject_run env (AppConfig.vercelToken config) repoName
                (AppConfig.githubUsername config +:+ "/" +:+ repoName) "github" (trace s))
      as [out Hout].
    rewrite Hout.
    destruct out as [[v|]|e]; unfold bind, addLog, modify, with_app, ret; simpl;
      eexists _, _, [_]; (split; [rewrite <-?app_assoc; reflexivity|]);
      (split; [done|]); simpl; split; try done; by intros [? [=]].
  - unfold bind. rewrite addLog_run. simpl. eexists _, [_], []. rewrite app_nil_r.
    split; [reflexivity|]. split; [done|]. simpl. split; [done|]. by intros [? [=]].
Qed.

(** X15. When the pipeline returns a result, the repository was created
    under the project name followed by the drawn suffix, and [repoUrl] is
    the [html_url] the host answered for it. After that every file of the
    project was uploaded, once and in the declared order: its upload
    carried the encoded text of the file and was accepted by the host.
    The calls that follow the uploads upload nothing, and the result has
    [isBeta] exactly when it has a [deployUrl]. *)
Theorem deploy_returned config project s result s' :
  deploy env btoa_utf8 config project s = (Returned result, s') →
  ∃ repoName data uploads hosting,
    let create :=
      [RandomSuffix;
       CreateRepo (AppConfig.githubToken config) repoName
         (GeneratedProject.description project)] in
    repoName = GeneratedProject.name project +:+ "-"
               +:+ decimal (env (trace s) RandomSuffix mod 1000)
    ∧ env (trace s ++ [RandomSuffix])
        (CreateRepo (AppConfig.githubToken config) repoName
           (GeneratedProject.description project))
      = Ok (inr data)
    ∧ DeploymentResult.repoUrl result = RepoData.html_url data
    ∧ trace s' = trace s ++ create ++ uploads ++ hosting
    ∧ Uploaded env btoa_utf8 (AppConfig.githubToken config) (AppConfig.githubUsername config)
        repoName (trace s ++ create) (GeneratedProject.files project) uploads
    ∧ uploadedPaths (create ++ uploads ++ hosting)
      = FileNode.path <$> GeneratedProject.files project
    ∧ (DeploymentResult.isBeta result = true ↔ is_Some (DeploymentResult.deployUrl result)).
Proof.
  unfold deploy. unfold bind at 1.
  destruct (createStep env config project s) as [[created|e] s1] eqn:Hcreate; [|done].
  apply createStep_returned in Hcreate as (Hname & Hanswer & Htrace1).
  unfold bind at 1.
  destruct (uploadStep env btoa_utf8 config created.1 project s1) as [[[]|e] s2] eqn:Hupload;
    [|done].
  apply uploadStep_returned in Hupload as (calls2 & Htrace2 & Huploaded).
  unfold bind at 1.
  destruct (autoDeploy_run config created.1 s2) as (hosting & logs & calls3 & -> & Hnone & Hiff).
  simpl. intros [= <- <-].
  exists created.1, created.2, calls2, calls3.
  split; [done|]. split; [done|]. split; [done|]. simpl.
  split; [by rewrite Htrace2, Htrace1, <-!app_assoc|].
  split; [by rewrite <-Htrace1|].
  split; [|done].
  change (uploadedPaths (calls2 ++ calls3)
          = FileNode.path <$> GeneratedProject.files project).
  destruct (Uploaded_paths _ _ _ _ _ _ _ _ Huploaded) as [Hpaths _].
  by rewrite uploadedPaths_app, Hpaths, Hnone, app_nil_r.
Qed.

(** X16. [handleDeploy] never throws. Without a project or without a
    username it does nothing at all. Otherwise it ends in [SUCCESS] with the
    result stored when the pipeline returned one, and in [REVIEW] with the
    error message as last log line and the stored result untouched when the
    pipeline threw; it never ends in [DEPLOYING]. Either way the prompt, the
    project, the configuration, the saved projects and [localStorage] are
    left as they were. *)
Theorem handleDeploy_outcome render s :
  let run := handleDeploy env btoa_utf8 render s in
  run.1 = Returned tt
  ∧ match handleDeploy_guard render with
    | None => run.2 = s
    | Some project =>
        match (deploy env btoa_utf8 (App.config render) project
                 (exec handleDeploy_begin s)).1 with
        | Returned result =>
            App.step (app run.2) = SUCCESS
            ∧ App.deploymentResult (app run.2) = Some result
        | Thrown e =>
            App.step (app run.2) = REVIEW
            ∧ App.deploymentResult (app run.2) = App.deploymentResult (app s)
            ∧ last (App.logs (app run.2)) = Some (LogEntry.mk (Error.message e) error)
        end
        ∧ App.prompt (app run.2) = App.prompt (app s)
        ∧ App.project (app run.2) = App.project (app s)
        ∧ App.config (app run.2) = App.config (app s)
        ∧ App.savedProjects (app run.2) = App.savedProjects (app s)
        ∧ localStorage run.2 = localStorage s
    end.
Proof.
  intros run. subst run. unfold handleDeploy.
  destruct (handleDeploy_guard render) as [project|]; [|done].
  unfold bind at 1. unfold handleDeploy_begin at 1, bind at 1, setStep at 1, modify at 1.
  rewrite addLog_run. simpl.
  unfold exec, handleDeploy_begin, bind, setStep, modify. rewrite addLog_run. simpl.
  match goal with |- context [handleDeploy_run _ _ _ _ ?s0] => set (s0' := s0) end.
  destruct (confined_deploy env btoa_utf8 (App.config render) project s0')
    as (logs & calls & Hs & _).
  destruct (deploy env btoa_utf8 (App.config render) project s0') as [[result|e] s1] eqn:Hdeploy;
    simpl in Hs; subst s1.
  - rewrite (handleDeploy_run_returned _ _ _ _ _ _ _ Hdeploy). done.
  - rewrite (handleDeploy_run_thrown _ _ _ _ _ _ _ Hdeploy). simpl.
    split; [done|]. split; [|done]. split; [done|]. split; [done|]. by rewrite last_snoc.
Qed.
End PipelineOutcome.

Lemma deploy_returned_witness :
  let run := deploy friendly plain sampleBetaConfig sampleProject initialState in
  ∃ repoName data uploads hosting,
    let create := [RandomSuffix; CreateRepo "ghp_token" repoName "A demo"] in
    repoName = "demo" +:+ "-" +:+ decimal (friendly (trace initialState) RandomSuffix mod 1000)
    ∧ friendly (trace initialState ++ [RandomSuffix])
        (CreateRepo "ghp_token" repoName "A demo")
      = Ok (inr data)
    ∧ "https://github.com/octocat/demo-42" = RepoData.html_url data
    ∧ trace run.2 = trace initialState ++ create ++ uploads ++ hosting
    ∧ Uploaded friendly plain "ghp_token" "octocat" repoName (trace initialState ++ create)
        sampleFiles uploads
    ∧ uploadedPaths (create ++ uploads ++ hosting) = FileNode.path <$> sampleFiles
    ∧ (true = true ↔ is_Some (Some "https://vercel.com/octocat/demo-42")).
Proof.
  intros run.
  apply (deploy_returned friendly plain sampleBetaConfig sampleProject initialState
           (DeploymentResult.mk "https://github.com/octocat/demo-42"
              (Some "https://vercel.com/octocat/demo-42") true)
           run.2).
  vm_compute. reflexivity.
Defined.

(** A refused upload leaves the pipeline without a result. *)
Example deploy_upload_refused :
  (deploy refusesMainTs plain sampleConfig sampleProject initialState).1
  = Thrown (Error.mk "Failed to upload src/main.ts").
Proof. vm_compute. reflexivity. Qed.

(** ** The hosting URL *)

Lemma before_slash_append (owner rest : string) :
  Forall (λ c, c ≠ "/"%char) (list_ascii_of_string owner) →
  before_slash (owner +:+ "/" +:+ rest) = owner.
Proof.
  induction owner as [|c owner IH]; simpl; [done|].
  intros [Hc Hrest]%Forall_cons. destruct (Ascii.eqb_spec c "/"%char); [done|].
  by rewrite IH.
Qed.

(** X17. For a username without a slash, the two places that build the
    hosting URL agree: when the provider reports the project as existing,
    the [html_url] computed by [createVercelProject] from the repository
    identifier is the URL [handleDeploy] builds from the username and the
    name of the returned project. *)
Theorem hosting_urls_agree (env : Env) vercelToken username repoName s err :
  Forall (λ c, c ≠ "/"%char) (list_ascii_of_string username) →
  env (trace s) (CreateVercel vercelToken repoName (username +:+ "/" +:+ repoName) "github")
    = NotOk (inr err) →
  ApiError.code err = Some "PROJECT_ALREADY_EXISTS" →
  ∃ vProject,
    (createVercelProject env vercelToken repoName (username +:+ "/" +:+ repoName) "github" s).1
    = Returned (Some vProject)
    ∧ VercelProject.html_url vProject
      = "https://vercel.com/" +:+ username +:+ "/" +:+ VercelProject.name vProject.
Proof.
  intros Hslash Hanswer Hcode.
  unfold createVercelProject, bind, call. simpl. rewrite Hanswer.
  rewrite bool_decide_true by done. eexists. split; [reflexivity|]. simpl.
  by rewrite before_slash_append.
Qed.

Lemma hosting_urls_agree_witness :
  ∃ vProject,
    (createVercelProject alreadyExists "vercel_token" "demo-42" ("octocat" +:+ "/" +:+ "demo-42")
       "github" initialState).1
    = Returned (Some vProject)
    ∧ VercelProject.html_url vProject
      = "https://vercel.com/" +:+ "octocat" +:+ "/" +:+ VercelProject.name vProject.
Proof.
  apply (hosting_urls_agree alreadyExists "vercel_token" "octocat" "demo-42" initialState
           (ApiError.mk (Some "PROJECT_ALREADY_EXISTS") (Some "Project already exists"))).
  - vm_compute. repeat constructor; discriminate.
  - reflexivity.
  - reflexivity.
Defined.

(** ** More on the history operations *)

Section HistoryMore.
Variable env : Env.

Implicit Types (s : State) (render : App.t) (history : list SavedProject.t).

Lemma filter_not_id (i : string) history :
  List.filter (λ p, negb (String.eqb (SavedProject.id p) i)) history
  = filter (λ p, ¬ hasId i p) history.
Proof.
  induction history as [|p history IH]; [done|]. simpl. rewrite filter_cons, IH.
  unfold hasId at 1. destruct (String.eqb_spec (SavedProject.id p) i); simpl.
  - by rewrite decide_False by tauto.
  - by rewrite decide_True.
Qed.

(** X5. [deleteProject] never throws and removes every record with the
    given id, keeping the others in their order; when no record has that id
    the list is the list the handler closed over. The resulting list is put
    in the state and stored under [autodeploy_history]. *)
Theorem deleteProject_removes render (i : string) s :
  let run := deleteProject env render i s in
  let remaining := filter (λ p, ¬ hasId i p) (App.savedProjects render) in
  run.1 = Returned tt
  ∧ App.savedProjects (app run.2) = remaining
  ∧ localStorage (run.2) !! "autodeploy_history" = Some (StoredHistory remaining)
  ∧ (i ∉ ids remaining)
  ∧ (∀ p, p ∈ App.savedProjects render → SavedProject.id p ≠ i → p ∈ remaining)
  ∧ (i ∉ ids (App.savedProjects render) → remaining = App.savedProjects render).
Proof.
  intros run remaining. subst run. unfold deleteProject.
  rewrite filter_not_id. fold remaining.
  destruct (saveHistory_run env render remaining s) as [calls ->]. simpl.
  split; [done|]. split; [done|]. split; [by rewrite lookup_insert_eq|].
  split; [|split].
  - intros (p & -> & [Hp _]%list_elem_of_filter)%list_elem_of_fmap. by apply Hp.
  - intros p Hp Hne. by apply list_elem_of_filter.
  - intros Habsent. subst remaining.
    induction (App.savedProjects render) as [|p l IH]; [done|].
    unfold ids in Habsent. rewrite fmap_cons, not_elem_of_cons in Habsent.
    destruct Habsent as [Hne Habsent].
    rewrite filter_cons_True by (unfold hasId; congruence). f_equal. by apply IH.
Qed.

(** X6. [saveHistory] never throws; afterwards the saved projects are the
    new list and [localStorage] holds that same list, so state and store
    agree; the rest of the component state is untouched; and when the
    configuration the handler closed over has no token, no call is made. *)
Theorem saveHistory_writes_through render history s :
  let run := saveHistory env render history s in
  run.1 = Returned tt
  ∧ app run.2 = App.with_savedProjects history (app s)
  ∧ localStorage run.2 = <["autodeploy_history" := StoredHistory history]> (localStorage s)
  ∧ inSync run.2
  ∧ (AppConfig.githubToken (App.config render) = "" → trace run.2 = trace s).
Proof.
  intros run. subst run.
  destruct (saveHistory_run env render history s) as [calls Hrun]. rewrite Hrun. simpl.
  split; [done|]. split; [done|]. split; [done|].
  split; [unfold inSync; simpl; by rewrite lookup_insert_eq|].
  intros Htoken. unfold saveHistory, bind, setSavedProjects, localStorage_setItem, modify in Hrun.
  simpl in Hrun. rewrite Htoken in Hrun. simpl in Hrun. by injection Hrun as <-.
Qed.

(** X7. [saveHistoryToGist] never throws and touches neither the component
    state nor [localStorage]. It lists the gists and then writes at most
    once: it patches the gist described as [autodeploy-sync] when the
    listing shows one, creates a gist only when the listing succeeds and
    shows none, and writes nothing when the listing fails. What it writes is
    the history it was given. *)
Theorem saveHistoryToGist_writes_once token history s :
  let run := saveHistoryToGist env token history s in
  ∃ writes,
    run = (Returned tt, mkState (app s) (localStorage s) (trace s ++ (ListGists token :: writes)))
    ∧ match env (trace s) (ListGists token) with
      | Ok (inr gists) =>
          match findSyncGist gists with
          | Some existingGist =>
              writes = [PatchGist token (Gist.id existingGist) history]
              ∧ existingGist ∈ gists
              ∧ Gist.description existingGist = GIST_DESC
          | None => writes = [PostGist token history]
          end
      | _ => writes = []
      end.
Proof.
  intros run. subst run.
  unfold saveHistoryToGist, try_catch, bind, call, ret, throw. simpl.
  destruct (env (trace s) (ListGists token)) as [e|[e|gists]|[e|err]]; simpl;
    try (exists []; done).
  destruct (findSyncGist gists) as [g|] eqn:Hfind; simpl.
  - exists [PatchGist token (Gist.id g) history].
    split; [by destruct (env _ (PatchGist _ _ _)); rewrite <-app_assoc|].
    split; [done|]. unfold findSyncGist in Hfind. apply find_some in Hfind as [Hin Heq].
    split; [by apply list_elem_of_In|]. by apply String.eqb_eq.
  - exists [PostGist token history].
    split; [by destruct (env _ (PostGist _ _)); rewrite <-app_assoc|done].
Qed.

(** X8. [loadHistoryFromGist] never throws and only reads: it touches
    neither the component state nor [localStorage], makes no call but the
    listing and at most one read of a raw file, and gives a history only
    when it read the raw file. A listing that is rejected or not [ok] gives
    [null]. *)
Theorem loadHistoryFromGist_reads_only token s :
  let run := loadHistoryFromGist env token s in
  ∃ remote reads,
    run = (Returned remote, mkState (app s) (localStorage s) (trace s ++ (ListGists token :: reads)))
    ∧ (reads = [] ∨ ∃ url, url ≠ "" ∧ reads = [GetRaw url])
    ∧ (is_Some remote → reads ≠ [])
    ∧ match env (trace s) (ListGists token) with
      | Ok (inr _) => True
      | _ => remote = None ∧ reads = []
      end.
Proof.
  intros run. subst run.
  unfold loadHistoryFromGist, try_catch, bind, call, ret, throw. simpl.
  destruct (env (trace s) (ListGists token)) as [e|[e|gists]|[e|err]]; simpl;
    try (exists None, []; split; [done|]; split; [by left|]; split; [by intros [? [=]]|done]).
  destruct (findSyncGist gists) as [g|]; simpl;
    [|exists None, []; split; [done|]; split; [by left|]; split; [by intros [? [=]]|done]].
  destruct (Gist.files g !! GIST_FILENAME) as [file|]; simpl;
    [|exists None, []; split; [done|]; split; [by left|]; split; [by intros [? [=]]|done]].
  destruct (falsy (GistFile.raw_url file)) eqn:Hurl; simpl;
    [exists None, []; split; [done|]; split; [by left|]; split; [by intros [? [=]]|done]|].
  assert (GistFile.raw_url file ≠ "") as Hne by (by apply String.eqb_neq).
  destruct (env _ (GetRaw (GistFile.raw_url file))) as [e|[e|h]|[e|err]]; simpl;
    eexists _, [GetRaw (GistFile.raw_url file)]; rewrite <-app_assoc;
    (split; [reflexivity|]); (split; [right; by eexists|]); done.
Qed.
End HistoryMore.

(** ** Saving to and loading from the gist *)

Lemma lastWritten_snoc past c :
  lastWritten (past ++ [c])
  = match c with
    | PostGist _ history | PatchGist _ _ history => Some history
    | _ => lastWritten past
    end.
Proof. unfold lastWritten. rewrite fold_left_app. simpl. by destruct c. Qed.

Lemma findSyncGist_syncGistOf past history :
  lastWritten past = Some history →
  ∃ g, syncGistOf past = [g] ∧ findSyncGist (syncGistOf past) = Some g
       ∧ Gist.files g !! GIST_FILENAME = Some (GistFile.mk "https://gist.example/raw").
Proof.
  intros Hlast. unfold syncGistOf. rewrite Hlast. eexists. split; [done|]. split; [done|].
  simpl. apply lookup_singleton_eq.
Qed.

(** X9. Against an environment that keeps what is written to the gist,
    saving a history and then loading gives that history back; and once a
    gist has been written, saving patches it and creates no second one. *)
Theorem save_then_load (env : Env) token history s :
  GistStore env →
  let s1 := (saveHistoryToGist env token history s).2 in
  (loadHistoryFromGist env token s1).1 = Returned (Some history)
  ∧ lastWritten (trace s1) = Some history
  ∧ (is_Some (lastWritten (trace s)) →
     trace s1 = trace s ++ [ListGists token; PatchGist token "g1" history]).
Proof.
  intros (Hlist & Hraw & Hpost & Hpatch) s1.
  assert (trace s1 = trace s ++ [ListGists token;
                                 match lastWritten (trace s) with
                                 | Some _ => PatchGist token "g1" history
                                 | None => PostGist token history
                                 end]) as Htrace.
  { subst s1. unfold saveHistoryToGist, try_catch, bind, call, ret, throw. simpl.
    rewrite Hlist. simpl. unfold syncGistOf.
    destruct (lastWritten (trace s)); simpl.
    - rewrite Hpatch. simpl. by rewrite <-app_assoc.
    - rewrite Hpost. simpl. by rewrite <-app_assoc. }
  assert (lastWritten (trace s1) = Some history) as Hlast.
  { rewrite Htrace. change [ListGists token; ?c] with ([ListGists token] ++ [c]).
    rewrite app_assoc, lastWritten_snoc. by destruct (lastWritten (trace s)). }
  split; [|split; [done|]].
  - destruct (findSyncGist_syncGistOf _ _ Hlast) as (g & _ & Hfind & Hfile).
    unfold loadHistoryFromGist, try_catch, bind, call, ret, throw. simpl.
    rewrite Hlist. simpl. rewrite Hfind, Hfile. simpl. rewrite Hraw.
    by rewrite lastWritten_snoc, Hlast.
  - intros [h Hh]. by rewrite Htrace, Hh.
Qed.

Lemma gistStore_is_store : GistStore gistStore.
Proof. by repeat split. Qed.

Lemma save_then_load_witness :
  let s1 := (saveHistoryToGist gistStore "ghp_token" sampleCloud initialState).2 in
  (loadHistoryFromGist gistStore "ghp_token" s1).1 = Returned (Some sampleCloud)
  ∧ lastWritten (trace s1) = Some sampleCloud
  ∧ (is_Some (lastWritten (trace initialState)) →
     trace s1
     = trace initialState ++ [ListGists "ghp_token"; PatchGist "ghp_token" "g1" sampleCloud]).
Proof.
  apply (save_then_load gistStore "ghp_token" sampleCloud initialState).
  repeat split; reflexivity.
Defined.

(** Two clients: the first saves its history with a token, the second signs
    in with nothing saved and gets the same records, newest first. *)
Example save_here_sync_there :
  let s1 := (saveHistory gistStore (app loggedIn) sampleLocal loggedIn).2 in
  let other := mkState (app loggedIn) ∅ (trace s1) in
  App.savedProjects (app (syncHistory gistStore "ghp_token" true other).2)
  = [rec_ "c" 7; rec_ "a" 5].
Proof. vm_compute. reflexivity. Qed.

(** ** Saving what is already in the history *)

Section SaveAgain.
Variable env : Env.

Implicit Types (s : State).

Lemma saveCurrentProject_duplicate render project s :
  App.project render = Some project →
  existsb (sameNameAndPrompt project (App.prompt render)) (App.savedProjects render) = true →
  ∃ calls,
    saveCurrentProject env render s
    = (Returned tt,
       mkState (App.with_logs (App.logs (app s) ++ [alreadySavedLine project]) (app s))
         (localStorage s) (trace s ++ calls)).
Proof.
  intros Hproject Hfound.
  destruct (saveCurrentProject_run env render project s Hproject) as [calls Hrun].
  rewrite Hfound in Hrun. by exists calls.
Qed.

(** X10. A successful generation has already saved its project: pressing
    Save right after it adds nothing, leaves [localStorage] as it is and is
    answered by the warning that the project is already saved. *)
Theorem save_after_generate s generated s0 :
  generateProjectCode env (App.prompt (app s)) (App.mode (app s)) s = (Returned generated, s0) →
  let s1 := (handleGenerate_run env (app s) s).2 in
  let s2 := (saveCurrentProject env (app s1) s1).2 in
  App.savedProjects (app s2) = App.savedProjects (app s1)
  ∧ localStorage s2 = localStorage s1
  ∧ last (App.logs (app s2)) = Some (alreadySavedLine generated).
Proof.
  intros Hgen s1 s2.
  destruct (handleGenerate_run_returned env (app s) s generated s0 Hgen)
    as (logs & calls & Hrun).
  subst s2 s1. rewrite Hrun. simpl.
  match goal with |- context [saveCurrentProject env ?r ?s1] =>
    destruct (saveCurrentProject_duplicate r generated s1) as [calls' ->]
  end.
  - done.
  - simpl. unfold generatedEntry. by rewrite sameNameAndPrompt_refl.
  - simpl. split; [done|]. split; [done|]. by rewrite last_snoc.
Qed.

(** X11. A project loaded from the history is known to be saved: pressing
    Save after loading an entry of the saved projects adds nothing and is
    answered by the warning. *)
Theorem save_after_load entry s :
  entry ∈ App.savedProjects (app s) →
  let s1 := exec (loadProject entry) s in
  let s2 := (saveCurrentProject env (app s1) s1).2 in
  App.step (app s1) = REVIEW
  ∧ App.savedProjects (app s2) = App.savedProjects (app s)
  ∧ localStorage s2 = localStorage s
  ∧ last (App.logs (app s2)) = Some (alreadySavedLine (SavedProject.project entry)).
Proof.
  intros Hin s1 s2. subst s2 s1. unfold exec, loadProject, bind, setPrompt, setProject,
    setStep, setShowHistory, modify. rewrite addLog_run. simpl.
  split; [done|].
  match goal with |- context [saveCurrentProject env ?r ?s1] =>
    destruct (saveCurrentProject_duplicate r (SavedProject.project entry) s1) as [calls' ->]
  end.
  - done.
  - simpl. apply existsb_exists. exists entry. split; [by apply list_elem_of_In|].
    unfold sameNameAndPrompt. by rewrite !String.eqb_refl.
  - simpl. split; [done|]. split; [done|]. by rewrite last_snoc.
Qed.
End SaveAgain.

Lemma save_after_generate_witness :
  let s1 := (handleGenerate_run friendly (app loggedIn) loggedIn).2 in
  let s2 := (saveCurrentProject friendly (app s1) s1).2 in
  App.savedProjects (app s2) = App.savedProjects (app s1)
  ∧ localStorage s2 = localStorage s1
  ∧ last (App.logs (app s2)) = Some (alreadySavedLine sampleProject).
Proof.
  apply (save_after_generate friendly loggedIn sampleProject
           (generateProjectCode friendly "a todo app" generate loggedIn).2).
  vm_compute. reflexivity.
Defined.

Lemma save_after_load_witness :
  let s1 := exec (loadProject (rec_ "a" 5)) localOnly in
  let s2 := (saveCurrentProject friendly (app s1) s1).2 in
  App.step (app s1) = REVIEW
  ∧ App.savedProjects (app s2) = App.savedProjects (app localOnly)
  ∧ localStorage s2 = localStorage localOnly
  ∧ last (App.logs (app s2)) = Some (alreadySavedLine (SavedProject.project (rec_ "a" 5))).
Proof.
  apply (save_after_load friendly (rec_ "a" 5) localOnly).
  apply (bool_decide_unpack _). vm_compute. reflexivity.
Defined.

(** ** Generation, login and start-up *)

Section Sessions.
Variable env : Env.

Implicit Types (s : State) (render : App.t).

(** X18. [generateProjectCode] touches nothing but the trace. Without an
    API key it throws the missing-key error and sends no generation
    request. With a key it sends one request, and whatever goes wrong (the
    request rejects, the response has no text, the text is not JSON) is
    reported by one and the same error, which is not the missing-key one;
    a project is returned exactly when the service answered with that
    project. *)
Theorem generateProjectCode_errors prompt mode s :
  let run := generateProjectCode env prompt mode s in
  let answer := env (trace s ++ [GetApiKey]) (GenerateContent prompt mode) in
  app run.2 = app s ∧ localStorage run.2 = localStorage s
  ∧ (env (trace s) GetApiKey = "" →
     run.1 = Thrown (Error.mk missingKey) ∧ trace run.2 = trace s ++ [GetApiKey])
  ∧ (env (trace s) GetApiKey ≠ "" →
     trace run.2 = trace s ++ [GetApiKey; GenerateContent prompt mode]
     ∧ (∀ p, run.1 = Returned p ↔ answer = AiProject p)
     ∧ ((∀ p, answer ≠ AiProject p) → run.1 = Thrown (Error.mk failedToProcess)))
  ∧ missingKey ≠ failedToProcess.
Proof.
  intros run answer. subst run answer.
  unfold generateProjectCode, bind, call, ret, throw. simpl.
  destruct (falsy (env (trace s) GetApiKey)) eqn:Hkey; simpl.
  - apply String.eqb_eq in Hkey. split; [done|]. split; [done|]. split; [done|].
    split; [done|]. discriminate.
  - assert (env (trace s) GetApiKey ≠ "") as Hne by (by apply String.eqb_neq).
    split; [by destruct (env (trace s ++ [GetApiKey]) (GenerateContent prompt mode))|].
    split; [by destruct (env (trace s ++ [GetApiKey]) (GenerateContent prompt mode))|].
    split; [done|]. split; [|discriminate]. intros _.
    destruct (env (trace s ++ [GetApiKey]) (GenerateContent prompt mode)) as [e| | |p]; simpl;
      rewrite <-app_assoc; (split; [done|]);
      (split; [intros p'; split; intros [=]; by subst|]); try done.
    intros Hno. by destruct (Hno p).
Qed.

(** The outcome of the generation depends on the calls made so far only. *)
Lemma generateProjectCode_trace prompt mode past :
  ∃ out calls, ∀ a ls,
    generateProjectCode env prompt mode (mkState a ls past)
    = (out, mkState a ls (past ++ calls)).
Proof.
  unfold generateProjectCode, bind, call, ret, throw. simpl.
  destruct (falsy _); [eauto|]. simpl.
  destruct (env _ (GenerateContent prompt mode)); do 2 eexists; intros a ls;
    rewrite <-app_assoc; reflexivity.
Qed.

(** X19. [handleGenerate] never throws. With a prompt of nothing but white
    space it does nothing. Otherwise, when [generateProjectCode] throws,
    the handler ends in [PROMPT] with the message of that error as last
    log line, an error line; it has made the calls of the generation and
    no other, and the project, the saved projects and [localStorage] are
    as they were. *)
Theorem handleGenerate_failure render s :
  let run := handleGenerate env render s in
  run.1 = Returned tt
  ∧ (blank (App.prompt render) = true → run.2 = s)
  ∧ (blank (App.prompt render) = false →
     ∀ e s0,
       generateProjectCode env (App.prompt render) (App.mode render) s = (Thrown e, s0) →
       App.step (app run.2) = PROMPT
       ∧ last (App.logs (app run.2)) = Some (LogEntry.mk (Error.message e) error)
       ∧ trace run.2 = trace s0
       ∧ App.project (app run.2) = App.project (app s)
       ∧ App.savedProjects (app run.2) = App.savedProjects (app s)
       ∧ localStorage run.2 = localStorage s).
Proof.
  intros run. subst run. unfold handleGenerate. unfold bind at 1.
  unfold handleGenerate_begin. destruct (blank (App.prompt render)); [done|].
  unfold bind at 1, setStep at 1, modify at 1.
  destruct (generateProjectCode_trace (App.prompt render) (App.mode render) (trace s))
    as (out & calls & Hgen).
  assert (∀ s1, trace s1 = trace s →
                App.project (app s1) = App.project (app s) →
                App.savedProjects (app s1) = App.savedProjects (app s) →
                localStorage s1 = localStorage s →
                let run := handleGenerate_run env render s1 in
                run.1 = Returned ()
                ∧ ∀ e, out = Thrown e →
                    App.step (app run.2) = PROMPT
                    ∧ last (App.logs (app run.2)) = Some (LogEntry.mk (Error.message e) error)
                    ∧ trace run.2 = trace s ++ calls
                    ∧ App.project (app run.2) = App.project (app s)
                    ∧ App.savedProjects (app run.2) = App.savedProjects (app s)
                    ∧ localStorage run.2 = localStorage s) as Hrun.
  { intros s1 Ht Hp Hh Hl run. subst run.
    pose proof (Hgen (app s1) (localStorage s1)) as Hgen1.
    destruct s1 as [a1 ls1 tr1]. simpl in *. subst tr1.
    destruct out as [generated|e].
    - destruct (handleGenerate_run_returned env render _ generated _ Hgen1)
        as (logs & calls' & ->). simpl. split; [done|]. by intros e [=].
    - assert (handleGenerate_run env render (mkState a1 ls1 (trace s))
              = (Returned tt,
                 exec (handleError e;; setStep PROMPT)
                   (mkState a1 ls1 (trace s ++ calls)))) as ->.
      { unfold handleGenerate_run, try_catch. unfold bind at 1. by rewrite Hgen1. }
      simpl. split; [done|]. intros e' [= <-].
      split; [done|]. split; [by rewrite last_snoc|]. done. }
  assert (∀ e s0,
            generateProjectCode env (App.prompt render) (App.mode render) s = (Thrown e, s0) →
            out = Thrown e ∧ trace s0 = trace s ++ calls) as Hout.
  { intros e s0 Hthrown. specialize (Hgen (app s) (localStorage s)).
    destruct s as [a ls tr]. simpl in *. rewrite Hgen in Hthrown.
    by injection Hthrown as -> <-. }
  destruct (App.mode render); unfold bind at 1; rewrite addLog_run; simpl;
    (match goal with |- context [handleGenerate_run env render ?s1] =>
       destruct (Hrun s1) as [Hret Hfail]; try done
     end);
    (split; [done|]); (split; [done|]); intros _ e s0 Hthrown;
    destruct (Hout e s0 Hthrown) as [Heq ->]; by apply Hfail.
Qed.

(** The state in which a successful login starts the synchronisation. *)
Lemma handleLogin_verified render s username :
  falsy (AppConfig.githubToken (App.config render)) = false →
  env (trace s) (VerifyToken (AppConfig.githubToken (App.config render))) = Ok (inr username) →
  let config := App.config render in
  let newConfig :=
    AppConfig.mk (AppConfig.githubToken config) username
      (AppConfig.vercelToken config) (AppConfig.useBetaDeploy config) in
  ∃ logs,
    handleLogin env render s
    = syncHistory env (AppConfig.githubToken config) false
        (mkState (App.with_step PROMPT (App.with_config newConfig (App.with_logs logs (app s))))
           (<["autodeploy_config" := StoredConfig newConfig]> (localStorage s))
           (trace s ++ [VerifyToken (AppConfig.githubToken config)])).
Proof.
  intros Hfalsy Hanswer config newConfig. subst config newConfig.
  unfold handleLogin. cbv zeta. rewrite Hfalsy.
  unfold bind at 1. rewrite addLog_run. unfold try_catch, bind at 1.
  unfold verifyGithubToken, bind at 1, call. simpl. rewrite Hanswer. simpl.
  unfold bind at 1, setConfig at 1, modify at 1.
  unfold bind at 1, saveConfig at 1, localStorage_setItem at 1, modify at 1.
  unfold bind at 1. rewrite addLog_run.
  unfold bind at 1, setStep at 1, modify at 1. simpl.
  eexists.
  match goal with |- context [syncHistory env ?t false ?s1] =>
    destruct (syncHistory_effect env t false s1) as (calls & Hret & _);
      [by apply String.eqb_neq|];
    destruct (syncHistory env t false s1) as [o s2] eqn:Hsync
  end.
  simpl in Hret. subst o. rewrite <-Hsync. reflexivity.
Qed.

(** A login whose verification throws [e] logs the message of [e] and
    leaves everything else alone. *)
Lemma handleLogin_failed render s e :
  falsy (AppConfig.githubToken (App.config render)) = false →
  (verifyGithubToken env (AppConfig.githubToken (App.config render)) s).1 = Thrown e →
  handleLogin env render s
  = (Returned tt,
     mkState
       (App.with_logs
          (App.logs (app s) ++ [LogEntry.mk "Verifying GitHub credentials..." info;
                                LogEntry.mk (Error.message e) error])
          (app s))
       (localStorage s)
       (trace s ++ [VerifyToken (AppConfig.githubToken (App.config render))])).
Proof.
  intros Hfalsy Hthrown. unfold handleLogin. cbv zeta. rewrite Hfalsy.
  unfold bind at 1. rewrite addLog_run. unfold try_catch, bind at 1.
  unfold verifyGithubToken, bind, call in Hthrown |- *. simpl in Hthrown |- *.
  destruct (env (trace s) (VerifyToken (AppConfig.githubToken (App.config render))))
    as [e'|[e'|username]|json]; simpl in Hthrown |- *; try discriminate;
    injection Hthrown as <-;
    unfold handleError, addLog, modify, with_app, App.with_logs; simpl;
    by rewrite <-app_assoc.
Qed.

(** X20. [handleLogin] never throws. With no token typed it does nothing.
    When the token verifies, the configuration gets the login the host
    answered, is stored under [autodeploy_config], and the phase becomes
    [PROMPT]. When verification fails, the phase, the configuration, the
    saved projects and [localStorage] stay as they were, the verification
    is the only call made, and the last log line is an error line with
    the message of the failure: that of the transport or parse error when
    the request or the reading of its body rejects, and
    [Invalid GitHub Token] when the host answers with a status that is not
    [ok]. *)
Theorem handleLogin_outcome render s :
  let run := handleLogin env render s in
  let config := App.config render in
  let failed (e : Error.t) :=
    App.step (app run.2) = App.step (app s)
    ∧ App.config (app run.2) = App.config (app s)
    ∧ App.savedProjects (app run.2) = App.savedProjects (app s)
    ∧ localStorage run.2 = localStorage s
    ∧ trace run.2 = trace s ++ [VerifyToken (AppConfig.githubToken config)]
    ∧ last (App.logs (app run.2)) = Some (LogEntry.mk (Error.message e) error) in
  run.1 = Returned tt
  ∧ if falsy (AppConfig.githubToken config) then run.2 = s
    else match env (trace s) (VerifyToken (AppConfig.githubToken config)) with
         | Ok (inr username) =>
             let newConfig :=
               AppConfig.mk (AppConfig.githubToken config) username
                 (AppConfig.vercelToken config) (AppConfig.useBetaDeploy config) in
             App.step (app run.2) = PROMPT
             ∧ App.config (app run.2) = newConfig
             ∧ localStorage (run.2) !! "autodeploy_config" = Some (StoredConfig newConfig)
         | Rejected e | Ok (inl e) => failed e
         | NotOk _ => failed (Error.mk "Invalid GitHub Token")
         end.
Proof.
  intros run config failed. subst run failed.
  destruct (falsy (AppConfig.githubToken config)) eqn:Hfalsy.
  { unfold handleLogin. cbv zeta. fold config. by rewrite Hfalsy. }
  assert (AppConfig.githubToken config ≠ "") as Htoken by (by apply String.eqb_neq).
  destruct (env (trace s) (VerifyToken (AppConfig.githubToken config)))
    as [e|[e|username]|json] eqn:Hanswer.
  3: {
    destruct (handleLogin_verified render s username Hfalsy Hanswer) as [logs ->].
    match goal with |- context [syncHistory env ?t false ?s1] =>
      destruct (syncHistory_effect env t false s1 Htoken)
        as (calls & Hret & _ & Hstep & Hconfig & _ & _ & _ & _ & Hhist);
      destruct (remoteHistory env t (trace s1)) as [cloud|];
      destruct (syncHistory env t false s1) as [o s2]
    end.
    all: simpl in *; subst o; split; [done|]; split; [done|]; split; [done|];
      destruct Hhist as [_ ->].
    - rewrite lookup_insert_ne by done. by rewrite lookup_insert_eq.
    - by rewrite lookup_insert_eq. }
  1: rewrite (handleLogin_failed render s e Hfalsy).
  3: rewrite (handleLogin_failed render s e Hfalsy).
  5: rewrite (handleLogin_failed render s (Error.mk "Invalid GitHub Token") Hfalsy).
  all: try (unfold verifyGithubToken, bind, call; simpl; fold config; by rewrite Hanswer).
  all: simpl; split; [done|]; repeat (split; [done|]);
    by rewrite last_app.
Qed.

Lemma restoreSession_verified s c u :
  localStorage s !! "autodeploy_config" = Some (StoredConfig c) →
  falsy (AppConfig.githubToken c) = false →
  env (trace s) (VerifyToken (AppConfig.githubToken c)) = Ok (inr u) →
  ∃ logs,
    restoreSession env s
    = syncHistory env (AppConfig.githubToken c) true
        (mkState
           (App.with_logs logs
              (App.with_step PROMPT
                 (App.with_config (withUsername c u)
                    (App.with_savedProjects (restoredHistory s) (app s)))))
           (localStorage s) (trace s ++ [VerifyToken (AppConfig.githubToken c)])).
Proof.
  intros Hstored Hfalsy Hanswer. unfold restoreSession, restoredHistory.
  unfold bind at 1. simpl. rewrite Hstored.
  unfold bind at 1, bind at 1, updateConfig at 1, modify at 1. rewrite Hfalsy.
  unfold bind at 1, try_catch, bind at 1, verifyGithubToken, bind at 1, call. simpl.
  rewrite Hanswer. simpl.
  destruct (localStorage s !! "autodeploy_history") as [[?|h]|]; simpl;
    unfold bind at 1; simpl; unfold bind at 1; simpl; unfold bind at 1; simpl;
    unfold bind at 1; rewrite addLog_run; simpl;
    exists (App.logs (app s)
            ++ [LogEntry.mk ("Welcome back, " +:+ u +:+ ". Session restored.") success]);
    (match goal with |- context [syncHistory env ?t true ?s1] =>
       destruct (syncHistory_effect env t true s1) as (calls & Hret & _);
         [by apply String.eqb_neq|];
       destruct (syncHistory env t true s1) as [o s2] eqn:Hsync
     end);
    simpl in Hret; subst o; rewrite <-Hsync; reflexivity.
Qed.



(** X22. Logging in and loading the page again: after a login that
    succeeded, a freshly mounted component that finds the same
    [localStorage] and whose token still verifies ends in [PROMPT] with the
    configuration the login left, the login name being the one the host
    answers now. *)
Theorem login_then_reload render s username username' :
  AppConfig.githubToken (App.config render) ≠ "" →
  env (trace s) (VerifyToken (AppConfig.githubToken (App.config render))) = Ok (inr username) →
  let s1 := (handleLogin env render s).2 in
  let fresh := mkState App.initial (localStorage s1) (trace s1) in
  env (trace s1) (VerifyToken (AppConfig.githubToken (App.config render)))
    = Ok (inr username') →
  let s2 := (restoreSession env fresh).2 in
  App.step (app s2) = PROMPT
  ∧ App.config (app s2) = withUsername (App.config (app s1)) username'
  ∧ App.config (app s1) = withUsername (App.config render) username.
Proof.
  intros Htoken Hanswer s1 fresh Hanswer' s2.
  assert (falsy (AppConfig.githubToken (App.config render)) = false) as Hfalsy
    by (by apply String.eqb_neq).
  assert (App.config (app s1) = withUsername (App.config render) username
          ∧ localStorage s1 !! "autodeploy_config"
            = Some (StoredConfig (withUsername (App.config render) username)))
    as [Hconfig Hstored].
  { subst s1. destruct (handleLogin_verified render s username Hfalsy Hanswer) as [logs ->].
    match goal with |- context [syncHistory env ?t false ?s1] =>
      destruct (syncHistory_effect env t false s1 Htoken)
        as (calls & _ & _ & _ & Hc & _ & _ & _ & _ & Hhist);
      destruct (remoteHistory env t (trace s1)) as [cloud|];
      destruct (syncHistory env t false s1) as [o s2']
    end.
    all: simpl in *; (split; [done|]); destruct Hhist as [_ ->].
    - rewrite lookup_insert_ne by done. by rewrite lookup_insert_eq.
    - by rewrite lookup_insert_eq. }
  split; [|split; [|done]].
  - subst s2.
    destruct (restoreSession_verified fresh _ username' Hstored Hfalsy Hanswer') as [logs ->].
    match goal with |- context [syncHistory env ?t true ?s1] =>
      destruct (syncHistory_effect env t true s1 Htoken)
        as (calls & _ & _ & Hstep & _);
      destruct (syncHistory env t true s1) as [o s2']
    end.
    by simpl in *.
  - subst s2.
    destruct (restoreSession_verified fresh _ username' Hstored Hfalsy Hanswer') as [logs ->].
    match goal with |- context [syncHistory env ?t true ?s1] =>
      destruct (syncHistory_effect env t true s1 Htoken)
        as (calls & _ & _ & _ & Hc & _);
      destruct (syncHistory env t true s1) as [o s2']
    end.
    simpl in *. by rewrite Hc, Hconfig.
Qed.
End Sessions.

(** No API key: the generation request is never sent. *)
Example generate_without_key :
  let noKey : Env :=
    λ past c,
      match c return Answer c with
      | GetApiKey => ""
      | c' => friendly past c'
      end in
  let run := handleGenerate noKey (app loggedIn) loggedIn in
  App.step (app run.2) = PROMPT
  ∧ last (App.logs (app run.2)) = Some (LogEntry.mk missingKey error)
  ∧ trace run.2 = [GetApiKey].
Proof. vm_compute. done. Qed.

(** A prompt of non-breaking spaces ([U+00A0]) is blank. *)
Example blank_non_breaking_space :
  blank (String (ascii_of_nat 194) (String (ascii_of_nat 160) " ")) = true
  ∧ blank "a todo app" = false.
Proof. vm_compute. done. Qed.


Lemma login_then_reload_witness :
  let s1 := (handleLogin friendly (app tokenTyped) tokenTyped).2 in
  let fresh := mkState App.initial (localStorage s1) (trace s1) in
  let s2 := (restoreSession friendly fresh).2 in
  App.step (app s2) = PROMPT
  ∧ App.config (app s2) = withUsername (App.config (app s1)) "octocat"
  ∧ App.config (app s1) = withUsername (App.config (app tokenTyped)) "octocat".
Proof.
  intros s1 fresh.
  apply (login_then_reload friendly (app tokenTyped) tokenTyped "octocat" "octocat").
  - discriminate.
  - reflexivity.
  - reflexivity.
Defined.

(** ** Invariants of the event loop *)

Section EventLoop.
Variable env : Env.
Variable btoa_utf8 : string → Error.t + string.

Implicit Types (s : State) (sys : Sys) (render : App.t).

Lemma inSync_frame s s' :
  localStorage s' !! "autodeploy_history" = localStorage s !! "autodeploy_history" →
  App.savedProjects (app s') = App.savedProjects (app s) →
  inSync s → inSync s'.
Proof. unfold inSync. by intros -> ->. Qed.

Lemma syncHistory_inSync token silent s :
  inSync s → inSync (syncHistory env token silent s).2.
Proof.
  intros Hs. destruct (decide (token = "")) as [->|Htoken]; [done|].
  destruct (syncHistory_effect env token silent s Htoken)
    as (calls & _ & _ & _ & _ & _ & _ & _ & _ & Hhist).
  simpl in Hhist.
  destruct (remoteHistory env token (trace s)) as [cloud|]; destruct Hhist as [Hh Hl].
  - unfold inSync. by rewrite Hl, lookup_insert_eq.
  - eapply inSync_frame; [by rewrite Hl|done|done].
Qed.

(** The two halves of [syncHistory] make up the whole. *)
Lemma syncHistory_split token silent s :
  syncHistory env token silent s
  = (go <- syncHistory_begin token silent;;
     if go then syncHistory_run env token silent else ret tt) s.
Proof.
  unfold syncHistory, syncHistory_begin, syncHistory_run.
  destruct (falsy token); [done|].
  destruct silent; unfold bind, try_catch, when, ret, setIsSyncing, addLog, modify; simpl;
    reflexivity.
Qed.

Lemma startSync_steps token silent s runs :
  let sys' := startSync token silent s runs in
  App.step (app (state sys')) = App.step (app s)
  ∧ (inSync s → inSync (state sys')).
Proof.
  intros sys'. subst sys'. unfold startSync, syncHistory_begin.
  destruct (falsy token); [done|].
  destruct silent; simpl; (split; [done|]); by apply inSync_frame.
Qed.

Lemma syncHistory_run_steps token silent s :
  let s' := exec (syncHistory_run env token silent) s in
  App.step (app s') = App.step (app s)
  ∧ (inSync s → inSync s').
Proof.
  intros s'. subst s'.
  destruct (loadHistoryFromGist_run env token (trace s)) as (remote & calls & Hload).
  destruct s as [a ls past]. simpl in *. unfold exec, syncHistory_run.
  destruct silent;
    unfold bind, try_catch, when, ret, setIsSyncing, setSavedProjects,
      localStorage_setItem, addLog, modify, with_app; simpl;
    rewrite Hload; destruct remote as [cloud|]; simpl; (split; [done|]);
    first [by apply inSync_frame | intros _; unfold inSync; simpl; by rewrite lookup_insert_eq].
Qed.

Lemma restoreSession_run_steps token s :
  ∃ go s', restoreSession_run env token s = (Returned go, s')
           ∧ (App.step (app s') = PROMPT ∨ App.step (app s') = CONFIG)
           ∧ (inSync s → inSync s').
Proof.
  unfold restoreSession_run, verifyGithubToken, try_catch, bind, call, ret, throw,
    updateConfig, setStep, addLog, modify, with_app. simpl.
  destruct (env (trace s) (VerifyToken token)) as [e|[e|u]|json]; simpl;
    do 2 eexists; (split; [reflexivity|]); simpl;
    (split; [by (left + right)|]); by apply inSync_frame.
Qed.

Lemma mount_inSync (storage : gmap string Stored) :
  wellStored storage → inSync (state (mount storage)).
Proof.
  intros Hwell. unfold wellStored in Hwell.
  assert (∃ config runs,
            mount storage
            = mkSys
                (mkState
                   (App.with_savedProjects
                      match storage !! "autodeploy_history" with
                      | Some (StoredHistory h) => h
                      | _ => []
                      end
                      (App.with_config config App.initial))
                   storage [])
                runs) as (config & runs & ->).
  { unfold mount, restoreSession_begin, bind, updateConfig, setSavedProjects, modify, ret.
    cbn [localStorage].
    destruct (storage !! "autodeploy_config") as [[c|h]|];
      try (destruct (falsy (AppConfig.githubToken c)));
      destruct (storage !! "autodeploy_history") as [[c'|h']|];
      first [done | exists c; eexists; reflexivity | eexists _, _; reflexivity]. }
  unfold inSync. simpl.
  by destruct (storage !! "autodeploy_history") as [[c'|h']|].
Qed.

Lemma handleLogin_begin_frame render s :
  ∃ go logs,
    handleLogin_begin render s
    = (Returned go, mkState (App.with_logs logs (app s)) (localStorage s) (trace s)).
Proof.
  unfold handleLogin_begin. destruct (falsy _).
  - exists false, (App.logs (app s)). destruct s as [[] ? ?]. reflexivity.
  - by eexists _, _.
Qed.

Lemma handleLogin_run_steps render s :
  ∃ go s', handleLogin_run env render s = (Returned go, s')
           ∧ App.step (app s') = (if go then PROMPT else App.step (app s))
           ∧ (inSync s → inSync s').
Proof.
  unfold handleLogin_run, verifyGithubToken, try_catch, bind, call, ret, throw, handleError,
    setConfig, saveConfig, localStorage_setItem, setStep, addLog, modify, with_app. simpl.
  destruct (env (trace s) (VerifyToken (AppConfig.githubToken (App.config render))))
    as [e|[e|u]|json]; simpl;
    do 2 eexists; (split; [reflexivity|]); simpl; (split; [done|]);
    first [by apply inSync_frame | unfold inSync; simpl; by rewrite lookup_insert_ne].
Qed.

(** The halves of [handleLogin] make up the whole. *)
Lemma handleLogin_split render s :
  handleLogin env render s
  = (go <- handleLogin_begin render;;
     if go then
       verified <- handleLogin_run env render;;
       if verified then syncHistory env (AppConfig.githubToken (App.config render)) false
       else ret tt
     else ret tt) s.
Proof.
  unfold handleLogin, handleLogin_begin, handleLogin_run. cbv zeta.
  destruct (falsy (AppConfig.githubToken (App.config render))) eqn:Hfalsy; [done|].
  assert (AppConfig.githubToken (App.config render) ≠ "") as Htoken
    by (by apply String.eqb_neq).
  unfold verifyGithubToken, try_catch, bind, call, ret, throw, handleError,
    setConfig, saveConfig, localStorage_setItem, setStep, addLog, modify, with_app. simpl.
  destruct (env (trace s) (VerifyToken (AppConfig.githubToken (App.config render))))
    as [e|[e|u]|json]; simpl; try reflexivity.
  match goal with |- context [syncHistory env ?t false ?s1] =>
    destruct (syncHistory_effect env t false s1 Htoken) as (calls & Hret & _);
    destruct (syncHistory env t false s1) as [o s2]
  end.
  simpl in Hret. by subst o.
Qed.

Lemma handleGenerate_run_steps render s :
  let s' := exec (handleGenerate_run env render) s in
  (App.step (app s') = REVIEW ∨ App.step (app s') = PROMPT)
  ∧ (inSync s → inSync s').
Proof.
  intros s'. subst s'. unfold exec.
  destruct (generateProjectCode_run env (App.prompt render) (App.mode render) s)
    as (out & calls & Hgen).
  destruct out as [generated|e].
  - destruct (handleGenerate_run_returned env render s generated _ Hgen)
      as (logs & calls' & ->). simpl. split; [by left|]. intros _.
    unfold inSync. simpl. by rewrite lookup_insert_eq.
  - assert (handleGenerate_run env render s
            = (Returned tt,
               exec (handleError e;; setStep PROMPT)
                 (mkState (app s) (localStorage s) (trace s ++ calls)))) as ->.
    { unfold handleGenerate_run, try_catch. unfold bind at 1. by rewrite Hgen. }
    simpl. split; [by right|]. by apply inSync_frame.
Qed.

Lemma handleDeploy_run_steps render project s :
  let s' := exec (handleDeploy_run env btoa_utf8 render project) s in
  (App.step (app s') = SUCCESS ∨ App.step (app s') = REVIEW)
  ∧ (inSync s → inSync s').
Proof.
  intros s'. subst s'. unfold exec.
  destruct (confined_deploy env btoa_utf8 (App.config render) project s)
    as (logs & calls & Hs & _).
  destruct (deploy env btoa_utf8 (App.config render) project s) as [[result|e] s1] eqn:Hdeploy;
    simpl in Hs; subst s1.
  - rewrite (handleDeploy_run_returned _ _ _ _ _ _ _ Hdeploy). simpl.
    split; [by left|]. by apply inSync_frame.
  - rewrite (handleDeploy_run_thrown _ _ _ _ _ _ _ Hdeploy). simpl.
    split; [by right|]. by apply inSync_frame.
Qed.

Lemma saveHistory_steps render newHistory s :
  let s' := exec (saveHistory env render newHistory) s in
  App.step (app s') = App.step (app s) ∧ inSync s'.
Proof.
  intros s'. subst s'. unfold exec.
  destruct (saveHistory_run env render newHistory s) as [calls ->]. simpl.
  split; [done|]. unfold inSync. simpl. by rewrite lookup_insert_eq.
Qed.

Lemma saveCurrentProject_steps render s :
  let s' := exec (saveCurrentProject env render) s in
  App.step (app s') = App.step (app s) ∧ (inSync s → inSync s').
Proof.
  intros s'. subst s'. unfold exec.
  destruct (App.project render) as [project|] eqn:Hproject.
  - destruct (saveCurrentProject_run env render project s Hproject) as [calls ->].
    destruct (existsb _ _); simpl; (split; [done|]).
    + by apply inSync_frame.
    + intros _. unfold inSync. simpl. by rewrite lookup_insert_eq.
  - unfold saveCurrentProject. by rewrite Hproject.
Qed.

(** Every case of [dispatch], with the buttons decided. *)
Ltac by_event ev sys :=
  destruct ev; unfold dispatch;
  repeat match goal with
         | |- context [if ?b then _ else _] => destruct b eqn:?
         | |- context [match handleDeploy_guard ?a with _ => _ end] =>
             destruct (handleDeploy_guard a) eqn:?
         | |- context [match App.savedProjects ?a !! ?i with _ => _ end] =>
             destruct (App.savedProjects a !! i) eqn:?
         | |- context [match inFlight ?sys !! ?i with _ => _ end] =>
             destruct (inFlight sys !! i) as [[?|? ?|? ?|?|?]|] eqn:?
         end.

Lemma generateButton_spec (a : App.t) :
  generateButton a = true →
  App.step a = PROMPT ∧ blank (App.prompt a) = false ∧ App.showHistory a = false.
Proof.
  unfold generateButton, panelVisible. destruct (App.step a), (blank _), (App.showHistory a),
    (App.showAbout a); simpl; try discriminate; done.
Qed.




Lemma handleGenerate_begin_not_blank (a : App.t) s :
  blank (App.prompt a) = false →
  ∃ logs, handleGenerate_begin a s
          = (Returned true,
             mkState (App.with_logs logs (App.with_step GENERATING (app s)))
               (localStorage s) (trace s)).
Proof.
  intros Hblank. unfold handleGenerate_begin. rewrite Hblank.
  destruct (App.mode a); by eexists.
Qed.

Lemma loginForm_spec (a : App.t) :
  loginForm a = true → App.step a = CONFIG ∧ App.showHistory a = false.
Proof.
  unfold loginForm, panelVisible. rewrite !andb_true_iff, !negb_true_iff.
  by intros [[_ Hshow] Hstep%bool_decide_eq_true].
Qed.

(** One event keeps the stored history and the saved projects in step. *)
Lemma dispatch_inSync (ev : Event) sys :
  inSync (state sys) → inSync (state (dispatch env btoa_utf8 ev sys)).
Proof.
  intros Hsys.
  by_event ev sys; simpl; try done;
    try (by (eapply inSync_frame; [| |exact Hsys])).
  - destruct (handleLogin_begin_frame (app (state sys)) (state sys)) as (go & logs & ->).
    destruct go; simpl; by eapply inSync_frame.
  - destruct (generateButton_spec _ ltac:(eassumption)) as (_ & Hblank & _).
    destruct (handleGenerate_begin_not_blank (app (state sys)) (state sys) Hblank)
      as [logs ->]. simpl. by eapply inSync_frame.
  - by apply handleGenerate_run_steps.
  - by apply handleDeploy_run_steps.
  - by apply syncHistory_run_steps.
  - destruct (restoreSession_run_steps token (state sys)) as (go & s' & -> & _ & Hs').
    destruct go; [|by apply Hs'].
    by apply startSync_steps, Hs'.
  - destruct (handleLogin_run_steps render (state sys)) as (go & s' & -> & _ & Hs').
    destruct go; [|by apply Hs'].
    by apply startSync_steps, Hs'.
  - by apply startSync_steps.
  - apply saveHistory_steps.
  - by apply saveCurrentProject_steps.
Qed.

(** X23. Whatever was stored when the component mounted, whatever the user
    does with any of its controls and whatever the environment answers,
    the stored history and the saved projects of the state agree after
    every event: [localStorage] holds exactly the list shown, and it holds
    none only while that list is empty. The events are those of the event
    loop: every control of the component, and the settling of the runs in
    flight (login, generation, deployment, synchronisation, verification
    of the stored token) in any order. *)
Theorem history_is_written_through (storage : gmap string Stored) (evs : list Event) :
  wellStored storage →
  inSync (state (run_events env btoa_utf8 evs (mount storage))).
Proof.
  intros Hinit%mount_inSync. unfold run_events.
  revert Hinit. generalize (mount storage).
  induction evs as [|ev evs IH]; intros sys Hsys; [done|].
  simpl. by apply IH, dispatch_inSync.
Qed.

End EventLoop.

(** A component mounted over empty storage is in its initial state. *)
Example mount_empty : mount ∅ = initialSys.
Proof. reflexivity. Qed.

(** After a generation the user can go back to the prompt. *)
Example back_to_prompt :
  App.step
    (app (state (run_events friendly plain
                   [TypeToken "ghp_token"; SubmitLogin; Settle 0; Settle 0;
                    TypePrompt "a todo app"; ClickGenerate; Settle 0; ClickBack]
                   initialSys)))
  = PROMPT.
Proof. vm_compute. reflexivity. Qed.

(** The stored token stops verifying while the user is already at work:
    the component falls back to [CONFIG] with a generation in flight. *)
Example back_to_config :
  let flaky : Env :=
    λ past c,
      match c return Answer c with
      | VerifyToken _ =>
          match past with
          | [] => Ok (inr "octocat")
          | _ => Rejected (Error.mk "Failed to fetch")
          end
      | c' => friendly past c'
      end in
  let sys :=
    run_events flaky plain
      [SubmitLogin; Settle 1; Settle 1; TypePrompt "a todo app"; ClickGenerate; Settle 0]
      (mount {[ "autodeploy_config" := StoredConfig sampleConfig ]}) in
  App.step (app (state sys)) = CONFIG
  ∧ List.filter (λ r, match r with GenerateRun _ => true | _ => false end) (inFlight sys)
    = inFlight sys
  ∧ length (inFlight sys) = 1.
Proof. vm_compute. done. Qed.

(** A login that settles late re-enables the Generate button while a
    generation is in flight: the stored token is verified at start-up, the
    user has pressed Login meanwhile, and that second verification answers
    only after a generation has started. *)
Example two_generations_in_flight :
  let sys :=
    run_events friendly plain
      [SubmitLogin; Settle 0; Settle 1; TypePrompt "a todo app"; ClickGenerate;
       Settle 0; Settle 1; ClickGenerate]
      (mount {[ "autodeploy_config" := StoredConfig sampleConfig ]}) in
  length (List.filter (λ r, match r with GenerateRun _ => true | _ => false end)
            (inFlight sys))
  = 2.
Proof. vm_compute. reflexivity. Qed.

Lemma history_is_written_through_witness :
  wellStored (localStorage storedSession)
  ∧ inSync (state (run_events (cloudHolds sampleCloud) plain
                     [Settle 0; Settle 0; ClickHistory; ClickDelete 0; ClickSync; Settle 0]
                     (mount (localStorage storedSession)))).
Proof.
  split; [exact I|].
  apply (history_is_written_through (cloudHolds sampleCloud) plain
           (localStorage storedSession)).
  exact I.
Defined.

(** ** The progress column *)

(** X26. [ProgressStep] shows a step as active exactly when it is the
    current one and as completed exactly when it comes earlier in the order
    of the phases; the last assignment of the source, for [GENERATING] under
    [PROMPT], never changes the outcome. Of the steps the column shows
    exactly the current one is active, and none while the phase is [REVIEW],
    which the column does not show. *)
Theorem ProgressStep_states (s current : Step) :
  (ProgressStep s current = active ↔ s = current)
  ∧ (ProgressStep s current = completed ↔ (indexOf s order < indexOf current order)%Z)
  ∧ filter (λ shown, ProgressStep shown current = active) shownSteps
    = (if decide (current = REVIEW) then [] else [current]).
Proof.
  destruct s, current; vm_compute; (split; [|split; [|done]]); split; (done || lia || idtac);
    intros H; try discriminate H; try done.
Qed.
